(** * IT access request assistant: the authorization core

    A shallow embedding of the backend services of the access request
    assistant (rule engine, request state machine, approval ledger,
    approval events and escalation tracker) together with the properties
    established about them.

    Conventions of the embedding.
    - A TypeScript string union is an inductive type; its [_toString]
      function gives back the literal used in template strings.
    - An optional property [x?: T] is an [option T]; JavaScript truthiness
      of an optional string is [truthy] (present and not the empty string).
    - The module-level [Map]s are explicit stores passed in and returned.
      [accessRequests] is an insertion-ordered association list because
      [Array.from(map.values())] exposes the insertion order; the two other
      stores are only looked up by key and are [gmap]s.
    - [Date.now()], [new Date().toISOString()] and [Math.random()] are inputs
      of the functions that read them.
    - A function that can [throw] returns an [outcome].
    - A property lookup [object[key]] on a parsed JSON object is a [gmap]
      lookup of the object's own keys.  The names every object inherits
      from [Object.prototype] are listed in [objectPrototypeKeys]; the one
      lookup of the sources made with a free string, the assignment lookup
      of [validateProjectAccess], finds for such a name a function instead
      of a list and then throws.  [gateThrows] says when; the functions
      built on the lookup give the code's answer where it is [false]. *)

From Stdlib Require Import String Ascii List Bool ZArith QArith Qround Lia.
From stdpp Require Import base option list strings gmap.

Local Open Scope string_scope.
Local Open Scope list_scope.
Local Open Scope stdpp_scope.

(** ** models/AccessRequest.ts *)

Inductive UserRole := Intern | Developer | Manager | ITAdministrator.
Inductive SystemName := Email | GitHub | Jira.
Inductive AccessLevel :=
  ReadOnly | ReadWrite | Admin | View | Comment | CreateEdit | Default.
Inductive RequestStatus := approved | pending | rejected.
Inductive TaskRequestStatus :=
  DRAFT | IN_PROGRESS | AWAITING_APPROVAL | APPROVED | REJECTED.
Inductive AgentConfidence := HIGH | MEDIUM | LOW.

#[global] Instance UserRole_eq_dec : EqDecision UserRole.
Proof. solve_decision. Defined.
#[global] Instance SystemName_eq_dec : EqDecision SystemName.
Proof. solve_decision. Defined.
#[global] Instance AccessLevel_eq_dec : EqDecision AccessLevel.
Proof. solve_decision. Defined.
#[global] Instance RequestStatus_eq_dec : EqDecision RequestStatus.
Proof. solve_decision. Defined.
#[global] Instance TaskRequestStatus_eq_dec : EqDecision TaskRequestStatus.
Proof. solve_decision. Defined.
#[global] Instance AgentConfidence_eq_dec : EqDecision AgentConfidence.
Proof. solve_decision. Defined.

Definition UserRole_toString (r : UserRole) : string :=
  match r with
  | Intern => "Intern"
  | Developer => "Developer"
  | Manager => "Manager"
  | ITAdministrator => "IT Administrator"
  end.

Definition SystemName_toString (s : SystemName) : string :=
  match s with Email => "Email" | GitHub => "GitHub" | Jira => "Jira" end.

Definition AccessLevel_toString (l : AccessLevel) : string :=
  match l with
  | ReadOnly => "read-only"
  | ReadWrite => "read-write"
  | Admin => "admin"
  | View => "view"
  | Comment => "comment"
  | CreateEdit => "create-edit"
  | Default => "default"
  end.

Definition TaskRequestStatus_toString (s : TaskRequestStatus) : string :=
  match s with
  | DRAFT => "DRAFT"
  | IN_PROGRESS => "IN_PROGRESS"
  | AWAITING_APPROVAL => "AWAITING_APPROVAL"
  | APPROVED => "APPROVED"
  | REJECTED => "REJECTED"
  end.

(** JavaScript truthiness of [s?: string]. *)
Definition truthy (o : option string) : bool :=
  match o with
  | Some s => negb (String.eqb s "")
  | None => false
  end.

(** [b === true], and also the truthiness of [b], for [b?: boolean]. *)
Definition is_true_flag (o : option bool) : bool :=
  match o with Some true => true | _ => false end.

(** [a || b] on optional strings. *)
Definition or_else (a b : option string) : option string :=
  if truthy a then a else b.

Record User := {
  u_id : string;
  u_name : string;
  u_email : string;
  u_role : UserRole
}.

Record Project := {
  p_id : string;
  p_name : string;
  p_managerId : string
}.

Record ValidationResult := {
  isValid : bool;
  vr_requiresApproval : bool;
  vr_requiresEscalation : option bool;
  vr_escalationTo : option string;
  allowedAccessLevel : option AccessLevel;
  vr_rejectionReason : option string;
  downgradeReason : option string
}.

(** ** services/ruleEngine.service.ts *)

Record SystemRules := {
  sr_default : option bool;
  readOnly : option bool;
  readWrite : option bool;
  sr_admin : option bool;
  sr_view : option bool;
  sr_comment : option bool;
  createEdit : option bool;
  specificRepo : option bool;
  sr_requiresApproval : bool;
  sr_accessLevel : option AccessLevel
}.

Record AdminAccess := { aa_requiresApproval : bool }.

Record RoleRules := {
  rr_system : SystemName -> option SystemRules;
  adminAccess : option AdminAccess;
  canApprove : option bool;
  finalApprovalAuthority : option bool
}.

(** The four JSON files of [backend/src/data] the services import.  They are
    not part of the sources at hand, so every function that reads one takes
    them as an argument. *)
Record DataFiles := {
  accessRules : UserRole -> option RoleRules;
  projectAssignments : gmap string (list string);
  projects : list Project;
  users : list User
}.

Record ProjectAccess := {
  isAssigned : bool;
  managerId : option string
}.

Definition find_user (d : DataFiles) (userId : string) : option User :=
  List.find (fun u => String.eqb (u_id u) userId) (users d).

Definition find_project (d : DataFiles) (projectId : string) : option Project :=
  List.find (fun p => String.eqb (p_id p) projectId) (projects d).

(** [Array.prototype.includes] on an array of strings. *)
Definition includes (l : list string) (x : string) : bool :=
  existsb (fun y => String.eqb y x) l.

(** The own and inherited properties of [Object.prototype]: for each of
    these names [object[name]] on a plain object that has no own key of that
    name is a function (for [__proto__] the prototype itself), which is
    truthy and has no [includes]. *)
Definition objectPrototypeKeys : list string :=
  [ "constructor"; "__defineGetter__"; "__defineSetter__"; "hasOwnProperty";
    "__lookupGetter__"; "__lookupSetter__"; "isPrototypeOf";
    "propertyIsEnumerable"; "toString"; "valueOf"; "__proto__";
    "toLocaleString" ].

(** When [(assignments[userId] || []).includes(projectId)] throws a
    [TypeError]: the assignment file has no own key [userId] and [userId]
    names an inherited property. *)
Definition lookupThrows (d : DataFiles) (userId : string) : bool :=
  bool_decide (projectAssignments d !! userId = None)
  && includes objectPrototypeKeys userId.

(** When [validateProjectAccess], and with it [validateAccessRequest] called
    with a project id, throws instead of returning: the lookup is reached,
    which it is not for a user the user file lists as IT Administrator, and
    it throws. *)
Definition gateThrows (d : DataFiles) (userId : string) : bool :=
  negb (bool_decide (u_role <$> find_user d userId = Some ITAdministrator))
  && lookupThrows d userId.

(** The value returned; it is the code's answer where [gateThrows] is
    [false], and the code returns nothing where it is [true]. *)
Definition validateProjectAccess (d : DataFiles) (userId projectId : string)
  : ProjectAccess :=
  let user := find_user d userId in
  if bool_decide (u_role <$> user = Some ITAdministrator) then
    {| isAssigned := true; managerId := None |}
  else
    let userProjects := default [] (projectAssignments d !! userId) in
    let isAssigned := includes userProjects projectId in
    if negb isAssigned then
      let project := find_project d projectId in
      {| isAssigned := false; managerId := p_managerId <$> project |}
    else
      {| isAssigned := true; managerId := None |}.

(** The entries of [accessLevelMap].  There is one for every level, so the
    "Invalid access level" answer for a missing entry cannot occur. *)
Definition accessLevelMap (l : AccessLevel) (r : SystemRules) : bool :=
  match l with
  | ReadOnly => is_true_flag (readOnly r)
  | ReadWrite => is_true_flag (readWrite r) || is_true_flag (readOnly r)
  | Admin => is_true_flag (sr_admin r)
  | View => is_true_flag (sr_view r)
  | Comment => is_true_flag (sr_comment r) || is_true_flag (sr_view r)
  | CreateEdit => is_true_flag (createEdit r) || is_true_flag (sr_comment r)
  | Default => is_true_flag (sr_default r)
  end.

Definition findDowngradedAccessLevel (systemRules : SystemRules)
    (requestedLevel : AccessLevel) (system : SystemName) (userRole : UserRole)
  : option AccessLevel :=
  if bool_decide (system = Email) && bool_decide (userRole = Intern)
     && is_true_flag (sr_default systemRules)
     && (bool_decide (requestedLevel = ReadOnly)
         || bool_decide (requestedLevel = ReadWrite)
         || bool_decide (requestedLevel = Admin))
  then Some Default
  else if bool_decide (requestedLevel = ReadWrite)
          && is_true_flag (readOnly systemRules) then Some ReadOnly
  else if bool_decide (requestedLevel = CreateEdit)
          && is_true_flag (sr_comment systemRules) then Some Comment
  else if bool_decide (requestedLevel = CreateEdit)
          && is_true_flag (sr_view systemRules) then Some View
  else if bool_decide (requestedLevel = Comment)
          && is_true_flag (sr_view systemRules) then Some View
  else None.

Definition invalid (reason : string) : ValidationResult :=
  {| isValid := false; vr_requiresApproval := false;
     vr_requiresEscalation := None; vr_escalationTo := None;
     allowedAccessLevel := None; vr_rejectionReason := Some reason;
     downgradeReason := None |}.

Definition valid (requiresApproval : bool) (level : AccessLevel)
    (downgrade : option string) : ValidationResult :=
  {| isValid := true; vr_requiresApproval := requiresApproval;
     vr_requiresEscalation := None; vr_escalationTo := None;
     allowedAccessLevel := Some level; vr_rejectionReason := None;
     downgradeReason := downgrade |}.

Definition escalate (target : option string) : ValidationResult :=
  {| isValid := false; vr_requiresApproval := false;
     vr_requiresEscalation := Some true; vr_escalationTo := target;
     allowedAccessLevel := None;
     vr_rejectionReason :=
       Some "You are not assigned to this project. Access requires escalation to the project manager.";
     downgradeReason := None |}.

(** Steps 2 and 3 of [validateAccessRequest]: everything after the project
    assignment check. *)
Definition validateRoleAndLevel (d : DataFiles) (userRole : UserRole)
    (system : SystemName) (requestedAccessLevel : AccessLevel)
  : ValidationResult :=
  match accessRules d userRole with
  | None => invalid ("Unknown role: " +:+ UserRole_toString userRole)
  | Some roleRules =>
    match rr_system roleRules system with
    | None =>
      invalid ("Access to " +:+ SystemName_toString system
               +:+ " is not defined for role " +:+ UserRole_toString userRole)
    | Some systemRules =>
      if bool_decide (requestedAccessLevel = Admin) then
        if bool_decide (userRole = ITAdministrator) then valid false Admin None
        else if bool_decide (userRole = Manager) && bool_decide (system = Jira)
        then valid false Admin None
        else if bool_decide (userRole = Developer)
                && bool_decide (aa_requiresApproval <$> adminAccess roleRules
                                = Some true)
        then valid true Admin None
        else invalid ("Role " +:+ UserRole_toString userRole
                      +:+ " cannot be granted admin access to "
                      +:+ SystemName_toString system)
      else if negb (accessLevelMap requestedAccessLevel systemRules) then
        match findDowngradedAccessLevel systemRules requestedAccessLevel
                system userRole with
        | Some downgradedLevel =>
          valid (sr_requiresApproval systemRules) downgradedLevel
            (Some ("Requested " +:+ AccessLevel_toString requestedAccessLevel
                   +:+ " but role " +:+ UserRole_toString userRole
                   +:+ " is limited to " +:+ AccessLevel_toString downgradedLevel
                   +:+ " for " +:+ SystemName_toString system))
        | None =>
          invalid ("Role " +:+ UserRole_toString userRole
                   +:+ " cannot be granted "
                   +:+ AccessLevel_toString requestedAccessLevel
                   +:+ " access to " +:+ SystemName_toString system)
        end
      else
        valid (sr_requiresApproval systemRules)
          (default requestedAccessLevel (sr_accessLevel systemRules)) None
    end
  end.

Definition validateAccessRequest (d : DataFiles) (userId : string)
    (userRole : UserRole) (system : SystemName)
    (requestedAccessLevel : AccessLevel) (projectId : option string)
  : ValidationResult :=
  match projectId with
  | Some pid =>
    if truthy projectId && negb (isAssigned (validateProjectAccess d userId pid))
    then escalate (managerId (validateProjectAccess d userId pid))
    else validateRoleAndLevel d userRole system requestedAccessLevel
  | None => validateRoleAndLevel d userRole system requestedAccessLevel
  end.

Definition canApproveRequests (d : DataFiles) (role : UserRole) : bool :=
  match accessRules d role with
  | Some roleRules =>
    is_true_flag (canApprove roleRules)
    || is_true_flag (finalApprovalAuthority roleRules)
  | None => false
  end.

Definition hasFinalApprovalAuthority (d : DataFiles) (role : UserRole) : bool :=
  match accessRules d role with
  | Some roleRules => is_true_flag (finalApprovalAuthority roleRules)
  | None => false
  end.

(** ** services/requestState.service.ts *)

Record RequestState := {
  rs_user : string;
  rs_role : UserRole;
  rs_system : option SystemName;
  rs_accessLevel : option AccessLevel;
  rs_project : option string;
  rs_targetEmployeeId : option string;
  rs_status : TaskRequestStatus;
  agentConfidence : AgentConfidence;
  missingFields : list string;
  rs_accessLink : option string;
  rs_rejectionReason : option string;
  rs_approverId : option string;
  rs_approverRole : option UserRole;
  rs_approvedAt : option string;
  rs_rejectedAt : option string
}.

(** [Partial<RequestState>]: [None] is an absent key.  Every caller builds
    the object from defined values only, so a present key carries a value. *)
Record RequestStateUpdates := {
  upd_user : option string;
  upd_role : option UserRole;
  upd_system : option SystemName;
  upd_accessLevel : option AccessLevel;
  upd_project : option string;
  upd_targetEmployeeId : option string;
  upd_status : option TaskRequestStatus;
  upd_agentConfidence : option AgentConfidence;
  upd_missingFields : option (list string);
  upd_accessLink : option string;
  upd_rejectionReason : option string;
  upd_approverId : option string;
  upd_approverRole : option UserRole;
  upd_approvedAt : option string;
  upd_rejectedAt : option string
}.

Definition no_updates : RequestStateUpdates :=
  {| upd_user := None; upd_role := None; upd_system := None;
     upd_accessLevel := None; upd_project := None;
     upd_targetEmployeeId := None; upd_status := None;
     upd_agentConfidence := None; upd_missingFields := None;
     upd_accessLink := None; upd_rejectionReason := None;
     upd_approverId := None; upd_approverRole := None;
     upd_approvedAt := None; upd_rejectedAt := None |}.

(** The per-user store [requestStates]. *)
Abbreviation StateStore := (gmap string RequestState).

Definition createInitialRequestState (userId : string) (role : UserRole)
  : RequestState :=
  {| rs_user := userId; rs_role := role; rs_system := None;
     rs_accessLevel := None; rs_project := None; rs_targetEmployeeId := None;
     rs_status := DRAFT; agentConfidence := MEDIUM;
     missingFields := ["system"; "accessLevel"];
     rs_accessLink := None; rs_rejectionReason := None;
     rs_approverId := None; rs_approverRole := None;
     rs_approvedAt := None; rs_rejectedAt := None |}.

Definition initializeRequestState (requestStates : StateStore)
    (userId : string) (role : UserRole) : RequestState * StateStore :=
  let state := createInitialRequestState userId role in
  (state, <[userId := state]> requestStates).

Definition getRequestState (requestStates : StateStore) (userId : string)
  : option RequestState :=
  requestStates !! userId.

(** [missing.push(x)] *)
Definition push (missing : list string) (x : string) : list string :=
  missing ++ [x].

Record StateValidation := {
  sv_isValid : bool;
  sv_missingFields : list string;
  nextAction : string
}.

Definition validateRequestState (state : RequestState) : StateValidation :=
  let missing := [] in
  let missing :=
    if negb (bool_decide (is_Some (rs_system state)))
    then push missing "system" else missing in
  let missing :=
    if (bool_decide (rs_system state = Some Email)
        || bool_decide (rs_system state = Some Jira))
       && bool_decide (rs_role state = Intern)
       && negb (truthy (rs_targetEmployeeId state))
    then push missing "targetEmployeeId" else missing in
  let missing :=
    if bool_decide (rs_system state = Some GitHub)
       && negb (truthy (rs_project state))
    then push missing "project" else missing in
  let missing :=
    if negb (bool_decide (is_Some (rs_accessLevel state)))
    then push missing "accessLevel" else missing in
  let nextAction :=
    match missing with
    | first :: _ => "Need: " +:+ first
    | [] => "Ready to submit"
    end in
  {| sv_isValid := bool_decide (length missing = 0);
     sv_missingFields := missing;
     nextAction := nextAction |}.

Definition calculateMissingFields (state : RequestState) : list string :=
  sv_missingFields (validateRequestState state).

Definition calculateConfidence (state : RequestState) : AgentConfidence :=
  match rs_accessLevel state with
  | None => MEDIUM
  | Some level =>
    if bool_decide (level = ReadOnly) then HIGH
    else if bool_decide (level = Admin) && bool_decide (rs_role state = Intern)
    then LOW
    else MEDIUM
  end.

(** [{ ...currentState, ...updates }] *)
Definition spread (s : RequestState) (u : RequestStateUpdates) : RequestState :=
  {| rs_user := default (rs_user s) (upd_user u);
     rs_role := default (rs_role s) (upd_role u);
     rs_system := from_option Some (rs_system s) (upd_system u);
     rs_accessLevel := from_option Some (rs_accessLevel s) (upd_accessLevel u);
     rs_project := from_option Some (rs_project s) (upd_project u);
     rs_targetEmployeeId :=
       from_option Some (rs_targetEmployeeId s) (upd_targetEmployeeId u);
     rs_status := default (rs_status s) (upd_status u);
     agentConfidence := default (agentConfidence s) (upd_agentConfidence u);
     missingFields := default (missingFields s) (upd_missingFields u);
     rs_accessLink := from_option Some (rs_accessLink s) (upd_accessLink u);
     rs_rejectionReason :=
       from_option Some (rs_rejectionReason s) (upd_rejectionReason u);
     rs_approverId := from_option Some (rs_approverId s) (upd_approverId u);
     rs_approverRole :=
       from_option Some (rs_approverRole s) (upd_approverRole u);
     rs_approvedAt := from_option Some (rs_approvedAt s) (upd_approvedAt u);
     rs_rejectedAt := from_option Some (rs_rejectedAt s) (upd_rejectedAt u) |}.

Definition set_project (s : RequestState) (v : option string) : RequestState :=
  {| rs_user := rs_user s; rs_role := rs_role s; rs_system := rs_system s;
     rs_accessLevel := rs_accessLevel s; rs_project := v;
     rs_targetEmployeeId := rs_targetEmployeeId s; rs_status := rs_status s;
     agentConfidence := agentConfidence s; missingFields := missingFields s;
     rs_accessLink := rs_accessLink s;
     rs_rejectionReason := rs_rejectionReason s;
     rs_approverId := rs_approverId s; rs_approverRole := rs_approverRole s;
     rs_approvedAt := rs_approvedAt s; rs_rejectedAt := rs_rejectedAt s |}.

Definition set_accessLevel (s : RequestState) (v : option AccessLevel)
  : RequestState :=
  {| rs_user := rs_user s; rs_role := rs_role s; rs_system := rs_system s;
     rs_accessLevel := v; rs_project := rs_project s;
     rs_targetEmployeeId := rs_targetEmployeeId s; rs_status := rs_status s;
     agentConfidence := agentConfidence s; missingFields := missingFields s;
     rs_accessLink := rs_accessLink s;
     rs_rejectionReason := rs_rejectionReason s;
     rs_approverId := rs_approverId s; rs_approverRole := rs_approverRole s;
     rs_approvedAt := rs_approvedAt s; rs_rejectedAt := rs_rejectedAt s |}.

Definition set_derived (s : RequestState) (missing : list string)
    (confidence : AgentConfidence) : RequestState :=
  {| rs_user := rs_user s; rs_role := rs_role s; rs_system := rs_system s;
     rs_accessLevel := rs_accessLevel s; rs_project := rs_project s;
     rs_targetEmployeeId := rs_targetEmployeeId s; rs_status := rs_status s;
     agentConfidence := confidence; missingFields := missing;
     rs_accessLink := rs_accessLink s;
     rs_rejectionReason := rs_rejectionReason s;
     rs_approverId := rs_approverId s; rs_approverRole := rs_approverRole s;
     rs_approvedAt := rs_approvedAt s; rs_rejectedAt := rs_rejectedAt s |}.

Definition set_status (s : RequestState) (v : TaskRequestStatus)
  : RequestState :=
  {| rs_user := rs_user s; rs_role := rs_role s; rs_system := rs_system s;
     rs_accessLevel := rs_accessLevel s; rs_project := rs_project s;
     rs_targetEmployeeId := rs_targetEmployeeId s; rs_status := v;
     agentConfidence := agentConfidence s; missingFields := missingFields s;
     rs_accessLink := rs_accessLink s;
     rs_rejectionReason := rs_rejectionReason s;
     rs_approverId := rs_approverId s; rs_approverRole := rs_approverRole s;
     rs_approvedAt := rs_approvedAt s; rs_rejectedAt := rs_rejectedAt s |}.

Definition updateRequestState (requestStates : StateStore)
    (currentState : RequestState) (updates : RequestStateUpdates)
  : RequestState * StateStore :=
  let newState := spread currentState updates in
  let newState :=
    match upd_system updates with
    | Some sys =>
      if negb (bool_decide (Some sys = rs_system currentState)) then
        let newState :=
          if negb (bool_decide (sys = GitHub))
          then set_project newState None else newState in
        set_accessLevel newState None
      else newState
    | None => newState
    end in
  let validation := validateRequestState newState in
  let newState :=
    set_derived newState (sv_missingFields validation)
      (calculateConfidence newState) in
  let newState :=
    if bool_decide (rs_status newState = DRAFT)
       && bool_decide (is_Some (rs_system newState))
    then set_status newState IN_PROGRESS else newState in
  (newState, <[rs_user newState := newState]> requestStates).

Definition shouldAutoSubmit (state : RequestState) : bool :=
  let missing := calculateMissingFields state in
  bool_decide (length missing = 0)
  && bool_decide (is_Some (rs_system state))
  && bool_decide (is_Some (rs_accessLevel state))
  && (negb (bool_decide (rs_system state = Some GitHub))
      || bool_decide (is_Some (rs_project state)))
  && ((negb (bool_decide (rs_system state = Some Email))
       && negb (bool_decide (rs_system state = Some Jira)))
      || negb (bool_decide (rs_role state = Intern))
      || bool_decide (is_Some (rs_targetEmployeeId state))).

Definition validTransitions (fromStatus : TaskRequestStatus)
  : list TaskRequestStatus :=
  match fromStatus with
  | DRAFT => [IN_PROGRESS; DRAFT]
  | IN_PROGRESS => [IN_PROGRESS; AWAITING_APPROVAL; DRAFT]
  | AWAITING_APPROVAL => [APPROVED; REJECTED; DRAFT]
  | APPROVED => [DRAFT]
  | REJECTED => [DRAFT]
  end.

Definition validateStateTransition (fromStatus toStatus : TaskRequestStatus)
  : bool :=
  existsb (fun t => bool_decide (t = toStatus)) (validTransitions fromStatus).

Definition resetRequestState (requestStates : StateStore) (userId : string)
    (role : UserRole) : RequestState * StateStore :=
  let resetState := createInitialRequestState userId role in
  (resetState, <[userId := resetState]> requestStates).

Definition clearRequestState (requestStates : StateStore) (userId : string)
  : StateStore :=
  delete userId requestStates.

Definition updateRequestStateFromApproval (requestStates : StateStore)
    (userId accessLink : string) (approverId : option string)
    (approverRole : option UserRole) (approvedAt : option string)
  : option RequestState * StateStore :=
  match requestStates !! userId with
  | None => (None, requestStates)
  | Some currentState =>
    if negb (bool_decide (rs_status currentState = AWAITING_APPROVAL)) then
      (Some currentState, requestStates)
    else
      let updatedState :=
        {| rs_user := rs_user currentState; rs_role := rs_role currentState;
           rs_system := rs_system currentState;
           rs_accessLevel := rs_accessLevel currentState;
           rs_project := rs_project currentState;
           rs_targetEmployeeId := rs_targetEmployeeId currentState;
           rs_status := APPROVED;
           agentConfidence := agentConfidence currentState;
           missingFields := missingFields currentState;
           rs_accessLink := Some accessLink;
           rs_rejectionReason := None;
           rs_approverId := approverId;
           rs_approverRole := approverRole;
           rs_approvedAt := approvedAt;
           rs_rejectedAt := None |} in
      (Some updatedState, <[userId := updatedState]> requestStates)
  end.

Definition updateRequestStateFromRejection (requestStates : StateStore)
    (userId reason : string) (approverId : option string)
    (approverRole : option UserRole) (rejectedAt : option string)
  : option RequestState * StateStore :=
  match requestStates !! userId with
  | None => (None, requestStates)
  | Some currentState =>
    if negb (bool_decide (rs_status currentState = AWAITING_APPROVAL)) then
      (Some currentState, requestStates)
    else
      let updatedState :=
        {| rs_user := rs_user currentState; rs_role := rs_role currentState;
           rs_system := rs_system currentState;
           rs_accessLevel := rs_accessLevel currentState;
           rs_project := rs_project currentState;
           rs_targetEmployeeId := rs_targetEmployeeId currentState;
           rs_status := REJECTED;
           agentConfidence := agentConfidence currentState;
           missingFields := missingFields currentState;
           rs_accessLink := None;
           rs_rejectionReason := Some reason;
           rs_approverId := approverId;
           rs_approverRole := approverRole;
           rs_approvedAt := None;
           rs_rejectedAt := rejectedAt |} in
      (Some updatedState, <[userId := updatedState]> requestStates)
  end.

(** ** The ledger record (models/AccessRequest.ts) *)

Record AccessRequest := {
  ar_id : string;
  ar_userId : string;
  ar_userName : string;
  ar_userRole : UserRole;
  ar_system : SystemName;
  ar_accessLevel : AccessLevel;
  ar_project : option string;
  ar_projectId : option string;
  ar_projectOwnerManagerId : option string;
  ar_targetEmployeeId : option string;
  ar_employeeOwnerId : option string;
  assignedApproverId : option string;
  fallbackApproverId : option string;
  ar_reason : option string;
  ar_status : RequestStatus;
  ar_requiresApproval : bool;
  ar_requiresEscalation : option bool;
  ar_escalationTo : option string;
  approvalBy : option string;
  ar_approverId : option string;
  ar_approverRole : option UserRole;
  ar_approvedAt : option string;
  ar_rejectedAt : option string;
  ar_rejectionReason : option string;
  escalationJustification : option string;
  createdAt : string;
  updatedAt : string
}.

(** ** services/approvalEvent.service.ts *)

Inductive EventType := approval | rejection.

Record ApprovalEvent := {
  ev_type : EventType;
  ev_requestId : string;
  ev_managerId : string;
  ev_internId : string;
  managerMessage : string;
  internMessage : string;
  ev_projectOwnerManagerId : option string;
  projectOwnerMessage : option string;
  originalResourceOwnerId : option string;
  originalResourceOwnerMessage : option string;
  ev_approverRole : UserRole;
  ev_approvedAt : option string;
  ev_rejectedAt : option string;
  ev_accessLink : option string;
  ev_rejectionReason : option string
}.

Definition generateAccessLink (system : SystemName) (accessLevel : AccessLevel)
    (project userId targetEmployeeId : option string) : string :=
  match system with
  | GitHub =>
    if truthy project then
      let projectSlug :=
        if bool_decide (project = Some "Project Alpha") then "project-alpha"
        else if bool_decide (project = Some "Project Beta") then "project-beta"
        else "main" in
      "https://github.com/company/" +:+ projectSlug
    else "https://github.com/company"
  | Jira =>
    if truthy project then
      let projectKey :=
        if bool_decide (project = Some "Project Alpha") then "ALPHA"
        else if bool_decide (project = Some "Project Beta") then "BETA"
        else "MAIN" in
      "https://company.atlassian.net/projects/" +:+ projectKey
    else if truthy targetEmployeeId then
      "https://company.atlassian.net/people/"
      +:+ default "" targetEmployeeId
    else "https://company.atlassian.net"
  | Email =>
    let emailUserId := or_else targetEmployeeId userId in
    let email :=
      if truthy emailUserId then default "" emailUserId +:+ "@company.com"
      else "access@company.com" in
    "mailto:" +:+ email
  end.

(** [request.targetEmployeeId ? users.find(...) : null] *)
Definition targetEmployeeOf (d : DataFiles) (request : AccessRequest)
  : option User :=
  if truthy (ar_targetEmployeeId request)
  then find_user d (default "" (ar_targetEmployeeId request))
  else None.

(** [` to ${request.project}`] when the project is set, else the empty string. *)
Definition toProject (request : AccessRequest) : string :=
  if truthy (ar_project request)
  then " to " +:+ default "" (ar_project request) else "".

(** The common opening of the approver's message:
    [from ${userName} (${userRole}) for ${system} ${accessLevel} access]. *)
Definition requestPhrase (request : AccessRequest) : string :=
  "request from " +:+ ar_userName request +:+ " ("
  +:+ UserRole_toString (ar_userRole request) +:+ ") for "
  +:+ SystemName_toString (ar_system request) +:+ " "
  +:+ AccessLevel_toString (ar_accessLevel request) +:+ " access".

(** The common opening of the requester's message. *)
Definition yourRequestPhrase (request : AccessRequest) : string :=
  "Your request for " +:+ SystemName_toString (ar_system request) +:+ " "
  +:+ AccessLevel_toString (ar_accessLevel request) +:+ " access".

(** [targetEmployee?.name || 'employee'] *)
Definition targetEmployeeName (targetEmployee : option User) : string :=
  default "employee" (or_else (u_name <$> targetEmployee) (Some "employee")).

Definition isEmployeeOwned (request : AccessRequest) : bool :=
  truthy (ar_employeeOwnerId request) && truthy (ar_targetEmployeeId request).

Definition emitApprovalEvent (d : DataFiles) (request : AccessRequest)
    (approverId : string) (approverRole : UserRole)
    (accessLink approvedAt : string) : ApprovalEvent :=
  let targetEmployee := targetEmployeeOf d request in
  let managerMessage :=
    if isEmployeeOwned request then
      "Approved " +:+ requestPhrase request +:+ " to your account"
    else "Approved " +:+ requestPhrase request +:+ toProject request in
  let internMessage :=
    if isEmployeeOwned request then
      yourRequestPhrase request +:+ " to "
      +:+ targetEmployeeName targetEmployee
      +:+ "'s account has been approved. Access link: " +:+ accessLink
    else
      yourRequestPhrase request +:+ toProject request
      +:+ " has been approved. Access link: " +:+ accessLink in
  let override :=
    bool_decide (approverRole = ITAdministrator)
    && truthy (assignedApproverId request)
    && negb (bool_decide (assignedApproverId request = Some approverId)) in
  let originalResourceOwnerId :=
    if override then assignedApproverId request else None in
  let originalResourceOwnerMessage :=
    if override then
      if truthy (ar_project request) then
        Some ("IT Admin approved access for " +:+ ar_userName request
              +:+ " to " +:+ default "" (ar_project request))
      else
        match targetEmployee with
        | Some employee =>
          Some ("IT Admin approved access for " +:+ ar_userName request
                +:+ " to " +:+ u_name employee +:+ "'s "
                +:+ SystemName_toString (ar_system request) +:+ " account")
        | None =>
          Some ("IT Admin approved access for " +:+ ar_userName request
                +:+ " to " +:+ SystemName_toString (ar_system request))
        end
    else None in
  let projectOwnerMessage :=
    if override && truthy (ar_project request)
    then originalResourceOwnerMessage else None in
  {| ev_type := approval;
     ev_requestId := ar_id request;
     ev_managerId := approverId;
     ev_internId := ar_userId request;
     managerMessage := managerMessage;
     internMessage := internMessage;
     ev_projectOwnerManagerId :=
       if bool_decide (approverRole = ITAdministrator)
       then ar_projectOwnerManagerId request else None;
     projectOwnerMessage := projectOwnerMessage;
     originalResourceOwnerId := originalResourceOwnerId;
     originalResourceOwnerMessage := originalResourceOwnerMessage;
     ev_approverRole := approverRole;
     ev_approvedAt := Some approvedAt;
     ev_rejectedAt := None;
     ev_accessLink := Some accessLink;
     ev_rejectionReason := None |}.

Definition emitRejectionEvent (d : DataFiles) (request : AccessRequest)
    (approverId : string) (approverRole : UserRole)
    (reason rejectedAt : string) : ApprovalEvent :=
  let targetEmployee := targetEmployeeOf d request in
  let managerMessage :=
    if isEmployeeOwned request then
      "Rejected " +:+ requestPhrase request
      +:+ " to your account. Reason: " +:+ reason
    else
      "Rejected " +:+ requestPhrase request +:+ toProject request
      +:+ ". Reason: " +:+ reason in
  let internMessage :=
    if isEmployeeOwned request then
      yourRequestPhrase request +:+ " to "
      +:+ targetEmployeeName targetEmployee
      +:+ "'s account has been rejected. Reason: " +:+ reason
    else
      yourRequestPhrase request +:+ toProject request
      +:+ " has been rejected. Reason: " +:+ reason in
  {| ev_type := rejection;
     ev_requestId := ar_id request;
     ev_managerId := approverId;
     ev_internId := ar_userId request;
     managerMessage := managerMessage;
     internMessage := internMessage;
     ev_projectOwnerManagerId := None;
     projectOwnerMessage := None;
     originalResourceOwnerId := None;
     originalResourceOwnerMessage := None;
     ev_approverRole := approverRole;
     ev_approvedAt := None;
     ev_rejectedAt := Some rejectedAt;
     ev_accessLink := None;
     ev_rejectionReason := Some reason |}.

(** ** Exceptions and the insertion-ordered [Map] *)

Inductive outcome (A : Type) :=
  | Returned (a : A)
  | Thrown (message : string).
Arguments Returned {A} a.
Arguments Thrown {A} message.

Definition Map_get {V} (m : list (string * V)) (k : string) : option V :=
  snd <$> List.find (fun kv => String.eqb (fst kv) k) m.

(** [Map.prototype.set]: an existing key keeps its position. *)
Fixpoint Map_set {V} (m : list (string * V)) (k : string) (v : V)
  : list (string * V) :=
  match m with
  | [] => [(k, v)]
  | (k', v') :: m' =>
    if String.eqb k' k then (k, v) :: m' else (k', v') :: Map_set m' k v
  end.

Definition Map_values {V} (m : list (string * V)) : list V := map snd m.

(** ** services/approval.service.ts *)

Abbreviation AccessStore := (list (string * AccessRequest)).

(** [{ ...request, id, createdAt: now, updatedAt: now }]: the three fields of
    the argument are overridden, which is why the source omits them from its
    type. *)
Definition createAccessRequest (accessRequests : AccessStore)
    (request : AccessRequest) (id now : string) : AccessRequest * AccessStore :=
  let accessRequest :=
    {| ar_id := id; ar_userId := ar_userId request;
       ar_userName := ar_userName request; ar_userRole := ar_userRole request;
       ar_system := ar_system request; ar_accessLevel := ar_accessLevel request;
       ar_project := ar_project request; ar_projectId := ar_projectId request;
       ar_projectOwnerManagerId := ar_projectOwnerManagerId request;
       ar_targetEmployeeId := ar_targetEmployeeId request;
       ar_employeeOwnerId := ar_employeeOwnerId request;
       assignedApproverId := assignedApproverId request;
       fallbackApproverId := fallbackApproverId request;
       ar_reason := ar_reason request; ar_status := ar_status request;
       ar_requiresApproval := ar_requiresApproval request;
       ar_requiresEscalation := ar_requiresEscalation request;
       ar_escalationTo := ar_escalationTo request;
       approvalBy := approvalBy request;
       ar_approverId := ar_approverId request;
       ar_approverRole := ar_approverRole request;
       ar_approvedAt := ar_approvedAt request;
       ar_rejectedAt := ar_rejectedAt request;
       ar_rejectionReason := ar_rejectionReason request;
       escalationJustification := escalationJustification request;
       createdAt := now; updatedAt := now |} in
  (accessRequest, Map_set accessRequests id accessRequest).

Definition getAccessRequest (accessRequests : AccessStore) (requestId : string)
  : option AccessRequest :=
  Map_get accessRequests requestId.

Definition determineApprover (request : AccessRequest) : option UserRole :=
  if negb (ar_requiresApproval request) then None
  else if bool_decide (ar_accessLevel request = Admin)
          && negb (bool_decide (ar_userRole request = ITAdministrator))
  then Some ITAdministrator
  else if bool_decide (ar_userRole request = Intern)
          || bool_decide (ar_userRole request = Developer)
  then Some Manager
  else Some Manager.

Definition isEmployeeOwnedRequest (request : AccessRequest)
    (approverId : option string) : bool :=
  truthy (ar_employeeOwnerId request)
  && bool_decide (ar_employeeOwnerId request = approverId).

(** The assignments of [approveRequest] to the stored record. *)
Definition markApproved (request : AccessRequest) (approverRole : UserRole)
    (approverId : option string) (approvedAt : string) : AccessRequest :=
  {| ar_id := ar_id request; ar_userId := ar_userId request;
     ar_userName := ar_userName request; ar_userRole := ar_userRole request;
     ar_system := ar_system request; ar_accessLevel := ar_accessLevel request;
     ar_project := ar_project request; ar_projectId := ar_projectId request;
     ar_projectOwnerManagerId := ar_projectOwnerManagerId request;
     ar_targetEmployeeId := ar_targetEmployeeId request;
     ar_employeeOwnerId := ar_employeeOwnerId request;
     assignedApproverId := assignedApproverId request;
     fallbackApproverId := fallbackApproverId request;
     ar_reason := ar_reason request;
     ar_status := approved;
     ar_requiresApproval := ar_requiresApproval request;
     ar_requiresEscalation := ar_requiresEscalation request;
     ar_escalationTo := ar_escalationTo request;
     approvalBy := Some (UserRole_toString approverRole);
     ar_approverId :=
       if truthy approverId then approverId else ar_approverId request;
     ar_approverRole := Some approverRole;
     ar_approvedAt := Some approvedAt;
     ar_rejectedAt := ar_rejectedAt request;
     ar_rejectionReason := ar_rejectionReason request;
     escalationJustification := escalationJustification request;
     createdAt := createdAt request; updatedAt := approvedAt |}.

(** The assignments of [rejectRequest] to the stored record. *)
Definition markRejected (request : AccessRequest) (approverRole : UserRole)
    (reason : string) (approverId : option string) (rejectedAt : string)
  : AccessRequest :=
  {| ar_id := ar_id request; ar_userId := ar_userId request;
     ar_userName := ar_userName request; ar_userRole := ar_userRole request;
     ar_system := ar_system request; ar_accessLevel := ar_accessLevel request;
     ar_project := ar_project request; ar_projectId := ar_projectId request;
     ar_projectOwnerManagerId := ar_projectOwnerManagerId request;
     ar_targetEmployeeId := ar_targetEmployeeId request;
     ar_employeeOwnerId := ar_employeeOwnerId request;
     assignedApproverId := assignedApproverId request;
     fallbackApproverId := fallbackApproverId request;
     ar_reason := ar_reason request;
     ar_status := rejected;
     ar_requiresApproval := ar_requiresApproval request;
     ar_requiresEscalation := ar_requiresEscalation request;
     ar_escalationTo := ar_escalationTo request;
     approvalBy := Some (UserRole_toString approverRole);
     ar_approverId :=
       if truthy approverId then approverId else ar_approverId request;
     ar_approverRole := Some approverRole;
     ar_approvedAt := ar_approvedAt request;
     ar_rejectedAt := Some rejectedAt;
     ar_rejectionReason := Some reason;
     escalationJustification := escalationJustification request;
     createdAt := createdAt request; updatedAt := rejectedAt |}.

(** The result is [Returned None] for the source's [null]. *)
Definition approveRequest (d : DataFiles) (accessRequests : AccessStore)
    (requestId : string) (approverRole : UserRole)
    (approverId : option string) (now : string)
  : outcome (option (AccessRequest * ApprovalEvent)) * AccessStore :=
  match Map_get accessRequests requestId with
  | None => (Returned None, accessRequests)
  | Some request =>
    if negb (canApproveRequests d approverRole)
       && negb (isEmployeeOwnedRequest request approverId)
    then (Thrown ("Role " +:+ UserRole_toString approverRole
                  +:+ " does not have permission to approve requests"),
          accessRequests)
    else if negb (bool_decide (ar_status request = pending))
    then (Thrown ("Request " +:+ requestId
                  +:+ " is not in pending status and cannot be approved"),
          accessRequests)
    else
      let accessLink :=
        generateAccessLink (ar_system request) (ar_accessLevel request)
          (ar_project request) (Some (ar_userId request))
          (ar_targetEmployeeId request) in
      let approvedAt := now in
      let request := markApproved request approverRole approverId approvedAt in
      let accessRequests := Map_set accessRequests requestId request in
      let event :=
        emitApprovalEvent d request
          (if truthy approverId then default "" approverId else "unknown")
          approverRole accessLink approvedAt in
      (Returned (Some (request, event)), accessRequests)
  end.

Definition rejectRequest (d : DataFiles) (accessRequests : AccessStore)
    (requestId : string) (approverRole : UserRole) (reason : string)
    (approverId : option string) (now : string)
  : outcome (option (AccessRequest * ApprovalEvent)) * AccessStore :=
  match Map_get accessRequests requestId with
  | None => (Returned None, accessRequests)
  | Some request =>
    if Nat.ltb 120 (String.length reason)
    then (Thrown "Rejection reason must be 120 characters or less",
          accessRequests)
    else if negb (canApproveRequests d approverRole)
            && negb (isEmployeeOwnedRequest request approverId)
    then (Thrown ("Role " +:+ UserRole_toString approverRole
                  +:+ " does not have permission to reject requests"),
          accessRequests)
    else if negb (bool_decide (ar_status request = pending))
    then (Thrown ("Request " +:+ requestId
                  +:+ " is not in pending status and cannot be rejected"),
          accessRequests)
    else
      let rejectedAt := now in
      let request :=
        markRejected request approverRole reason approverId rejectedAt in
      let accessRequests := Map_set accessRequests requestId request in
      let event :=
        emitRejectionEvent d request
          (if truthy approverId then default "" approverId else "unknown")
          approverRole reason rejectedAt in
      (Returned (Some (request, event)), accessRequests)
  end.

Definition getAllAccessRequests (accessRequests : AccessStore)
  : list AccessRequest :=
  Map_values accessRequests.

Definition getUserAccessRequests (accessRequests : AccessStore)
    (userId : string) : list AccessRequest :=
  List.filter (fun req => String.eqb (ar_userId req) userId)
    (Map_values accessRequests).

Definition getPendingApprovalsForManager (d : DataFiles)
    (accessRequests : AccessStore) (managerId : string)
    (managerRole : UserRole) (managedProjectIds : list string)
  : list AccessRequest :=
  if negb (canApproveRequests d managerRole)
     && negb (bool_decide (managerRole = Developer))
     && negb (bool_decide (managerRole = Intern))
  then []
  else
    let allRequests := Map_values accessRequests in
    let pendingRequests :=
      List.filter
        (fun req =>
           bool_decide (ar_status req = pending) && ar_requiresApproval req)
        allRequests in
    List.filter
      (fun request =>
         if String.eqb managerId "admin-001"
            || bool_decide (managerRole = ITAdministrator) then true
         else if bool_decide (assignedApproverId request = Some managerId)
         then true
         else false)
      pendingRequests.

Definition getPendingApprovalsCount (d : DataFiles)
    (accessRequests : AccessStore) (managerId : string)
    (managerRole : UserRole) (managedProjectIds : list string) : nat :=
  length (getPendingApprovalsForManager d accessRequests managerId managerRole
            managedProjectIds).

(** ** services/stateTransition.service.ts *)

(** [state.project === 'Project Alpha' ? 'project-1'
      : state.project === 'Project Beta' ? 'project-2' : undefined] *)
Definition projectIdOf (state : RequestState) : option string :=
  if bool_decide (rs_project state = Some "Project Alpha") then Some "project-1"
  else if bool_decide (rs_project state = Some "Project Beta")
  then Some "project-2"
  else None.

Definition statusUpdate (status : TaskRequestStatus) : RequestStateUpdates :=
  {| upd_user := None; upd_role := None; upd_system := None;
     upd_accessLevel := None; upd_project := None;
     upd_targetEmployeeId := None; upd_status := Some status;
     upd_agentConfidence := None; upd_missingFields := None;
     upd_accessLink := None; upd_rejectionReason := None;
     upd_approverId := None; upd_approverRole := None;
     upd_approvedAt := None; upd_rejectedAt := None |}.

Definition selfApprovalUpdate (state : RequestState)
    (accessLink approvedAt : string) : RequestStateUpdates :=
  {| upd_user := None; upd_role := None; upd_system := None;
     upd_accessLevel := None; upd_project := None;
     upd_targetEmployeeId := None; upd_status := Some APPROVED;
     upd_agentConfidence := None; upd_missingFields := None;
     upd_accessLink := Some accessLink; upd_rejectionReason := None;
     upd_approverId := Some (rs_user state);
     upd_approverRole := Some (rs_role state);
     upd_approvedAt := Some approvedAt; upd_rejectedAt := None |}.

(** The snapshot handed to [createAccessRequest]. *)
Definition snapshot (state : RequestState) (userName : string)
    (system : SystemName) (accessLevel : AccessLevel)
    (projectId projectOwnerManagerId employeeOwnerId assignedApproverId
       fallbackApproverId : option string)
    (finalRequiresApproval : bool) : AccessRequest :=
  {| ar_id := ""; ar_userId := rs_user state; ar_userName := userName;
     ar_userRole := rs_role state; ar_system := system;
     ar_accessLevel := accessLevel; ar_project := rs_project state;
     ar_projectId := projectId;
     ar_projectOwnerManagerId := projectOwnerManagerId;
     ar_targetEmployeeId := rs_targetEmployeeId state;
     ar_employeeOwnerId := employeeOwnerId;
     assignedApproverId := assignedApproverId;
     fallbackApproverId := fallbackApproverId;
     ar_reason := None;
     ar_status := if finalRequiresApproval then pending else approved;
     ar_requiresApproval := finalRequiresApproval;
     ar_requiresEscalation := None; ar_escalationTo := None;
     approvalBy := None; ar_approverId := None; ar_approverRole := None;
     ar_approvedAt := None; ar_rejectedAt := None;
     ar_rejectionReason := None; escalationJustification := None;
     createdAt := ""; updatedAt := "" |}.

(** [id] and [now] are the request id and the timestamp the call generates. *)
Definition transitionToAwaitingApproval (d : DataFiles)
    (accessRequests : AccessStore) (requestStates : StateStore)
    (state : RequestState) (id now : string)
  : outcome RequestState * (AccessStore * StateStore) :=
  if negb (bool_decide (rs_status state = IN_PROGRESS)) then
    (Thrown ("Invalid transition from "
             +:+ TaskRequestStatus_toString (rs_status state)
             +:+ " to AWAITING_APPROVAL/APPROVED"),
     (accessRequests, requestStates))
  else if negb (shouldAutoSubmit state) then
    (Thrown "Cannot transition to AWAITING_APPROVAL: missing required fields",
     (accessRequests, requestStates))
  else
    match rs_system state, rs_accessLevel state with
    | Some system, Some accessLevel =>
      let validationResult :=
        validateAccessRequest d (rs_user state) (rs_role state) system
          accessLevel (projectIdOf state) in
      if negb (isValid validationResult) then
        (Thrown ("Access request validation failed: "
                 +:+ default "Invalid request"
                       (or_else (vr_rejectionReason validationResult)
                          (Some "Invalid request"))),
         (accessRequests, requestStates))
      else
        let projectId := projectIdOf state in
        let projectOwnerManagerId :=
          if truthy projectId then
            match find_project d (default "" projectId) with
            | Some project =>
              if truthy (Some (p_managerId project))
              then Some (p_managerId project) else None
            | None => None
            end
          else None in
        let employeeOwnerId :=
          if (bool_decide (system = Email) || bool_decide (system = Jira))
             && truthy (rs_targetEmployeeId state)
          then rs_targetEmployeeId state else None in
        let assignedApproverId :=
          if truthy projectOwnerManagerId then projectOwnerManagerId
          else if truthy employeeOwnerId then employeeOwnerId
          else None in
        let isEmployeeOwnedRequest := bool_decide (is_Some employeeOwnerId) in
        let finalRequiresApproval :=
          if isEmployeeOwnedRequest then true
          else vr_requiresApproval validationResult in
        let fallbackApproverId :=
          if finalRequiresApproval then Some "admin-001" else None in
        let user := find_user d (rs_user state) in
        let userName :=
          default (rs_user state)
            (or_else (u_name <$> user) (Some (rs_user state))) in
        let '(accessRequest, accessRequests) :=
          createAccessRequest accessRequests
            (snapshot state userName system accessLevel projectId
               projectOwnerManagerId employeeOwnerId assignedApproverId
               fallbackApproverId finalRequiresApproval)
            id now in
        if negb finalRequiresApproval then
          let accessLink :=
            generateAccessLink system accessLevel (rs_project state)
              (Some (rs_user state)) (rs_targetEmployeeId state) in
          let approvedAt := now in
          let '(newState, requestStates) :=
            updateRequestState requestStates state
              (selfApprovalUpdate state accessLink approvedAt) in
          (Returned newState, (accessRequests, requestStates))
        else
          let '(newState, requestStates) :=
            updateRequestState requestStates state
              (statusUpdate AWAITING_APPROVAL) in
          (Returned newState, (accessRequests, requestStates))
    | _, _ =>
      (* [state.system!] or [state.accessLevel!] on an undefined field:
         excluded by [shouldAutoSubmit] *)
      (Thrown "unreachable", (accessRequests, requestStates))
    end.

Definition handleRejection (requestStates : StateStore) (state : RequestState)
    (reason : string) : outcome RequestState * StateStore :=
  if negb (validateStateTransition (rs_status state) REJECTED) then
    (Thrown ("Invalid transition from "
             +:+ TaskRequestStatus_toString (rs_status state)
             +:+ " to REJECTED"), requestStates)
  else
    let '(newState, requestStates) :=
      updateRequestState requestStates state (statusUpdate REJECTED) in
    (Returned newState, requestStates).

(** A key of the [correction] object: absent, or present with a value that
    may be [undefined]. *)
Inductive key (A : Type) :=
  | absent
  | given (value : option A).
Arguments absent {A}.
Arguments given {A} value.

(** What [{ ...currentState, ...updates }] does for the keys of the
    correction that are present with the value [undefined]: the field of
    the current state is overwritten with [undefined].  Such a key passes
    for absent in the one later test of [updateRequestState] on its
    argument, [updates.system !== undefined]. *)
Definition undefinedKeys (state : RequestState)
    (correctedLevel : key AccessLevel) (correctedSystem : key SystemName)
  : RequestState :=
  {| rs_user := rs_user state; rs_role := rs_role state;
     rs_system :=
       match correctedSystem with
       | given None => None
       | _ => rs_system state
       end;
     rs_accessLevel :=
       match correctedLevel with
       | given None => None
       | _ => rs_accessLevel state
       end;
     rs_project := rs_project state;
     rs_targetEmployeeId := rs_targetEmployeeId state;
     rs_status := rs_status state;
     agentConfidence := agentConfidence state;
     missingFields := missingFields state;
     rs_accessLink := rs_accessLink state;
     rs_rejectionReason := rs_rejectionReason state;
     rs_approverId := rs_approverId state;
     rs_approverRole := rs_approverRole state;
     rs_approvedAt := rs_approvedAt state;
     rs_rejectedAt := rs_rejectedAt state |}.

(** The value of a key that carries one. *)
Definition definedKey {A} (k : key A) : option A :=
  match k with
  | given (Some value) => Some value
  | _ => None
  end.

(** [correction] is [{ accessLevel?, system? }], spread behind
    [status: 'IN_PROGRESS'] into the update.  The keys that carry a value
    are the update; the keys present with [undefined] have their effect
    through [undefinedKeys]. *)
Definition handleRecovery (requestStates : StateStore) (state : RequestState)
    (correctedLevel : key AccessLevel) (correctedSystem : key SystemName)
  : RequestState * StateStore :=
  updateRequestState requestStates
    (undefinedKeys state correctedLevel correctedSystem)
    {| upd_user := None; upd_role := None;
       upd_system := definedKey correctedSystem;
       upd_accessLevel := definedKey correctedLevel; upd_project := None;
       upd_targetEmployeeId := None; upd_status := Some IN_PROGRESS;
       upd_agentConfidence := None; upd_missingFields := None;
       upd_accessLink := None; upd_rejectionReason := None;
       upd_approverId := None; upd_approverRole := None;
       upd_approvedAt := None; upd_rejectedAt := None |}.

Definition canTransition (fromStatus toStatus : TaskRequestStatus) : bool :=
  validateStateTransition fromStatus toStatus.

Definition processStateUpdate (d : DataFiles) (accessRequests : AccessStore)
    (requestStates : StateStore) (state : RequestState)
    (updates : RequestStateUpdates) (id now : string)
  : RequestState * (AccessStore * StateStore) :=
  let '(updatedState, requestStates) :=
    updateRequestState requestStates state updates in
  if bool_decide (rs_status updatedState = IN_PROGRESS)
     && shouldAutoSubmit updatedState
  then
    match transitionToAwaitingApproval d accessRequests requestStates
            updatedState id now with
    | (Returned newState, stores) => (newState, stores)
    | (Thrown _, stores) => (updatedState, stores)
    end
  else (updatedState, (accessRequests, requestStates)).

(** ** services/escalation.service.ts *)

Record EscalationRequest := {
  er_id : string;
  er_userId : string;
  er_projectId : string;
  er_system : SystemName;
  er_accessLevel : AccessLevel;
  er_status : RequestStatus;
  er_escalationTo : string;
  justification : option string;
  er_createdAt : string;
  er_updatedAt : string
}.

Abbreviation EscalationStore := (gmap string EscalationRequest).

(** Besides the stored record the call leaves a timer behind: the pair is the
    argument list of the [processManagerDecision] call the timer makes two
    seconds later. *)
Definition createEscalationRequest (escalationRequests : EscalationStore)
    (userId projectId : string) (system : SystemName)
    (accessLevel : AccessLevel) (escalationTo : string) (id now : string)
  : EscalationRequest * EscalationStore * (string * string) :=
  let escalationRequest :=
    {| er_id := id; er_userId := userId; er_projectId := projectId;
       er_system := system; er_accessLevel := accessLevel;
       er_status := pending; er_escalationTo := escalationTo;
       justification := None; er_createdAt := now; er_updatedAt := now |} in
  (escalationRequest, <[id := escalationRequest]> escalationRequests,
   (id, escalationTo)).

Definition resolve (request : EscalationRequest) (is_approved : bool)
    (text : option string) (now : string) : EscalationRequest :=
  {| er_id := er_id request; er_userId := er_userId request;
     er_projectId := er_projectId request; er_system := er_system request;
     er_accessLevel := er_accessLevel request;
     er_status := if is_approved then approved else rejected;
     er_escalationTo := er_escalationTo request;
     justification := text;
     er_createdAt := er_createdAt request; er_updatedAt := now |}.

Definition justifications_approved : list string :=
  [ "Access approved for project collaboration.";
    "User needs access to complete assigned tasks.";
    "Approved based on project requirements.";
    "Access granted for cross-team collaboration." ].

Definition justifications_rejected : list string :=
  [ "User not currently assigned to this project.";
    "Access not required for current project scope.";
    "Request does not align with project needs.";
    "Insufficient justification for access." ].

(** [random1] and [random2] are the two values [Math.random()] returns, in
    call order. *)
Definition processManagerDecision (escalationRequests : EscalationStore)
    (requestId managerId : string) (random1 random2 : Q) (now : string)
  : option EscalationRequest * EscalationStore :=
  match escalationRequests !! requestId with
  | None => (None, escalationRequests)
  | Some request =>
    if negb (String.eqb (er_escalationTo request) managerId) then
      (None, escalationRequests)
    else
      let is_approved := negb (Qle_bool random1 (3 # 10)) in
      let justificationList :=
        if is_approved then justifications_approved
        else justifications_rejected in
      let index :=
        Qfloor (random2 * inject_Z (Z.of_nat (length justificationList))) in
      let text :=
        if (index <? 0)%Z then None
        else justificationList !! Z.to_nat index in
      let request := resolve request is_approved text now in
      (Some request, <[requestId := request]> escalationRequests)
  end.

Definition processManagerDecisionManually
    (escalationRequests : EscalationStore) (requestId : string)
    (is_approved : bool) (text : string) (now : string)
  : outcome (option EscalationRequest) * EscalationStore :=
  match escalationRequests !! requestId with
  | None => (Returned None, escalationRequests)
  | Some request =>
    if Nat.ltb 120 (String.length text) then
      (Thrown "Justification must be 120 characters or less",
       escalationRequests)
    else
      let request := resolve request is_approved (Some text) now in
      (Returned (Some request), <[requestId := request]> escalationRequests)
  end.

Definition getEscalationRequest (escalationRequests : EscalationStore)
    (requestId : string) : option EscalationRequest :=
  escalationRequests !! requestId.

(** ** The ledgers the services build

    The ledger is written by [createAccessRequest], [approveRequest] and
    [rejectRequest] only.  [createAccessRequest] has two callers,
    [transitionToAwaitingApproval] and the [handleAccessRequest] endpoint;
    both pass [status: finalRequiresApproval ? 'pending' : 'approved] and
    [requiresApproval: finalRequiresApproval] with one and the same
    [finalRequiresApproval], and the second constructor takes every request
    of that shape. *)
Inductive reachable (d : DataFiles) : AccessStore -> Prop :=
  | reachable_empty : reachable d []
  | reachable_filed accessRequests request finalRequiresApproval id now :
      reachable d accessRequests ->
      ar_status request
      = (if finalRequiresApproval : bool then pending else approved) ->
      ar_requiresApproval request = finalRequiresApproval ->
      reachable d (createAccessRequest accessRequests request id now).2
  | reachable_approve accessRequests requestId role approverId now result :
      reachable d accessRequests ->
      approveRequest d accessRequests requestId role approverId now = result ->
      reachable d result.2
  | reachable_reject accessRequests requestId role reason approverId now
      result :
      reachable d accessRequests ->
      rejectRequest d accessRequests requestId role reason approverId now
      = result ->
      reachable d result.2.

(** ** The viewer rule as the specification words it

    "All pending requests if the viewer holds override authority (the IT
    Administrator role); otherwise only the requests whose resolved primary
    approver equals the viewer." *)
Definition visibleAsSpecified (accessRequests : AccessStore)
    (viewerId : string) (viewerRole : UserRole) : list AccessRequest :=
  List.filter
    (fun req =>
       bool_decide (ar_status req = pending)
       && (bool_decide (viewerRole = ITAdministrator)
           || bool_decide (assignedApproverId req = Some viewerId)))
    (Map_values accessRequests).

(** [d] with another rule table. *)
Definition withRules (d : DataFiles) (rules : UserRole -> option RoleRules)
  : DataFiles :=
  {| accessRules := rules; projectAssignments := projectAssignments d;
     projects := projects d; users := users d |}.

(** ** Sample data

    Users, projects and assignments are the mock data of the dashboard page,
    which mirrors the backend files.  The rule table follows the README's
    description of who is granted what. *)

Definition mockUsers : list User :=
  [ {| u_id := "intern-001"; u_name := "Alice";
       u_email := "alice@company.com"; u_role := Intern |};
    {| u_id := "manager-001"; u_name := "Bob";
       u_email := "bob@company.com"; u_role := Manager |};
    {| u_id := "manager-002"; u_name := "Sarah";
       u_email := "sarah@company.com"; u_role := Manager |};
    {| u_id := "admin-001"; u_name := "Michael";
       u_email := "michael@company.com"; u_role := ITAdministrator |} ].

Definition mockProjects : list Project :=
  [ {| p_id := "project-1"; p_name := "Project Alpha";
       p_managerId := "manager-001" |};
    {| p_id := "project-2"; p_name := "Project Beta";
       p_managerId := "manager-002" |} ].

Definition mockAssignments : gmap string (list string) :=
  list_to_map
    [ ("intern-001", ["project-2"]);
      ("manager-001", ["project-1"]);
      ("manager-002", ["project-2"]);
      ("admin-001", ["project-1"; "project-2"]) ].

Definition internEmail : SystemRules :=
  {| sr_default := Some true; readOnly := None; readWrite := None;
     sr_admin := None; sr_view := None; sr_comment := None;
     createEdit := None; specificRepo := None;
     sr_requiresApproval := false; sr_accessLevel := Some Default |}.

Definition internGitHub : SystemRules :=
  {| sr_default := None; readOnly := Some true; readWrite := Some false;
     sr_admin := Some false; sr_view := None; sr_comment := None;
     createEdit := None; specificRepo := None;
     sr_requiresApproval := true; sr_accessLevel := None |}.

Definition internJira : SystemRules :=
  {| sr_default := None; readOnly := None; readWrite := None;
     sr_admin := Some false; sr_view := Some true; sr_comment := Some false;
     createEdit := Some false; specificRepo := None;
     sr_requiresApproval := false; sr_accessLevel := None |}.

Definition fullAccess : SystemRules :=
  {| sr_default := Some true; readOnly := Some true; readWrite := Some true;
     sr_admin := Some true; sr_view := Some true; sr_comment := Some true;
     createEdit := Some true; specificRepo := None;
     sr_requiresApproval := false; sr_accessLevel := None |}.

Definition sampleRules (role : UserRole) : option RoleRules :=
  match role with
  | Intern =>
    Some {| rr_system := fun s =>
              match s with
              | Email => Some internEmail
              | GitHub => Some internGitHub
              | Jira => Some internJira
              end;
            adminAccess := None; canApprove := None;
            finalApprovalAuthority := None |}
  | Developer =>
    Some {| rr_system := fun _ => Some fullAccess;
            adminAccess := Some {| aa_requiresApproval := true |};
            canApprove := None; finalApprovalAuthority := None |}
  | Manager =>
    Some {| rr_system := fun _ => Some fullAccess;
            adminAccess := None; canApprove := Some true;
            finalApprovalAuthority := None |}
  | ITAdministrator =>
    Some {| rr_system := fun _ => Some fullAccess;
            adminAccess := None; canApprove := Some true;
            finalApprovalAuthority := Some true |}
  end.

Definition sampleData : DataFiles :=
  {| accessRules := sampleRules; projectAssignments := mockAssignments;
     projects := mockProjects; users := mockUsers |}.

(** A ledger entry for Alice's request for Bob's mailbox. *)
Definition mailboxRequest (status : RequestStatus) (requiresApproval : bool)
  : AccessRequest :=
  {| ar_id := "req-1"; ar_userId := "intern-001"; ar_userName := "Alice";
     ar_userRole := Intern; ar_system := Email; ar_accessLevel := Default;
     ar_project := None; ar_projectId := None;
     ar_projectOwnerManagerId := None;
     ar_targetEmployeeId := Some "manager-001";
     ar_employeeOwnerId := Some "manager-001";
     assignedApproverId := Some "manager-001";
     fallbackApproverId := Some "admin-001";
     ar_reason := None; ar_status := status;
     ar_requiresApproval := requiresApproval;
     ar_requiresEscalation := None; ar_escalationTo := None;
     approvalBy := None; ar_approverId := None; ar_approverRole := None;
     ar_approvedAt := None; ar_rejectedAt := None;
     ar_rejectionReason := None; escalationJustification := None;
     createdAt := "2025-01-01T00:00:00.000Z";
     updatedAt := "2025-01-01T00:00:00.000Z" |}.

(** Alice's conversation once she has picked Email, Bob's account and a level. *)
Definition aliceMailbox (level : AccessLevel) : RequestState :=
  {| rs_user := "intern-001"; rs_role := Intern; rs_system := Some Email;
     rs_accessLevel := Some level; rs_project := None;
     rs_targetEmployeeId := Some "manager-001"; rs_status := IN_PROGRESS;
     agentConfidence := MEDIUM; missingFields := [];
     rs_accessLink := None; rs_rejectionReason := None;
     rs_approverId := None; rs_approverRole := None;
     rs_approvedAt := None; rs_rejectedAt := None |}.

Definition levelUpdate (level : AccessLevel) : RequestStateUpdates :=
  {| upd_user := None; upd_role := None; upd_system := None;
     upd_accessLevel := Some level; upd_project := None;
     upd_targetEmployeeId := None; upd_status := None;
     upd_agentConfidence := None; upd_missingFields := None;
     upd_accessLink := None; upd_rejectionReason := None;
     upd_approverId := None; upd_approverRole := None;
     upd_approvedAt := None; upd_rejectedAt := None |}.

Definition pendingEscalation : EscalationRequest :=
  {| er_id := "escalation-1"; er_userId := "intern-001";
     er_projectId := "project-1"; er_system := GitHub;
     er_accessLevel := ReadOnly; er_status := pending;
     er_escalationTo := "manager-001"; justification := None;
     er_createdAt := "2025-01-01T00:00:00.000Z";
     er_updatedAt := "2025-01-01T00:00:00.000Z" |}.

(** The test [getPendingApprovalsForManager] applies to a stored request. *)
Definition shownTo (managerId : string) (managerRole : UserRole)
    (request : AccessRequest) : bool :=
  bool_decide (ar_status request = pending)
  && ar_requiresApproval request
  && (String.eqb managerId "admin-001"
      || bool_decide (managerRole = ITAdministrator)
      || bool_decide (assignedApproverId request = Some managerId)).

(** The role test in front of it. *)
Definition mayList (d : DataFiles) (managerRole : UserRole) : bool :=
  canApproveRequests d managerRole
  || bool_decide (managerRole = Developer)
  || bool_decide (managerRole = Intern).

(** The request is for somebody's account: an Email or Jira request that
    names a target employee. *)
Definition accountOwned (state : RequestState) : bool :=
  (bool_decide (rs_system state = Some Email)
   || bool_decide (rs_system state = Some Jira))
  && truthy (rs_targetEmployeeId state).

(** The conditions under which [validateRequestState] pushes each field. *)
Definition needsSystem (s : RequestState) : bool :=
  negb (bool_decide (is_Some (rs_system s))).
Definition needsTargetEmployee (s : RequestState) : bool :=
  (bool_decide (rs_system s = Some Email)
   || bool_decide (rs_system s = Some Jira))
  && bool_decide (rs_role s = Intern)
  && negb (truthy (rs_targetEmployeeId s)).
Definition needsProject (s : RequestState) : bool :=
  bool_decide (rs_system s = Some GitHub) && negb (truthy (rs_project s)).
Definition needsAccessLevel (s : RequestState) : bool :=
  negb (bool_decide (is_Some (rs_accessLevel s))).

(** ** services/aiAgent.service.ts: the response texts

    A string is its sequence of code units, so [String.length] is the
    JavaScript [length] and [substring 0 117] is [substring(0, 117)]. *)

Record AIResponse := {
  ai_message : string;
  needsClarification : bool;
  clarificationQuestion : option string;
  reasoning : option string
}.

Definition truncateMessage (text : string) : string :=
  if Nat.leb (String.length text) 120 then text
  else String.substring 0 117 text +:+ "...".

(** [text.length > 120 ? text.substring(0, 117) + '...' : text], written out
    in two of the functions below instead of calling [truncateMessage]. *)
Definition truncateInline (text : string) : string :=
  if Nat.ltb 120 (String.length text)
  then String.substring 0 117 text +:+ "..." else text.

Definition generateEscalationMessage (d : DataFiles) (system : SystemName)
    (accessLevel : AccessLevel) (projectName managerId : string)
  : AIResponse :=
  let manager := find_user d managerId in
  let managerName :=
    default "project manager"
      (or_else (u_name <$> manager) (Some "project manager")) in
  let text :=
    "Not assigned to " +:+ projectName +:+ ". Escalate to " +:+ managerName
    +:+ "?" in
  {| ai_message := truncateMessage text;
     needsClarification := true;
     clarificationQuestion := Some ("Escalate to " +:+ managerName +:+ "?");
     reasoning :=
       Some ("Project-level authorization requires assignment. Escalation needed to "
             +:+ managerName +:+ ".") |}.

(** [approverInfo] of [explainDecision] and [generateStateAwareResponse]:
    the approver's name with the kind of owner, or the generic text. *)
Definition approverInfoOf (d : DataFiles)
    (assignedApproverId targetEmployeeId projectName : option string)
  : string :=
  if truthy assignedApproverId then
    match find_user d (default "" assignedApproverId) with
    | Some approver =>
      if truthy targetEmployeeId then u_name approver +:+ " (Account Owner)"
      else if truthy projectName then u_name approver +:+ " (Project Owner)"
      else u_name approver
    | None => "Manager or IT Admin"
    end
  else "Manager or IT Admin".

(** [`${validationResult.allowedAccessLevel}`] *)
Definition allowedLevelText (level : option AccessLevel) : string :=
  match level with
  | Some l => AccessLevel_toString l
  | None => "undefined"
  end.

Definition explainDecision (d : DataFiles) (validationResult : ValidationResult)
    (userRole : string) (system : SystemName)
    (requestedAccessLevel : AccessLevel)
    (projectName assignedApproverId targetEmployeeId : option string)
  : AIResponse :=
  if negb (isValid validationResult) then
    if is_true_flag (vr_requiresEscalation validationResult)
       && truthy (vr_escalationTo validationResult)
    then
      generateEscalationMessage d system requestedAccessLevel
        (default "the project" (or_else projectName (Some "the project")))
        (default "" (vr_escalationTo validationResult))
    else
      let text :=
        if truthy (vr_rejectionReason validationResult)
        then default "" (vr_rejectionReason validationResult)
        else if bool_decide (system = Email) && String.eqb userRole "Intern"
                && bool_decide (requestedAccessLevel = Admin)
        then "Admin access not available for Email. Choose read-only, read-write, or default."
        else if bool_decide (system = Jira) && String.eqb userRole "Intern"
                && bool_decide (requestedAccessLevel = Admin)
        then "Admin access requires approval. Choose viewer, contributor, or request escalation."
        else if bool_decide (system = Email)
                && bool_decide (requestedAccessLevel = Admin)
        then "Admin access not available for Email. Choose read-only, read-write, or default."
        else "Cannot approve: " +:+ AccessLevel_toString requestedAccessLevel
             +:+ " access to " +:+ SystemName_toString system
             +:+ " not permitted for " +:+ userRole +:+ "." in
      {| ai_message := truncateMessage text;
         needsClarification := true;
         clarificationQuestion := Some text;
         reasoning :=
           Some ("RBAC rules do not allow " +:+ userRole +:+ " to have "
                 +:+ AccessLevel_toString requestedAccessLevel
                 +:+ " access to " +:+ SystemName_toString system +:+ ".") |}
  else if truthy (downgradeReason validationResult) then
    {| ai_message :=
         truncateMessage
           ("Adjusted: " +:+ default "" (downgradeReason validationResult)
            +:+ " Access: "
            +:+ allowedLevelText (allowedAccessLevel validationResult));
       needsClarification := false;
       clarificationQuestion := None;
       reasoning :=
         Some ("Based on your role (" +:+ userRole
               +:+ "), access level adjusted.") |}
  else if vr_requiresApproval validationResult then
    let approverInfo :=
      approverInfoOf d assignedApproverId targetEmployeeId projectName in
    {| ai_message :=
         truncateMessage
           ("Request submitted. Awaiting approval from " +:+ approverInfo
            +:+ ".");
       needsClarification := false;
       clarificationQuestion := None;
       reasoning :=
         Some ("Your role (" +:+ userRole
               +:+ ") allows this access, but approval required from "
               +:+ approverInfo +:+ ".") |}
  else
    {| ai_message :=
         truncateMessage "Request approved. Access granted immediately.";
       needsClarification := false;
       clarificationQuestion := None;
       reasoning :=
         Some ("Your role (" +:+ userRole
               +:+ ") has automatic permission.") |}.

Definition generateQuestionForMissingField (field : string)
    (state : RequestState) : AIResponse :=
  let question :=
    if String.eqb field "system"
    then "Which system? (Email, GitHub, or Jira)"
    else if String.eqb field "targetEmployeeId"
            && bool_decide (rs_system state = Some Email)
    then "Whose email access do you need?"
    else if String.eqb field "targetEmployeeId"
            && bool_decide (rs_system state = Some Jira)
    then "Whose Jira account do you need access to?"
    else if String.eqb field "project"
            && bool_decide (rs_system state = Some GitHub)
    then "Which project or repository? (Alpha or Beta)"
    else if String.eqb field "project"
            && bool_decide (rs_system state = Some Jira)
    then "Which Jira project? (Alpha or Beta)"
    else if String.eqb field "accessLevel"
            && bool_decide (rs_system state = Some Email)
    then "What access level? (read-only, read-write, or admin)"
    else if String.eqb field "accessLevel"
            && bool_decide (rs_system state = Some GitHub)
    then "What access level? (read-only, read-write, or admin)"
    else if String.eqb field "accessLevel"
            && bool_decide (rs_system state = Some Jira)
    then "What role? (viewer, contributor, or admin)"
    else "Please provide more information." in
  {| ai_message := truncateInline question;
     needsClarification := true;
     clarificationQuestion := Some question;
     reasoning := None |}.

(** [updates] is not read by the source.  The last branch is reached only
    with a non-empty [missingFields], so [state.missingFields[0]] is defined
    there. *)
Definition generateStateAwareResponse (d : DataFiles) (state : RequestState)
    (updates : RequestStateUpdates) (requiresApproval : option bool)
    (assignedApproverId : option string) : AIResponse :=
  if bool_decide (rs_status state = APPROVED) then
    if truthy (rs_accessLink state) then
      {| ai_message :=
           truncateMessage
             ("Request approved. Access granted. Link: "
              +:+ default "" (rs_accessLink state));
         needsClarification := false;
         clarificationQuestion := None;
         reasoning := Some "Request auto-approved based on your role." |}
    else
      {| ai_message :=
           truncateMessage "Request approved. Access granted immediately.";
         needsClarification := false;
         clarificationQuestion := None;
         reasoning := Some "Request auto-approved based on your role." |}
  else if bool_decide (rs_status state = REJECTED) then
    {| ai_message :=
         truncateMessage
           "What would you like to access next? (Email, GitHub, or Jira)";
       needsClarification := true;
       clarificationQuestion :=
         Some "What would you like to access next? (Email, GitHub, or Jira)";
       reasoning := None |}
  else if bool_decide (agentConfidence state = LOW)
          && bool_decide (rs_role state = Intern)
          && bool_decide (rs_accessLevel state = Some Admin)
  then
    {| ai_message :=
         truncateInline
           "Admin requires approval. Choose read-only or read-write?";
       needsClarification := true;
       clarificationQuestion := Some "Choose read-only or read-write?";
       reasoning := None |}
  else if bool_decide (length (missingFields state) = 0) then
    let system :=
      match rs_system state with
      | Some sys => SystemName_toString sys
      | None => "system"
      end in
    let level :=
      match rs_accessLevel state with
      | Some l => AccessLevel_toString l
      | None => "access"
      end in
    if bool_decide (requiresApproval = Some false) then
      {| ai_message :=
           truncateMessage "Request approved. Access granted immediately.";
         needsClarification := false;
         clarificationQuestion := None;
         reasoning := Some "Request auto-approved based on your role." |}
    else
      let approverInfo :=
        approverInfoOf d assignedApproverId (rs_targetEmployeeId state)
          (rs_project state) in
      {| ai_message :=
           truncateInline
             ("Request submitted: " +:+ level +:+ " access to " +:+ system
              +:+ ". Awaiting approval from " +:+ approverInfo +:+ ".");
         needsClarification := false;
         clarificationQuestion := None;
         reasoning := None |}
  else
    generateQuestionForMissingField (default "" (head (missingFields state)))
      state.

Definition generateValidationError (missingField : string)
    (state : RequestState) : AIResponse :=
  let text :=
    if String.eqb missingField "system"
    then "System selection required. Choose Email, GitHub, or Jira."
    else if String.eqb missingField "targetEmployeeId"
            && bool_decide (rs_system state = Some Email)
    then "Email owner required. Whose email access do you need?"
    else if String.eqb missingField "targetEmployeeId"
            && bool_decide (rs_system state = Some Jira)
    then "Account owner required. Whose Jira account do you need access to?"
    else if String.eqb missingField "project"
            && bool_decide (rs_system state = Some GitHub)
    then "GitHub requires a project. Which project or repository? (Alpha or Beta)"
    else if String.eqb missingField "project"
            && bool_decide (rs_system state = Some Jira)
    then "Jira project required. Which project? (Alpha or Beta)"
    else if String.eqb missingField "accessLevel"
            && bool_decide (rs_system state = Some Email)
    then "Access level required. Choose read-only, read-write, or admin."
    else if String.eqb missingField "accessLevel"
            && bool_decide (rs_system state = Some GitHub)
    then "Access level required. Choose read-only, read-write, or admin."
    else if String.eqb missingField "accessLevel"
            && bool_decide (rs_system state = Some Jira)
    then "Role required. Choose viewer, contributor, or admin."
    else "Missing required field. Please provide more information." in
  {| ai_message := truncateMessage text;
     needsClarification := true;
     clarificationQuestion := Some text;
     reasoning :=
       Some ("Validation failed: " +:+ missingField
             +:+ " is required but not provided.") |}.

Definition generateWelcomeMessage : AIResponse :=
  {| ai_message := truncateMessage "Which system? (Email, GitHub, or Jira)";
     needsClarification := true;
     clarificationQuestion := Some "Which system? (Email, GitHub, or Jira)";
     reasoning := None |}.

(** ** controllers/accessRequest.controller.ts: the approval and escalation
    endpoints

    A handler gets the fields of [req.body] as optional strings and answers
    with a status code and a body; [res.json] without [res.status] answers
    200.  The stores are passed through as for the services. *)

Inductive DecisionBody :=
  | ErrorBody (error : string)
  | DecisionDone (request : AccessRequest) (event : ApprovalEvent)
      (text : string).

Record DecisionResponse := {
  statusCode : nat;
  body : DecisionBody
}.

(** [error.message || fallback] in the [catch] blocks. *)
Definition errorText (thrown fallback : string) : string :=
  if truthy (Some thrown) then thrown else fallback.

(** [now] is the timestamp [approveRequest] takes; [now'] is the one the
    handler takes itself should the event carry none. *)
Definition approveAccessRequest (d : DataFiles) (accessRequests : AccessStore)
    (requestStates : StateStore) (requestId approverId : option string)
    (now now' : string)
  : DecisionResponse * (AccessStore * StateStore) :=
  if negb (truthy requestId) || negb (truthy approverId) then
    ({| statusCode := 400;
        body := ErrorBody "Missing required fields: requestId and approverId are required" |},
     (accessRequests, requestStates))
  else
    let rid := default "" requestId in
    let aid := default "" approverId in
    match find_user d aid with
    | None =>
      ({| statusCode := 404;
          body := ErrorBody ("Approver with ID " +:+ aid +:+ " not found") |},
       (accessRequests, requestStates))
    | Some approver =>
      let approverRole := u_role approver in
      match approveRequest d accessRequests rid approverRole approverId now with
      | (Thrown thrown, accessRequests) =>
        ({| statusCode := 400;
            body :=
              ErrorBody
                (errorText thrown
                   "Internal server error while approving access request") |},
         (accessRequests, requestStates))
      | (Returned None, accessRequests) =>
        ({| statusCode := 404;
            body :=
              ErrorBody ("Access request with ID " +:+ rid
                         +:+ " not found or cannot be approved") |},
         (accessRequests, requestStates))
      | (Returned (Some (request, event)), accessRequests) =>
        let userId := ar_userId request in
        let accessLink := default "" (or_else (ev_accessLink event) (Some "")) in
        let approvedAt := or_else (ev_approvedAt event) (Some now') in
        let '(_, requestStates) :=
          updateRequestStateFromApproval requestStates userId accessLink
            approverId (Some approverRole) approvedAt in
        ({| statusCode := 200;
            body := DecisionDone request event "Request approved successfully" |},
         (accessRequests, requestStates))
      end
    end.

Definition rejectAccessRequest (d : DataFiles) (accessRequests : AccessStore)
    (requestStates : StateStore) (requestId approverId reason : option string)
    (now now' : string)
  : DecisionResponse * (AccessStore * StateStore) :=
  if negb (truthy requestId) || negb (truthy approverId)
     || negb (truthy reason)
  then
    ({| statusCode := 400;
        body := ErrorBody "Missing required fields: requestId, approverId, and reason are required" |},
     (accessRequests, requestStates))
  else
    let rid := default "" requestId in
    let aid := default "" approverId in
    let why := default "" reason in
    match find_user d aid with
    | None =>
      ({| statusCode := 404;
          body := ErrorBody ("Approver with ID " +:+ aid +:+ " not found") |},
       (accessRequests, requestStates))
    | Some approver =>
      if Nat.ltb 120 (String.length why) then
        ({| statusCode := 400;
            body := ErrorBody "Rejection reason must be 120 characters or less" |},
         (accessRequests, requestStates))
      else
        let approverRole := u_role approver in
        match rejectRequest d accessRequests rid approverRole why approverId
                now with
        | (Thrown thrown, accessRequests) =>
          ({| statusCode := 400;
              body :=
                ErrorBody
                  (errorText thrown
                     "Internal server error while rejecting access request") |},
           (accessRequests, requestStates))
        | (Returned None, accessRequests) =>
          ({| statusCode := 404;
              body :=
                ErrorBody ("Access request with ID " +:+ rid
                           +:+ " not found or cannot be rejected") |},
           (accessRequests, requestStates))
        | (Returned (Some (request, event)), accessRequests) =>
          let userId := ar_userId request in
          let rejectedAt := or_else (ev_rejectedAt event) (Some now') in
          let '(_, requestStates) :=
            updateRequestStateFromRejection requestStates userId why
              approverId (Some approverRole) rejectedAt in
          ({| statusCode := 200;
              body :=
                DecisionDone request event "Request rejected successfully" |},
           (accessRequests, requestStates))
        end
    end.

Inductive EscalationBody :=
  | EscalationError (error : string)
  | EscalationSubmitted (escalationId : string) (status : RequestStatus)
      (text : string) (escalationTo : string).

Record EscalationResponse := {
  esc_statusCode : nat;
  esc_body : EscalationBody
}.

(** [system] and [accessLevel] are cast from the body without a check; they
    are taken here to be values of the two unions.  The third component of
    the result is the timer [createEscalationRequest] sets, if any. *)
Definition handleEscalationRequest (d : DataFiles)
    (escalationRequests : EscalationStore) (userId projectId : option string)
    (system : option SystemName) (accessLevel : option AccessLevel)
    (id now : string)
  : EscalationResponse * EscalationStore * option (string * string) :=
  match system, accessLevel with
  | Some sys, Some level =>
    if negb (truthy userId) || negb (truthy projectId) then
      ({| esc_statusCode := 400;
          esc_body := EscalationError "Missing required fields: userId, projectId, system, and accessLevel are required" |},
       escalationRequests, None)
    else
      let pid := default "" projectId in
      match find_project d pid with
      | None =>
        ({| esc_statusCode := 404;
            esc_body :=
              EscalationError ("Project with ID " +:+ pid +:+ " not found") |},
         escalationRequests, None)
      | Some project =>
        let '(escalation, escalationRequests, timer) :=
          createEscalationRequest escalationRequests (default "" userId) pid
            sys level (p_managerId project) id now in
        ({| esc_statusCode := 200;
            esc_body :=
              EscalationSubmitted (er_id escalation) (er_status escalation)
                "Escalation request submitted to project manager. You will be notified of the decision."
                (er_escalationTo escalation) |},
         escalationRequests, Some timer)
      end
  | _, _ =>
    ({| esc_statusCode := 400;
        esc_body := EscalationError "Missing required fields: userId, projectId, system, and accessLevel are required" |},
     escalationRequests, None)
  end.

(** ** controllers/accessRequest.controller.ts: the state update endpoint

    [parseIntent] reads the message with regular expressions and is not
    modelled; what it returns for the message of the request is an input,
    [parsed].  Of a [ParsedIntent] the fields read here are kept. *)

Record ParsedIntent := {
  pi_system : option SystemName;
  pi_accessLevel : option AccessLevel;
  pi_project : option string;
  pi_projectId : option string;
  pi_targetEmployeeId : option string
}.

(** [parseIntentFromMessage(message, currentState)]: the fields of
    [parseIntent(message)] that are truthy; [currentState] is not read. *)
Definition parseIntentFromMessage (parsed : ParsedIntent) : ParsedIntent :=
  {| pi_system := pi_system parsed;
     pi_accessLevel := pi_accessLevel parsed;
     pi_project :=
       if truthy (pi_project parsed) then pi_project parsed else None;
     pi_projectId :=
       if truthy (pi_project parsed) then pi_projectId parsed else None;
     pi_targetEmployeeId :=
       if truthy (pi_targetEmployeeId parsed)
       then pi_targetEmployeeId parsed else None |}.

(** The [updates] object the handler fills from the intent. *)
Definition updatesOf (intent : ParsedIntent) : RequestStateUpdates :=
  {| upd_user := None; upd_role := None;
     upd_system := pi_system intent;
     upd_accessLevel := pi_accessLevel intent;
     upd_project :=
       if truthy (pi_project intent) then pi_project intent else None;
     upd_targetEmployeeId :=
       if truthy (pi_targetEmployeeId intent)
       then pi_targetEmployeeId intent else None;
     upd_status := None; upd_agentConfidence := None;
     upd_missingFields := None; upd_accessLink := None;
     upd_rejectionReason := None; upd_approverId := None;
     upd_approverRole := None; upd_approvedAt := None;
     upd_rejectedAt := None |}.

Inductive UpdateBody :=
  | UpdateError (error : string)
  | UpdateDone (newState : RequestState) (response : string)
      (nextAction : string) (reasoning : option string).

Record UpdateResponse := {
  us_statusCode : nat;
  us_body : UpdateBody
}.

(** The handler from "Parse intent from message with state context" to
    its end.  [id] and [now] are the request id and the timestamp the
    auto-submission inside [processStateUpdate] generates.  The one call
    that can throw out of the [try] block is the last
    [validateAccessRequest]; the [catch] block then answers 500, with the
    stores as the earlier steps left them. *)
Definition applyIntent (d : DataFiles) (accessRequests : AccessStore)
    (requestStates : StateStore) (state : RequestState)
    (parsed : ParsedIntent) (id now : string)
  : UpdateResponse * (AccessStore * StateStore) :=
  let intent := parseIntentFromMessage parsed in
  let updates := updatesOf intent in
  let '(state, (accessRequests, requestStates)) :=
    processStateUpdate d accessRequests requestStates state updates id now in
  let finalValidation := validateRequestState state in
  if negb (sv_isValid finalValidation) then
    let errorResponse :=
      generateValidationError
        (default "" (head (sv_missingFields finalValidation))) state in
    ({| us_statusCode := 200;
        us_body :=
          UpdateDone state (ai_message errorResponse)
            (nextAction finalValidation) (reasoning errorResponse) |},
     (accessRequests, requestStates))
  else if bool_decide (agentConfidence state = LOW)
          && bool_decide (rs_role state = Intern)
          && bool_decide (rs_accessLevel state = Some Admin)
  then
    let response := generateStateAwareResponse d state updates None None in
    ({| us_statusCode := 200;
        us_body :=
          UpdateDone state (ai_message response)
            "Need: accessLevel correction" (reasoning response) |},
     (accessRequests, requestStates))
  else
    let projectId := projectIdOf state in
    if bool_decide (is_Some (rs_system state))
       && bool_decide (is_Some (rs_accessLevel state))
       && truthy projectId && gateThrows d (rs_user state)
    then
      ({| us_statusCode := 500;
          us_body := UpdateError "Internal server error while updating request state" |},
       (accessRequests, requestStates))
    else
      let rbacValidation :=
        match rs_system state, rs_accessLevel state with
        | Some system, Some level =>
          Some (validateAccessRequest d (rs_user state) (rs_role state)
                  system level projectId)
        | _, _ => None
        end in
      let granted :=
        match rbacValidation with
        | Some answer => if isValid answer then Some answer else None
        | None => None
        end in
      let isEmployeeOwnedRequest :=
        (bool_decide (rs_system state = Some Email)
         || bool_decide (rs_system state = Some Jira))
        && bool_decide (is_Some (rs_targetEmployeeId state)) in
      let requiresApproval :=
        match granted with
        | Some answer =>
          Some (if isEmployeeOwnedRequest then true
                else vr_requiresApproval answer)
        | None => None
        end in
      let assignedApproverId :=
        match granted with
        | Some _ =>
          if truthy (rs_project state) then
            if truthy projectId then
              match find_project d (default "" projectId) with
              | Some project =>
                if truthy (Some (p_managerId project))
                then Some (p_managerId project) else None
              | None => None
              end
            else None
          else if truthy (rs_targetEmployeeId state)
          then rs_targetEmployeeId state
          else None
        | None => None
        end in
      let response :=
        generateStateAwareResponse d state updates requiresApproval
          assignedApproverId in
      ({| us_statusCode := 200;
          us_body :=
            UpdateDone state (ai_message response)
              (nextAction finalValidation) (reasoning response) |},
       (accessRequests, requestStates)).

Definition handleRequestStateUpdate (d : DataFiles)
    (accessRequests : AccessStore) (requestStates : StateStore)
    (userId : option string) (currentState : option RequestState)
    (message : option string) (parsed : ParsedIntent) (id now : string)
  : UpdateResponse * (AccessStore * StateStore) :=
  if negb (truthy userId) || negb (truthy message) then
    ({| us_statusCode := 400;
        us_body := UpdateError "Missing required fields: userId and message are required" |},
     (accessRequests, requestStates))
  else
    let uid := default "" userId in
    match find_user d uid with
    | None =>
      ({| us_statusCode := 404;
          us_body := UpdateError ("User with ID " +:+ uid +:+ " not found") |},
       (accessRequests, requestStates))
    | Some user =>
      let state :=
        match currentState with
        | Some sent => Some sent
        | None => getRequestState requestStates uid
        end in
      let '(state, requestStates) :=
        match state with
        | Some state => (state, requestStates)
        | None => initializeRequestState requestStates uid (u_role user)
        end in
      let decided :=
        bool_decide (rs_status state = APPROVED)
        || bool_decide (rs_status state = REJECTED) in
      if decided && negb (bool_decide (is_Some (pi_system parsed))) then
        let response :=
          generateStateAwareResponse d state no_updates None None in
        ({| us_statusCode := 200;
            us_body :=
              UpdateDone state (ai_message response) "Need: system"
                (reasoning response) |},
         (accessRequests, requestStates))
      else
        let '(state, requestStates) :=
          if decided then resetRequestState requestStates uid (u_role user)
          else (state, requestStates) in
        applyIntent d accessRequests requestStates state parsed id now
    end.

(** ** Names for parts of [transitionToAwaitingApproval]

    The owner of the project named in the state, the owner of the account
    asked for, the approver chosen between them and the requester's display
    name, as the function computes them on its way. *)

Definition projectOwnerOf (d : DataFiles) (state : RequestState)
  : option string :=
  if truthy (projectIdOf state) then
    match find_project d (default "" (projectIdOf state)) with
    | Some project =>
      if truthy (Some (p_managerId project))
      then Some (p_managerId project) else None
    | None => None
    end
  else None.

Definition employeeOwnerOf (state : RequestState) : option string :=
  if accountOwned state then rs_targetEmployeeId state else None.

Definition primaryApproverOf (d : DataFiles) (state : RequestState)
  : option string :=
  if truthy (projectOwnerOf d state) then projectOwnerOf d state
  else if truthy (employeeOwnerOf state) then employeeOwnerOf state
  else None.

Definition userNameOf (d : DataFiles) (state : RequestState) : string :=
  default (rs_user state)
    (or_else (u_name <$> find_user d (rs_user state))
       (Some (rs_user state))).

(** More conversations for the examples: Bob asking for Jira admin, Alice
    asking for a GitHub project, Alice asking to edit in Bob's Jira account. *)
Definition bobJiraAdmin : RequestState :=
  {| rs_user := "manager-001"; rs_role := Manager; rs_system := Some Jira;
     rs_accessLevel := Some Admin; rs_project := None;
     rs_targetEmployeeId := None; rs_status := IN_PROGRESS;
     agentConfidence := MEDIUM; missingFields := [];
     rs_accessLink := None; rs_rejectionReason := None;
     rs_approverId := None; rs_approverRole := None;
     rs_approvedAt := None; rs_rejectedAt := None |}.

Definition aliceGitHub (project : string) : RequestState :=
  {| rs_user := "intern-001"; rs_role := Intern; rs_system := Some GitHub;
     rs_accessLevel := Some ReadOnly; rs_project := Some project;
     rs_targetEmployeeId := None; rs_status := IN_PROGRESS;
     agentConfidence := HIGH; missingFields := [];
     rs_accessLink := None; rs_rejectionReason := None;
     rs_approverId := None; rs_approverRole := None;
     rs_approvedAt := None; rs_rejectedAt := None |}.

Definition aliceJiraEdit : RequestState :=
  {| rs_user := "intern-001"; rs_role := Intern; rs_system := Some Jira;
     rs_accessLevel := Some CreateEdit; rs_project := None;
     rs_targetEmployeeId := Some "manager-001"; rs_status := IN_PROGRESS;
     agentConfidence := MEDIUM; missingFields := [];
     rs_accessLink := None; rs_rejectionReason := None;
     rs_approverId := None; rs_approverRole := None;
     rs_approvedAt := None; rs_rejectedAt := None |}.

(** * Properties *)

(** ** The insertion-ordered map *)

Section MapFacts.
Context {V : Type}.
Implicit Types (m : list (string * V)) (k : string) (v : V).

Lemma Map_get_set_eq m k v : Map_get (Map_set m k v) k = Some v.
Proof.
  unfold Map_get. induction m as [|[k' v'] m IH]; simpl.
  - by rewrite String.eqb_refl.
  - destruct (String.eqb k' k) eqn:E; simpl.
    + by rewrite String.eqb_refl.
    + by rewrite E.
Qed.

Lemma Map_get_set_ne m k k' v :
  k ≠ k' → Map_get (Map_set m k v) k' = Map_get m k'.
Proof.
  intros Hne. unfold Map_get. induction m as [|[k0 v0] m IH]; simpl.
  - destruct (String.eqb k k') eqn:E; [|done].
    by apply String.eqb_eq in E.
  - destruct (String.eqb k0 k) eqn:E; simpl.
    + apply String.eqb_eq in E as ->.
      destruct (String.eqb k k') eqn:E'; [|done].
      by apply String.eqb_eq in E'.
    + destruct (String.eqb k0 k'); [done|]. apply IH.
Qed.

Lemma Map_get_Some_values m k v : Map_get m k = Some v → In v (Map_values m).
Proof.
  unfold Map_get, Map_values. intros H.
  destruct (List.find _ m) as [[k' v']|] eqn:E; [|done].
  simpl in H. injection H as ->.
  apply find_some in E as [E _]. by apply (in_map snd) in E.
Qed.
End MapFacts.

Lemma truthy_Some s : truthy (Some s) = true ↔ s ≠ "".
Proof.
  simpl. rewrite negb_true_iff. split.
  - intros H ->. by rewrite String.eqb_refl in H.
  - intros H. by apply String.eqb_neq.
Qed.

Lemma truthy_is_Some o : truthy o = true → is_Some o.
Proof. destruct o; [eauto | done]. Qed.

(** ** The approval ledger: a request is decided once *)

Section Ledger.
Context (d : DataFiles).
Implicit Types (accessRequests : AccessStore) (request : AccessRequest).

Lemma approveRequest_unknown accessRequests requestId role approverId now :
  Map_get accessRequests requestId = None →
  approveRequest d accessRequests requestId role approverId now
  = (Returned None, accessRequests).
Proof. intros H. unfold approveRequest. by rewrite H. Qed.

Lemma rejectRequest_unknown accessRequests requestId role reason approverId now :
  Map_get accessRequests requestId = None →
  rejectRequest d accessRequests requestId role reason approverId now
  = (Returned None, accessRequests).
Proof. intros H. unfold rejectRequest. by rewrite H. Qed.

Lemma approveRequest_decided accessRequests requestId request role approverId now :
  Map_get accessRequests requestId = Some request →
  ar_status request ≠ pending →
  ∃ message,
    approveRequest d accessRequests requestId role approverId now
    = (Thrown message, accessRequests).
Proof.
  intros Hget Hst. unfold approveRequest. rewrite Hget.
  destruct (negb (canApproveRequests d role) && _); [eauto|].
  rewrite bool_decide_eq_false_2 by done. simpl. eauto.
Qed.

Lemma rejectRequest_decided accessRequests requestId request role reason
    approverId now :
  Map_get accessRequests requestId = Some request →
  ar_status request ≠ pending →
  ∃ message,
    rejectRequest d accessRequests requestId role reason approverId now
    = (Thrown message, accessRequests).
Proof.
  intros Hget Hst. unfold rejectRequest. rewrite Hget.
  destruct (Nat.ltb 120 _); [eauto|].
  destruct (negb (canApproveRequests d role) && _); [eauto|].
  rewrite bool_decide_eq_false_2 by done. simpl. eauto.
Qed.

Lemma approveRequest_returns accessRequests requestId role approverId now
    result accessRequests' :
  approveRequest d accessRequests requestId role approverId now
  = (Returned (Some result), accessRequests') →
  ∃ request,
    Map_get accessRequests requestId = Some request
    ∧ ar_status request = pending
    ∧ (canApproveRequests d role = true
       ∨ isEmployeeOwnedRequest request approverId = true)
    ∧ result.1 = markApproved request role approverId now
    ∧ accessRequests' = Map_set accessRequests requestId result.1.
Proof.
  unfold approveRequest.
  destruct (Map_get accessRequests requestId) as [request|] eqn:Hget; [|done].
  destruct (negb (canApproveRequests d role) && _) eqn:Hperm; [done|].
  destruct (bool_decide (ar_status request = pending)) eqn:Hst; [|done].
  simpl. intros [= <- <-]. exists request. split_and!; try done.
  - by apply bool_decide_eq_true in Hst.
  - apply andb_false_iff in Hperm as [H|H]; apply negb_false_iff in H; eauto.
Qed.

Lemma rejectRequest_returns accessRequests requestId role reason approverId now
    result accessRequests' :
  rejectRequest d accessRequests requestId role reason approverId now
  = (Returned (Some result), accessRequests') →
  ∃ request,
    Map_get accessRequests requestId = Some request
    ∧ ar_status request = pending
    ∧ (String.length reason ≤ 120)%nat
    ∧ (canApproveRequests d role = true
       ∨ isEmployeeOwnedRequest request approverId = true)
    ∧ result.1 = markRejected request role reason approverId now
    ∧ accessRequests' = Map_set accessRequests requestId result.1.
Proof.
  unfold rejectRequest.
  destruct (Map_get accessRequests requestId) as [request|] eqn:Hget; [|done].
  destruct (Nat.ltb 120 _) eqn:Hlen; [done|].
  destruct (negb (canApproveRequests d role) && _) eqn:Hperm; [done|].
  destruct (bool_decide (ar_status request = pending)) eqn:Hst; [|done].
  simpl. intros [= <- <-]. exists request. split_and!; try done.
  - by apply bool_decide_eq_true in Hst.
  - apply Nat.ltb_ge in Hlen. lia.
  - apply andb_false_iff in Hperm as [H|H]; apply negb_false_iff in H; eauto.
Qed.

(** A pending request is decided by an actor with approval authority, and
    the ledger then holds the decided record. *)
Lemma approveRequest_pending accessRequests requestId request role approverId now :
  Map_get accessRequests requestId = Some request →
  ar_status request = pending →
  canApproveRequests d role = true →
  ∃ event,
    approveRequest d accessRequests requestId role approverId now
    = (Returned (Some (markApproved request role approverId now, event)),
       Map_set accessRequests requestId
         (markApproved request role approverId now)).
Proof.
  intros Hget Hst Hperm. unfold approveRequest.
  rewrite Hget, Hperm, Hst. simpl. eauto.
Qed.

Lemma rejectRequest_pending accessRequests requestId request role reason
    approverId now :
  Map_get accessRequests requestId = Some request →
  ar_status request = pending →
  canApproveRequests d role = true →
  (String.length reason ≤ 120)%nat →
  ∃ event,
    rejectRequest d accessRequests requestId role reason approverId now
    = (Returned (Some (markRejected request role reason approverId now, event)),
       Map_set accessRequests requestId
         (markRejected request role reason approverId now)).
Proof.
  intros Hget Hst Hperm Hlen. unfold rejectRequest.
  rewrite Hget, Hperm, Hst.
  assert (Nat.ltb 120 (String.length reason) = false) as ->
    by (apply Nat.ltb_ge; lia).
  simpl. eauto.
Qed.

(** Deciding twice: whatever the first decision was, every later attempt on
    the same id throws and the ledger stays as the first decision left it. *)
Lemma decided_stays_decided accessRequests requestId role approverId now result
    accessRequests' role' reason' approverId' now' :
  approveRequest d accessRequests requestId role approverId now
  = (Returned (Some result), accessRequests') →
  (∃ message,
     approveRequest d accessRequests' requestId role' approverId' now'
     = (Thrown message, accessRequests'))
  ∧ (∃ message,
       rejectRequest d accessRequests' requestId role' reason' approverId' now'
       = (Thrown message, accessRequests')).
Proof.
  intros H. apply approveRequest_returns in H
    as (request & Hget & Hst & _ & Hres & ->).
  assert (Map_get (Map_set accessRequests requestId result.1) requestId
          = Some result.1) as Hget' by apply Map_get_set_eq.
  assert (ar_status result.1 ≠ pending) as Hst' by by rewrite Hres.
  split.
  - by eapply approveRequest_decided.
  - by eapply rejectRequest_decided.
Qed.

(** C1.  Approving or rejecting returns a result only for a stored request
    whose status is pending; on a request that is already approved or
    rejected both operations throw and leave the whole ledger, hence the
    record's status and decision metadata, as it was; on an id the ledger
    does not hold both return null and change nothing. *)
Theorem decide_requires_pending accessRequests requestId role reason approverId
    now :
  (∀ result accessRequests',
     approveRequest d accessRequests requestId role approverId now
     = (Returned (Some result), accessRequests') →
     ∃ request, Map_get accessRequests requestId = Some request
                ∧ ar_status request = pending)
  ∧ (∀ result accessRequests',
       rejectRequest d accessRequests requestId role reason approverId now
       = (Returned (Some result), accessRequests') →
       ∃ request, Map_get accessRequests requestId = Some request
                  ∧ ar_status request = pending)
  ∧ (∀ request,
       Map_get accessRequests requestId = Some request →
       ar_status request ≠ pending →
       (∃ message,
          approveRequest d accessRequests requestId role approverId now
          = (Thrown message, accessRequests))
       ∧ (∃ message,
            rejectRequest d accessRequests requestId role reason approverId now
            = (Thrown message, accessRequests)))
  ∧ (Map_get accessRequests requestId = None →
     approveRequest d accessRequests requestId role approverId now
     = (Returned None, accessRequests)
     ∧ rejectRequest d accessRequests requestId role reason approverId now
       = (Returned None, accessRequests)).
Proof.
  split_and!.
  - intros result accessRequests' H.
    apply approveRequest_returns in H as (request & ? & ? & _). eauto.
  - intros result accessRequests' H.
    apply rejectRequest_returns in H as (request & ? & ? & _). eauto.
  - intros request Hget Hst. split.
    + by eapply approveRequest_decided.
    + by eapply rejectRequest_decided.
  - intros Hget. split.
    + by apply approveRequest_unknown.
    + by apply rejectRequest_unknown.
Qed.

End Ledger.

(** Bob tries to decide a request that is already approved: both operations
    throw and the ledger is as before. *)
Lemma decide_requires_pending_witness :
  let ledger := [("req-1", mailboxRequest approved true)] in
  (∃ message,
     approveRequest sampleData ledger "req-1" Manager (Some "manager-001")
       "2025-01-01T00:00:00.000Z"
     = (Thrown message, ledger))
  ∧ (∃ message,
       rejectRequest sampleData ledger "req-1" Manager "Not needed"
         (Some "manager-001") "2025-01-01T00:00:00.000Z"
       = (Thrown message, ledger)).
Proof.
  intros ledger.
  destruct (decide_requires_pending sampleData ledger "req-1" Manager
              "Not needed" (Some "manager-001") "2025-01-01T00:00:00.000Z")
    as (_ & _ & H & _).
  apply (H (mailboxRequest approved true)); [reflexivity|discriminate].
Defined.

(** Bob approves Alice's pending request; the ledger then holds it as
    approved and a second decision is refused. *)
Example decide_once :
  let ledger := [("req-1", mailboxRequest pending true)] in
  ∃ request event ledger',
    approveRequest sampleData ledger "req-1" Manager (Some "manager-001")
      "2025-01-02T00:00:00.000Z"
    = (Returned (Some (request, event)), ledger')
    ∧ ar_status <$> Map_get ledger' "req-1" = Some approved
    ∧ ar_approverId request = Some "manager-001"
    ∧ ∃ message,
        rejectRequest sampleData ledger' "req-1" ITAdministrator "Too late"
          (Some "admin-001") "2025-01-03T00:00:00.000Z"
        = (Thrown message, ledger').
Proof.
  simpl. do 3 eexists. split; [reflexivity|].
  split_and!; [reflexivity|reflexivity|]. eexists. reflexivity.
Qed.

(** ** The approval ledger: who sees which pending request *)

Lemma filter_filter {A} (f g : A → bool) (l : list A) :
  List.filter g (List.filter f l) = List.filter (fun x => f x && g x) l.
Proof.
  induction l as [|x l IH]; [done|]. simpl.
  destruct (f x); simpl; [|done]. destruct (g x); by rewrite IH.
Qed.

Lemma getPendingApprovalsForManager_filter d accessRequests managerId
    managerRole managedProjectIds :
  getPendingApprovalsForManager d accessRequests managerId managerRole
    managedProjectIds
  = if mayList d managerRole
    then List.filter (shownTo managerId managerRole) (Map_values accessRequests)
    else [].
Proof.
  unfold getPendingApprovalsForManager, mayList.
  destruct (canApproveRequests d managerRole),
    (bool_decide (managerRole = Developer)),
    (bool_decide (managerRole = Intern)); simpl; try done;
    rewrite filter_filter; apply filter_ext; intros request; unfold shownTo;
    destruct (bool_decide (ar_status request = pending)),
      (ar_requiresApproval request), (String.eqb managerId "admin-001"),
      (bool_decide (managerRole = ITAdministrator)),
      (bool_decide (assignedApproverId request = Some managerId)); done.
Qed.

(** Who is listed what, for every ledger and every viewer. *)
Lemma getPendingApprovalsForManager_In d accessRequests managerId managerRole
    managedProjectIds request :
  In request
    (getPendingApprovalsForManager d accessRequests managerId managerRole
       managedProjectIds)
  ↔ (canApproveRequests d managerRole = true
     ∨ managerRole = Developer ∨ managerRole = Intern)
    ∧ In request (Map_values accessRequests)
    ∧ ar_status request = pending
    ∧ ar_requiresApproval request = true
    ∧ (managerId = "admin-001" ∨ managerRole = ITAdministrator
       ∨ assignedApproverId request = Some managerId).
Proof.
  rewrite getPendingApprovalsForManager_filter.
  unfold mayList, shownTo.
  destruct (canApproveRequests d managerRole
            || bool_decide (managerRole = Developer)
            || bool_decide (managerRole = Intern)) eqn:Hmay.
  - rewrite filter_In, !andb_true_iff, !orb_true_iff, !bool_decide_eq_true,
      String.eqb_eq.
    rewrite !orb_true_iff, !bool_decide_eq_true in Hmay. tauto.
  - rewrite !orb_false_iff, !bool_decide_eq_false in Hmay.
    split; [done|]. intros [[H|[H|H]] _]; [|tauto..].
    destruct Hmay as [[Hc _] _]. congruence.
Qed.

(** On a ledger where a pending request always requires approval, and for
    a viewer whose id and role agree on who the administrator is, the list
    is the one the specification describes. *)
Lemma visibility_on_consistent_ledger d accessRequests viewerId viewerRole
    managedProjectIds :
  mayList d viewerRole = true →
  (viewerId = "admin-001" → viewerRole = ITAdministrator) →
  (∀ request,
     In request (Map_values accessRequests) →
     ar_status request = pending → ar_requiresApproval request = true) →
  getPendingApprovalsForManager d accessRequests viewerId viewerRole
    managedProjectIds
  = visibleAsSpecified accessRequests viewerId viewerRole.
Proof.
  intros Hmay Hadmin Hledger.
  rewrite getPendingApprovalsForManager_filter, Hmay.
  unfold visibleAsSpecified. apply filter_ext_in. intros request Hin.
  unfold shownTo.
  destruct (bool_decide (ar_status request = pending)) eqn:Hst; [|done].
  apply bool_decide_eq_true in Hst. rewrite (Hledger request Hin Hst). simpl.
  destruct (String.eqb viewerId "admin-001") eqn:Hid; [|done].
  apply String.eqb_eq in Hid.
  by rewrite (bool_decide_eq_true_2 _ (Hadmin Hid)).
Qed.

Lemma Map_set_In {V} (m : list (string * V)) k v x :
  In x (Map_values (Map_set m k v)) → x = v ∨ In x (Map_values m).
Proof.
  unfold Map_values. induction m as [|[k' v'] m IH]; simpl.
  - intros [<- | []]. by left.
  - destruct (String.eqb k' k); simpl.
    + intros [<- | H]; [by left | right; by right].
    + intros [<- | H]; [right; by left|].
      destruct (IH H) as [-> | H']; [by left | right; by right].
Qed.

(** Every ledger the services build files a request as pending only
    together with the flag that it requires approval, and no decision
    makes a request pending. *)
Lemma reachable_consistent d accessRequests :
  reachable d accessRequests →
  ∀ request,
    In request (Map_values accessRequests) →
    ar_status request = pending → ar_requiresApproval request = true.
Proof.
  induction 1 as [| accessRequests filed final id now _ IH Hst Hflag
                  | accessRequests requestId role approverId now result _ IH
                      Hcall
                  | accessRequests requestId role reason approverId now result
                      _ IH Hcall];
    intros request Hin Hpending.
  - destruct Hin.
  - unfold createAccessRequest in Hin. cbn [snd] in Hin.
    apply Map_set_In in Hin as [-> | Hin]; [|by apply IH].
    cbn in Hpending |- *. rewrite Hst in Hpending. rewrite Hflag.
    by destruct final.
  - destruct result as [[[decided|]|thrown] accessRequests'].
    + apply approveRequest_returns in Hcall
        as (old & _ & _ & _ & Hres & ->).
      cbn [snd] in Hin. apply Map_set_In in Hin as [-> | Hin];
        [|by apply IH].
      by rewrite Hres in Hpending.
    + assert (accessRequests' = accessRequests) as ->
        by (revert Hcall; unfold approveRequest;
            destruct (Map_get accessRequests requestId);
            [destruct (negb (canApproveRequests d role) && _);
             [|destruct (negb (bool_decide _))]|]; congruence).
      by apply IH.
    + assert (accessRequests' = accessRequests) as ->
        by (revert Hcall; unfold approveRequest;
            destruct (Map_get accessRequests requestId);
            [destruct (negb (canApproveRequests d role) && _);
             [|destruct (negb (bool_decide _))]|]; congruence).
      by apply IH.
  - destruct result as [[[decided|]|thrown] accessRequests'].
    + apply rejectRequest_returns in Hcall
        as (old & _ & _ & _ & _ & Hres & ->).
      cbn [snd] in Hin. apply Map_set_In in Hin as [-> | Hin];
        [|by apply IH].
      by rewrite Hres in Hpending.
    + assert (accessRequests' = accessRequests) as ->
        by (revert Hcall; unfold rejectRequest;
            destruct (Map_get accessRequests requestId);
            [destruct (Nat.ltb 120 _);
             [|destruct (negb (canApproveRequests d role) && _);
               [|destruct (negb (bool_decide _))]]|]; congruence).
      by apply IH.
    + assert (accessRequests' = accessRequests) as ->
        by (revert Hcall; unfold rejectRequest;
            destruct (Map_get accessRequests requestId);
            [destruct (Nat.ltb 120 _);
             [|destruct (negb (canApproveRequests d role) && _);
               [|destruct (negb (bool_decide _))]]|]; congruence).
      by apply IH.
Qed.

(** C2.  On every ledger the services build, and for every viewer whose
    role passes the role test of the function (Developer and Intern always
    do, Manager and IT Administrator when the rule file gives them approval
    rights) and who carries the id admin-001 only together with the IT
    Administrator role, the list is exactly the specified one, in ledger
    order: every pending request for the IT Administrator, and otherwise
    exactly the pending requests whose assignedApproverId is the viewer's
    id.  The further test on requiresApproval excludes nothing there,
    because such a ledger holds no pending request without the flag. *)
Theorem pending_visibility d accessRequests viewerId viewerRole
    managedProjectIds :
  reachable d accessRequests →
  (viewerRole = Manager ∨ viewerRole = ITAdministrator →
   canApproveRequests d viewerRole = true) →
  (viewerId = "admin-001" → viewerRole = ITAdministrator) →
  getPendingApprovalsForManager d accessRequests viewerId viewerRole
    managedProjectIds
  = visibleAsSpecified accessRequests viewerId viewerRole
  ∧ ∀ request,
      In request
        (getPendingApprovalsForManager d accessRequests viewerId viewerRole
           managedProjectIds)
      ↔ In request (Map_values accessRequests)
        ∧ ar_status request = pending
        ∧ (viewerRole = ITAdministrator
           ∨ assignedApproverId request = Some viewerId).
Proof.
  intros Hreach Hrights Hadmin.
  pose proof (reachable_consistent d accessRequests Hreach) as Hledger.
  assert (canApproveRequests d viewerRole = true
          ∨ viewerRole = Developer ∨ viewerRole = Intern) as Hguard
    by (destruct viewerRole; auto).
  split.
  - apply visibility_on_consistent_ledger; [|done..].
    unfold mayList.
    destruct Hguard as [-> | [-> | ->]]; by rewrite ?orb_true_r.
  - intros request. rewrite getPendingApprovalsForManager_In.
    split.
    + intros (_ & Hin & Hst & _ & [Hid | [Hrole | Hassigned]]);
        split_and!; auto.
    + intros (Hin & Hst & Hwho). split_and!; auto.
Qed.

(** Alice's request for Bob's mailbox, filed as pending, is listed to Bob
    and to nobody else but the administrator. *)
Lemma pending_visibility_witness :
  let ledger :=
    (createAccessRequest [] (mailboxRequest pending true) "req-1"
       "2025-01-01T00:00:00.000Z").2 in
  getPendingApprovalsForManager sampleData ledger "manager-001" Manager []
  = visibleAsSpecified ledger "manager-001" Manager
  ∧ length (getPendingApprovalsForManager sampleData ledger "manager-001"
              Manager []) = 1%nat
  ∧ getPendingApprovalsForManager sampleData ledger "manager-002" Manager []
    = [].
Proof.
  intros ledger.
  assert (reachable sampleData ledger) as Hreach
    by (apply (reachable_filed sampleData [] (mailboxRequest pending true)
                 true);
        [apply reachable_empty | reflexivity | reflexivity]).
  destruct (pending_visibility sampleData ledger "manager-001" Manager []
              Hreach) as [Heq _];
    [reflexivity | discriminate |].
  split; [exact Heq|]. split; reflexivity.
Defined.

(** ** The rule engine: project membership comes first *)

Lemma validateProjectAccess_not_assigned d userId projectId :
  u_role <$> find_user d userId ≠ Some ITAdministrator →
  includes (default [] (projectAssignments d !! userId)) projectId = false →
  validateProjectAccess d userId projectId
  = {| isAssigned := false;
       managerId := p_managerId <$> find_project d projectId |}.
Proof.
  intros Hrole Hincl. unfold validateProjectAccess.
  rewrite bool_decide_eq_false_2 by done. by rewrite Hincl.
Qed.

Lemma validateProjectAccess_administrator d userId projectId :
  u_role <$> find_user d userId = Some ITAdministrator →
  validateProjectAccess d userId projectId
  = {| isAssigned := true; managerId := None |}.
Proof.
  intros Hrole. unfold validateProjectAccess.
  by rewrite bool_decide_eq_true_2.
Qed.

Lemma find_project_owner d projectId project :
  find_project d projectId = Some project →
  In project (projects d) ∧ p_id project = projectId.
Proof.
  intros H. apply find_some in H as [Hin Heq].
  by apply String.eqb_eq in Heq.
Qed.

(** C3, as amended.  With a project id supplied, a user id that the user
    file does not list as IT Administrator and that the assignment file does
    not assign to the project is answered with an escalation to the manager
    of that project, provided the assignment lookup returns for that id;
    the answer is the same for every role argument, system, level and rule
    table, so neither the role passed in nor anything after the membership
    check takes part in it.  A user id the user file lists as IT
    Administrator passes the membership check, whatever role is passed in,
    and is evaluated as if no project had been given. *)
Theorem membership_gate_first d userId projectId userRole system level :
  projectId ≠ "" →
  (gateThrows d userId = false →
   u_role <$> find_user d userId ≠ Some ITAdministrator →
   includes (default [] (projectAssignments d !! userId)) projectId = false →
   let answer :=
     validateAccessRequest d userId userRole system level (Some projectId) in
   isValid answer = false
   ∧ vr_requiresEscalation answer = Some true
   ∧ vr_escalationTo answer = p_managerId <$> find_project d projectId
   ∧ ∀ rules' userRole' system' level',
       validateAccessRequest (withRules d rules') userId userRole' system'
         level' (Some projectId)
       = answer)
  ∧ (u_role <$> find_user d userId = Some ITAdministrator →
     gateThrows d userId = false
     ∧ isAssigned (validateProjectAccess d userId projectId) = true
     ∧ ∀ userRole',
         validateAccessRequest d userId userRole' system level
           (Some projectId)
         = validateAccessRequest d userId userRole' system level None).
Proof.
  intros Hpid. apply truthy_Some in Hpid. split.
  - intros _ Hrole Hincl answer. subst answer. unfold validateAccessRequest.
    rewrite Hpid.
    rewrite (validateProjectAccess_not_assigned d) by done. simpl.
    split_and!; try done.
    intros rules' userRole' system' level'.
    rewrite (validateProjectAccess_not_assigned (withRules d rules')) by done.
    done.
  - intros Hrole. split_and!.
    + unfold gateThrows. by rewrite bool_decide_eq_true_2.
    + by rewrite validateProjectAccess_administrator.
    + intros userRole'. unfold validateAccessRequest.
      rewrite validateProjectAccess_administrator by done.
      simpl. by rewrite andb_false_r.
Qed.

(** Alice is assigned to Project Beta only; her request for Project Alpha is
    escalated to Bob. *)
Lemma membership_gate_witness :
  vr_escalationTo
    (validateAccessRequest sampleData "intern-001" Intern GitHub ReadOnly
       (Some "project-1"))
  = Some "manager-001".
Proof.
  destruct (membership_gate_first sampleData "intern-001" "project-1" Intern
              GitHub ReadOnly) as [H _]; [done|].
  destruct H as (_ & _ & H & _);
    [reflexivity|vm_compute; congruence|reflexivity|].
  exact H.
Defined.

(** The role passed to the evaluator does not decide the membership check:
    Alice's id with the IT Administrator role passed in is still escalated
    for Project Alpha, and a user id the user file lists as IT Administrator
    passes the check for a project it is not assigned to with the Intern
    role passed in. *)
Lemma role_argument_does_not_bypass :
  let unassigned :=
    {| accessRules := sampleRules;
       projectAssignments := {["intern-001" := ["project-2"]]};
       projects := mockProjects; users := mockUsers |} in
  let escalated :=
    validateAccessRequest sampleData "intern-001" ITAdministrator GitHub
      ReadOnly (Some "project-1") in
  let passed :=
    validateAccessRequest unassigned "admin-001" Intern GitHub ReadOnly
      (Some "project-1") in
  gateThrows sampleData "intern-001" = false
  ∧ isValid escalated = false
  ∧ vr_requiresEscalation escalated = Some true
  ∧ vr_escalationTo escalated = Some "manager-001"
  ∧ gateThrows unassigned "admin-001" = false
  ∧ includes (default [] (projectAssignments unassigned !! "admin-001"))
      "project-1" = false
  ∧ isValid passed = true
  ∧ vr_requiresEscalation passed = None.
Proof. cbv zeta. split_and!; reflexivity. Qed.

(** ** The rule engine: levels and downgrades *)

(** An invalid answer for a level other than admin means that the role or the
    system has no rules, or that the level is neither allowed nor can be
    downgraded. *)
Lemma invalid_only_without_downgrade d userRole system level :
  level ≠ Admin →
  isValid (validateRoleAndLevel d userRole system level) = false →
  accessRules d userRole = None
  ∨ (∃ roleRules, accessRules d userRole = Some roleRules
                  ∧ rr_system roleRules system = None)
  ∨ (∃ roleRules systemRules,
       accessRules d userRole = Some roleRules
       ∧ rr_system roleRules system = Some systemRules
       ∧ accessLevelMap level systemRules = false
       ∧ findDowngradedAccessLevel systemRules level system userRole = None).
Proof.
  intros Hlevel. unfold validateRoleAndLevel.
  destruct (accessRules d userRole) as [roleRules|]; [|by left].
  destruct (rr_system roleRules system) as [systemRules|] eqn:Hsys;
    [|right; left; eauto].
  rewrite (bool_decide_eq_false_2 (level = Admin)) by done.
  destruct (accessLevelMap level systemRules) eqn:Hmap; simpl; [done|].
  destruct (findDowngradedAccessLevel systemRules level system userRole)
    eqn:Hdown; simpl; [done|].
  intros _. right; right. exists roleRules, systemRules. done.
Qed.

(** A level found by [findDowngradedAccessLevel] differs from the one asked
    for. *)
Lemma findDowngradedAccessLevel_lower systemRules level system userRole lower :
  findDowngradedAccessLevel systemRules level system userRole = Some lower →
  lower ≠ level.
Proof.
  unfold findDowngradedAccessLevel.
  destruct level, system, userRole; simpl;
    repeat match goal with
           | |- context [is_true_flag ?x] => destruct (is_true_flag x); simpl
           end; congruence.
Qed.

(** The level asked for is the level allowed only if the entry of
    [accessLevelMap] for it passes. *)
Lemma exact_level_needs_check d userRole system level :
  level ≠ Admin →
  allowedAccessLevel (validateRoleAndLevel d userRole system level)
  = Some level →
  ∃ roleRules systemRules,
    accessRules d userRole = Some roleRules
    ∧ rr_system roleRules system = Some systemRules
    ∧ accessLevelMap level systemRules = true.
Proof.
  intros Hlevel. unfold validateRoleAndLevel.
  destruct (accessRules d userRole) as [roleRules|]; [|done].
  destruct (rr_system roleRules system) as [systemRules|] eqn:Hsys; [|done].
  rewrite (bool_decide_eq_false_2 (level = Admin)) by done.
  destruct (accessLevelMap level systemRules) eqn:Hmap; simpl; [eauto|].
  destruct (findDowngradedAccessLevel systemRules level system userRole)
    as [lower|] eqn:Hdown; simpl; [|done].
  intros [= ->]. by apply findDowngradedAccessLevel_lower in Hdown.
Qed.

(** The check for read-write passes on the read-only flag alone, so the
    request is never handed to [findDowngradedAccessLevel]. *)
Lemma readWrite_passes_on_readOnly d userId userRole roleRules systemRules
    system :
  accessRules d userRole = Some roleRules →
  rr_system roleRules system = Some systemRules →
  readOnly systemRules = Some true →
  sr_accessLevel systemRules = None →
  validateAccessRequest d userId userRole system ReadWrite None
  = valid (sr_requiresApproval systemRules) ReadWrite None.
Proof.
  intros Hrole Hsys Hro Hlevel. unfold validateAccessRequest, validateRoleAndLevel.
  rewrite Hrole, Hsys. simpl. rewrite Hro, Hlevel, orb_true_r. done.
Qed.

(** C4, observed behaviour.  The sample table allows an Intern read-only
    access to GitHub and marks read-write as not allowed; a read-write
    request is nevertheless answered valid with read-write as the allowed
    level and without a downgrade reason, although the downgrade function
    on its own maps the request to read-only. *)
Theorem readWrite_granted_on_readOnly_rules :
  readWrite internGitHub = Some false
  ∧ findDowngradedAccessLevel internGitHub ReadWrite GitHub Intern
    = Some ReadOnly
  ∧ validateAccessRequest sampleData "intern-001" Intern GitHub ReadWrite None
    = valid true ReadWrite None.
Proof. split_and!; reflexivity. Qed.

(** ** The request state machine: missing fields *)

Lemma calculateMissingFields_eq s :
  calculateMissingFields s
  = (if needsSystem s then ["system"] else [])
    ++ (if needsTargetEmployee s then ["targetEmployeeId"] else [])
    ++ (if needsProject s then ["project"] else [])
    ++ (if needsAccessLevel s then ["accessLevel"] else []).
Proof.
  unfold calculateMissingFields, validateRequestState, push.
  fold (needsSystem s) (needsTargetEmployee s) (needsProject s)
    (needsAccessLevel s).
  by destruct (needsSystem s), (needsTargetEmployee s), (needsProject s),
    (needsAccessLevel s).
Qed.

Lemma needs_exclusive s :
  needsTargetEmployee s = true → needsProject s = true → False.
Proof.
  unfold needsTargetEmployee, needsProject.
  rewrite !andb_true_iff, orb_true_iff, !bool_decide_eq_true.
  intros [[[H|H] _] _] [H' _]; congruence.
Qed.

Lemma updateRequestState_missingFields requestStates s u :
  missingFields (updateRequestState requestStates s u).1
  = calculateMissingFields (updateRequestState requestStates s u).1.
Proof.
  unfold updateRequestState. simpl.
  set (s1 := match upd_system u with Some _ => _ | None => _ end).
  destruct (bool_decide (rs_status _ = DRAFT) && _); done.
Qed.

Lemma needsSystem_true s : needsSystem s = true ↔ rs_system s = None.
Proof. unfold needsSystem. by destruct (rs_system s). Qed.

Lemma needsAccessLevel_true s :
  needsAccessLevel s = true ↔ rs_accessLevel s = None.
Proof. unfold needsAccessLevel. by destruct (rs_accessLevel s). Qed.

Lemma needsTargetEmployee_true s :
  needsTargetEmployee s = true
  ↔ (rs_system s = Some Email ∨ rs_system s = Some Jira)
    ∧ rs_role s = Intern ∧ truthy (rs_targetEmployeeId s) = false.
Proof.
  unfold needsTargetEmployee.
  rewrite !andb_true_iff, orb_true_iff, !bool_decide_eq_true, negb_true_iff.
  tauto.
Qed.

Lemma needsProject_true s :
  needsProject s = true
  ↔ rs_system s = Some GitHub ∧ truthy (rs_project s) = false.
Proof.
  unfold needsProject.
  by rewrite andb_true_iff, bool_decide_eq_true, negb_true_iff.
Qed.

(** Membership of a literal in a literal list of field names. *)
Ltac field_membership :=
  split; intros Hfield;
  [ first [ done
          | exfalso; apply (bool_decide_pack _) in Hfield;
            vm_compute in Hfield; exact Hfield ]
  | first [ discriminate Hfield
          | apply (bool_decide_unpack _); vm_compute; exact I ] ].

Lemma missing_membership s :
  let missing := calculateMissingFields s in
  ("system" ∈ missing ↔ needsSystem s = true)
  ∧ ("targetEmployeeId" ∈ missing ↔ needsTargetEmployee s = true)
  ∧ ("project" ∈ missing ↔ needsProject s = true)
  ∧ ("accessLevel" ∈ missing ↔ needsAccessLevel s = true).
Proof.
  simpl. rewrite calculateMissingFields_eq.
  destruct (needsSystem s), (needsTargetEmployee s), (needsProject s),
    (needsAccessLevel s); simpl; split_and!; field_membership.
Qed.

(** C7.  The recomputed list is a subsequence of system, targetEmployeeId,
    project, accessLevel, each field being listed exactly under its
    condition: the system when none is chosen, the target employee for an
    Intern asking for Email or Jira without one, the project for GitHub
    without one, the access level when none is chosen.  So the system, when
    missing, comes first and the access level, when missing, comes last,
    after the target employee or the project.  Every state produced by
    [updateRequestState] carries the list recomputed from its own fields. *)
Theorem missing_fields_ordering s :
  let missing := calculateMissingFields s in
  sublist missing ["system"; "targetEmployeeId"; "project"; "accessLevel"]
  ∧ ("system" ∈ missing ↔ rs_system s = None)
  ∧ ("targetEmployeeId" ∈ missing
     ↔ (rs_system s = Some Email ∨ rs_system s = Some Jira)
       ∧ rs_role s = Intern ∧ truthy (rs_targetEmployeeId s) = false)
  ∧ ("project" ∈ missing
     ↔ rs_system s = Some GitHub ∧ truthy (rs_project s) = false)
  ∧ ("accessLevel" ∈ missing ↔ rs_accessLevel s = None)
  ∧ ("system" ∈ missing → head missing = Some "system")
  ∧ ("accessLevel" ∈ missing → last missing = Some "accessLevel")
  ∧ ∀ requestStates u,
      missingFields (updateRequestState requestStates s u).1
      = calculateMissingFields (updateRequestState requestStates s u).1.
Proof.
  intros missing.
  destruct (missing_membership s) as (Hs & Ht & Hp & Ha).
  fold missing in Hs, Ht, Hp, Ha.
  rewrite <- needsSystem_true, <- needsTargetEmployee_true,
    <- needsProject_true, <- needsAccessLevel_true.
  split_and!; try done.
  - subst missing. rewrite calculateMissingFields_eq.
    destruct (needsSystem s), (needsTargetEmployee s), (needsProject s),
      (needsAccessLevel s); simpl; repeat (constructor || done).
  - rewrite Hs. subst missing. rewrite calculateMissingFields_eq.
    by intros ->.
  - rewrite Ha. subst missing. rewrite calculateMissingFields_eq.
    intros ->.
    by destruct (needsSystem s), (needsTargetEmployee s), (needsProject s).
  - intros requestStates u. apply updateRequestState_missingFields.
Qed.

(** Alice has picked Email and nothing else: she is asked for the account
    owner first and for the level last. *)
Lemma missing_fields_ordering_witness :
  calculateMissingFields
    (updateRequestState ∅ (createInitialRequestState "intern-001" Intern)
       {| upd_user := None; upd_role := None; upd_system := Some Email;
          upd_accessLevel := None; upd_project := None;
          upd_targetEmployeeId := None; upd_status := None;
          upd_agentConfidence := None; upd_missingFields := None;
          upd_accessLink := None; upd_rejectionReason := None;
          upd_approverId := None; upd_approverRole := None;
          upd_approvedAt := None; upd_rejectedAt := None |}).1
  = ["targetEmployeeId"; "accessLevel"]
  ∧ last (calculateMissingFields
            (updateRequestState ∅
               (createInitialRequestState "intern-001" Intern)
               {| upd_user := None; upd_role := None;
                  upd_system := Some Email;
                  upd_accessLevel := None; upd_project := None;
                  upd_targetEmployeeId := None; upd_status := None;
                  upd_agentConfidence := None; upd_missingFields := None;
                  upd_accessLink := None; upd_rejectionReason := None;
                  upd_approverId := None; upd_approverRole := None;
                  upd_approvedAt := None; upd_rejectedAt := None |}).1)
    = Some "accessLevel".
Proof.
  split; [reflexivity|].
  apply missing_fields_ordering.
  apply (bool_decide_unpack _). vm_compute. exact I.
Defined.

(** ** The request state machine: finalizing *)

Lemma updateRequestState_status requestStates s u status :
  upd_status u = Some status →
  status ≠ DRAFT →
  rs_status (updateRequestState requestStates s u).1 = status.
Proof.
  intros Hu Hst. unfold updateRequestState. simpl.
  set (s1 := match upd_system u with Some _ => _ | None => _ end).
  assert (rs_status s1 = status) as Hs1.
  { subst s1. destruct (upd_system u) as [sys|]; simpl.
    - destruct (negb (bool_decide (Some sys = rs_system s))); simpl;
        [destruct (negb (bool_decide (sys = GitHub))); simpl|];
        by rewrite Hu.
    - by rewrite Hu. }
  simpl. rewrite Hs1. by rewrite (bool_decide_eq_false_2 (status = DRAFT)).
Qed.

Lemma updateRequestState_stored requestStates s u :
  (updateRequestState requestStates s u).2
    !! rs_user (updateRequestState requestStates s u).1
  = Some (updateRequestState requestStates s u).1.
Proof. unfold updateRequestState. simpl. apply lookup_insert_eq. Qed.

Lemma shouldAutoSubmit_missing s :
  shouldAutoSubmit s = true ↔ calculateMissingFields s = [].
Proof.
  unfold shouldAutoSubmit. rewrite calculateMissingFields_eq.
  unfold needsSystem, needsTargetEmployee, needsProject, needsAccessLevel.
  destruct (rs_system s) as [[]|], (rs_accessLevel s) as [level|],
    (rs_role s), (rs_project s) as [project|],
    (rs_targetEmployeeId s) as [target|]; simpl;
    try destruct (String.eqb project ""); try destruct (String.eqb target "");
    simpl; split; (done || discriminate).
Qed.

Lemma updateRequestState_user requestStates s u :
  upd_user u = None →
  rs_user (updateRequestState requestStates s u).1 = rs_user s.
Proof.
  intros Hu. unfold updateRequestState. simpl.
  set (s1 := match upd_system u with Some _ => _ | None => _ end).
  assert (rs_user s1 = rs_user s) as Hs1.
  { subst s1. destruct (upd_system u) as [sys|]; simpl.
    - destruct (negb (bool_decide (Some sys = rs_system s))); simpl;
        [destruct (negb (bool_decide (sys = GitHub))); simpl|];
        by rewrite Hu.
    - by rewrite Hu. }
  by destruct (bool_decide (rs_status _ = DRAFT) && _).
Qed.

#[local] Opaque updateRequestState.

Lemma transition_throws_keeps_stores d accessRequests requestStates state id
    now message stores :
  transitionToAwaitingApproval d accessRequests requestStates state id now
  = (Thrown message, stores) →
  stores = (accessRequests, requestStates).
Proof.
  unfold transitionToAwaitingApproval.
  destruct (negb (bool_decide (rs_status state = IN_PROGRESS)));
    [by intros [= _ <-]|].
  destruct (negb (shouldAutoSubmit state)); [by intros [= _ <-]|].
  destruct (rs_system state) as [system|]; [|by intros [= _ <-]].
  destruct (rs_accessLevel state) as [level|]; [|by intros [= _ <-]].
  destruct (negb (isValid _)); [by intros [= _ <-]|].
  simpl.
  match goal with
  | |- context [if negb ?final then _ else _] => destruct final
  end; simpl;
    match goal with
    | |- context [updateRequestState ?a ?b ?c] =>
      destruct (updateRequestState a b c)
    end; done.
Qed.

Lemma transition_returns d accessRequests requestStates state id now newState
    stores :
  transitionToAwaitingApproval d accessRequests requestStates state id now
  = (Returned newState, stores) →
  ∃ system level request,
    rs_status state = IN_PROGRESS
    ∧ calculateMissingFields state = []
    ∧ rs_system state = Some system
    ∧ rs_accessLevel state = Some level
    ∧ isValid (validateAccessRequest d (rs_user state) (rs_role state) system
                 level (projectIdOf state)) = true
    ∧ stores.1 = Map_set accessRequests id request
    ∧ ar_id request = id
    ∧ ar_userId request = rs_user state
    ∧ ar_requiresApproval request
      = accountOwned state
        || vr_requiresApproval
             (validateAccessRequest d (rs_user state) (rs_role state) system
                level (projectIdOf state))
    ∧ ar_status request
      = (if ar_requiresApproval request then pending else approved)
    ∧ fallbackApproverId request
      = (if ar_requiresApproval request then Some "admin-001" else None)
    ∧ rs_status newState
      = (if ar_requiresApproval request then AWAITING_APPROVAL else APPROVED)
    ∧ stores.2 !! rs_user state = Some newState.
Proof.
  unfold transitionToAwaitingApproval.
  destruct (bool_decide (rs_status state = IN_PROGRESS)) eqn:Hst; [|done].
  apply bool_decide_eq_true in Hst.
  destruct (shouldAutoSubmit state) eqn:Hauto; [|done].
  apply shouldAutoSubmit_missing in Hauto. simpl.
  destruct (rs_system state) as [system|] eqn:Hsys; [|done].
  destruct (rs_accessLevel state) as [level|] eqn:Hlevel; [|done].
  destruct (isValid _) eqn:Hvalid; [|done]. simpl.
  set (owned := bool_decide (is_Some _)).
  assert (owned = accountOwned state) as Howned.
  { subst owned. unfold accountOwned. rewrite Hsys.
    assert (bool_decide (Some system = Some Email) = bool_decide (system = Email))
      as -> by (apply bool_decide_ext; naive_solver).
    assert (bool_decide (Some system = Some Jira) = bool_decide (system = Jira))
      as -> by (apply bool_decide_ext; naive_solver).
    destruct (bool_decide (system = Email) || bool_decide (system = Jira));
      simpl; [|done].
    destruct (rs_targetEmployeeId state) as [target|]; simpl; [|done].
    by destruct (String.eqb target ""). }
  set (final := if owned then true else _).
  assert (final = accountOwned state
                  || vr_requiresApproval
                       (validateAccessRequest d (rs_user state) (rs_role state)
                          system level (projectIdOf state))) as Hfinal.
  { subst final. rewrite Howned. by destruct (accountOwned state). }
  clearbody final owned.
  destruct final eqn:Efinal; simpl;
    destruct (updateRequestState _ _ _) as [updated requestStates'] eqn:Hupd;
    intros [= <- <-]; simpl;
    eexists system, level, _;
    (split_and!; [done|done|done|done|done|reflexivity|..]); simpl;
    try done.
  - change updated with (updated, requestStates').1. rewrite <- Hupd.
    by apply updateRequestState_status.
  - pose proof (updateRequestState_stored requestStates state
                  (statusUpdate AWAITING_APPROVAL)) as Hstored.
    rewrite updateRequestState_user in Hstored by done.
    by rewrite Hupd in Hstored.
  - change updated with (updated, requestStates').1. rewrite <- Hupd.
    by apply updateRequestState_status.
  - match type of Hupd with
    | updateRequestState _ _ ?u = _ =>
      pose proof (updateRequestState_stored requestStates state u) as Hstored;
      rewrite updateRequestState_user in Hstored by done
    end.
    by rewrite Hupd in Hstored.
Qed.

(** C5.  Whenever finalizing returns a state for an Email or Jira request
    that names a target employee, the ledger entry it files requires
    approval and is pending, and the returned state is awaiting approval,
    whatever the rule engine said about approval. *)
Theorem account_owned_requires_approval d accessRequests requestStates state id
    now newState stores :
  transitionToAwaitingApproval d accessRequests requestStates state id now
  = (Returned newState, stores) →
  rs_system state = Some Email ∨ rs_system state = Some Jira →
  truthy (rs_targetEmployeeId state) = true →
  ∃ request,
    stores.1 = Map_set accessRequests id request
    ∧ Map_get stores.1 id = Some request
    ∧ ar_requiresApproval request = true
    ∧ ar_status request = pending
    ∧ fallbackApproverId request = Some "admin-001"
    ∧ rs_status newState = AWAITING_APPROVAL
    ∧ stores.2 !! rs_user state = Some newState.
Proof.
  intros Htrans Hsys Htarget.
  apply transition_returns in Htrans
    as (system & level & request & _ & _ & Hsystem & _ & _ & Hstore & _ & _
        & Hreq & Hstatus & Hfallback & Hnew & Hstored).
  assert (accountOwned state = true) as Howned.
  { unfold accountOwned. rewrite Htarget, andb_true_r.
    destruct Hsys as [-> | ->]; done. }
  rewrite Howned in Hreq. simpl in Hreq.
  rewrite Hreq in Hstatus, Hfallback, Hnew.
  exists request. split_and!; try done.
  rewrite Hstore. apply Map_get_set_eq.
Qed.

(** The sample rules let an Intern have default Email access without
    approval; Alice's request for Bob's mailbox is filed as pending all the
    same. *)
Lemma account_owned_witness :
  vr_requiresApproval
    (validateAccessRequest sampleData "intern-001" Intern Email Default None)
  = false
  ∧ ∃ newState stores request,
      transitionToAwaitingApproval sampleData [] ∅ (aliceMailbox Default)
        "req-1" "2025-01-01T00:00:00.000Z"
      = (Returned newState, stores)
      ∧ Map_get stores.1 "req-1" = Some request
      ∧ ar_requiresApproval request = true
      ∧ ar_status request = pending
      ∧ rs_status newState = AWAITING_APPROVAL.
Proof.
  split; [reflexivity|].
  destruct (transitionToAwaitingApproval sampleData [] ∅ (aliceMailbox Default)
              "req-1" "2025-01-01T00:00:00.000Z")
    as [[newState|message] stores] eqn:E.
  - destruct (account_owned_requires_approval _ _ _ _ _ _ _ _ E)
      as (request & _ & Hget & Hreq & Hstatus & _ & Hnew & _);
      [left; reflexivity|reflexivity|].
    exists newState, stores, request. done.
  - vm_compute in E. discriminate E.
Defined.

(** ** The request state machine: a policy denial is not a rejection *)

Lemma intern_admin_invalid d userId system projectId :
  isValid (validateAccessRequest d userId Intern system Admin projectId)
  = false.
Proof.
  assert (isValid (validateRoleAndLevel d Intern system Admin) = false) as H.
  { unfold validateRoleAndLevel.
    destruct (accessRules d Intern) as [roleRules|]; [|done].
    destruct (rr_system roleRules system); done. }
  unfold validateAccessRequest. destruct projectId as [pid|]; [|done].
  destruct (truthy (Some pid) && _); done.
Qed.

Lemma transition_rejected d accessRequests requestStates state id now :
  (∀ system level,
     rs_system state = Some system → rs_accessLevel state = Some level →
     isValid (validateAccessRequest d (rs_user state) (rs_role state) system
                level (projectIdOf state)) = false) →
  ∃ message,
    transitionToAwaitingApproval d accessRequests requestStates state id now
    = (Thrown message, (accessRequests, requestStates)).
Proof.
  intros Hinvalid. unfold transitionToAwaitingApproval.
  destruct (negb (bool_decide (rs_status state = IN_PROGRESS))); [eauto|].
  destruct (negb (shouldAutoSubmit state)); [eauto|].
  destruct (rs_system state) as [system|]; [|eauto].
  destruct (rs_accessLevel state) as [level|]; [|eauto].
  rewrite Hinvalid by done. simpl. eauto.
Qed.

Lemma transition_status d accessRequests requestStates state id now newState
    stores :
  transitionToAwaitingApproval d accessRequests requestStates state id now
  = (Returned newState, stores) →
  rs_status newState = AWAITING_APPROVAL ∨ rs_status newState = APPROVED.
Proof.
  intros H. apply transition_returns in H
    as (_ & _ & request & _ & _ & _ & _ & _ & _ & _ & _ & _ & _ & _ & H & _).
  destruct (ar_requiresApproval request); eauto.
Qed.

Lemma processStateUpdate_cases d accessRequests requestStates state updates id
    now :
  let updated := updateRequestState requestStates state updates in
  processStateUpdate d accessRequests requestStates state updates id now
  = (updated.1, (accessRequests, updated.2))
  ∨ ∃ newState stores,
      rs_status updated.1 = IN_PROGRESS
      ∧ transitionToAwaitingApproval d accessRequests updated.2 updated.1 id now
        = (Returned newState, stores)
      ∧ processStateUpdate d accessRequests requestStates state updates id now
        = (newState, stores).
Proof.
  unfold processStateUpdate. simpl.
  destruct (updateRequestState requestStates state updates)
    as [updated requestStates'] eqn:Hupd. simpl.
  destruct (bool_decide (rs_status updated = IN_PROGRESS)) eqn:Hst;
    [|by left].
  apply bool_decide_eq_true in Hst.
  destruct (shouldAutoSubmit updated); simpl; [|by left].
  destruct (transitionToAwaitingApproval _ _ _ _ _ _)
    as [[newState|message] stores] eqn:Htrans.
  - right. eauto.
  - left. by apply transition_throws_keeps_stores in Htrans as ->.
Qed.

(** C6.  When the updated state is IN_PROGRESS with nothing missing and the
    rule engine answers invalid, finalizing throws without touching a store,
    [processStateUpdate] returns the updated state as it is, still
    IN_PROGRESS, and files nothing in the ledger.  A REJECTED status in the
    result of [processStateUpdate] can only have been there before
    finalizing was tried.  The rule engine answers invalid for every admin
    request of an Intern, so for such a state finalizing always throws and
    [processStateUpdate] never goes beyond the plain update. *)
Theorem policy_denial_keeps_in_progress d accessRequests requestStates state
    updates id now :
  let updated := updateRequestState requestStates state updates in
  let result :=
    processStateUpdate d accessRequests requestStates state updates id now in
  (rs_status updated.1 = IN_PROGRESS →
   missingFields updated.1 = [] →
   (∀ system level,
      rs_system updated.1 = Some system →
      rs_accessLevel updated.1 = Some level →
      isValid (validateAccessRequest d (rs_user updated.1) (rs_role updated.1)
                 system level (projectIdOf updated.1)) = false) →
   (∃ message,
      transitionToAwaitingApproval d accessRequests updated.2 updated.1 id now
      = (Thrown message, (accessRequests, updated.2)))
   ∧ result = (updated.1, (accessRequests, updated.2))
   ∧ rs_status result.1 = IN_PROGRESS)
  ∧ (rs_status result.1 = REJECTED → rs_status updated.1 = REJECTED)
  ∧ (rs_role updated.1 = Intern →
     rs_accessLevel updated.1 = Some Admin →
     (∀ userId system projectId,
        isValid (validateAccessRequest d userId Intern system Admin projectId)
        = false)
     ∧ (∃ message,
          transitionToAwaitingApproval d accessRequests updated.2 updated.1 id
            now
          = (Thrown message, (accessRequests, updated.2)))
     ∧ result = (updated.1, (accessRequests, updated.2))).
Proof.
  intros updated result.
  assert (∀ message,
            transitionToAwaitingApproval d accessRequests updated.2 updated.1
              id now
            = (Thrown message, (accessRequests, updated.2)) →
            result = (updated.1, (accessRequests, updated.2))) as Hthrown.
  { intros message Hthrow.
    destruct (processStateUpdate_cases d accessRequests requestStates state
                updates id now) as [H|(newState & stores & _ & Htrans & _)];
      [done|].
    fold updated in Htrans. congruence. }
  split_and!.
  - intros Hst Hmissing Hinvalid.
    destruct (transition_rejected d accessRequests updated.2 updated.1 id now
                Hinvalid) as [message Hthrow].
    split_and!; [eauto|eauto|]. by rewrite (Hthrown _ Hthrow).
  - destruct (processStateUpdate_cases d accessRequests requestStates state
                updates id now) as [H|(newState & stores & _ & Htrans & H)];
      fold result in H; rewrite H; simpl; [done|].
    apply transition_status in Htrans as [Hs|Hs]; rewrite Hs; done.
  - intros Hrole Hlevel.
    assert (∃ message,
              transitionToAwaitingApproval d accessRequests updated.2
                updated.1 id now
              = (Thrown message, (accessRequests, updated.2)))
      as [message Hthrow].
    { apply transition_rejected. intros system level _ Hl.
      rewrite Hrole. rewrite Hlevel in Hl. injection Hl as <-.
      apply intern_admin_invalid. }
    split_and!; [intros; apply intern_admin_invalid|eauto|eauto].
Qed.

(** Alice asks for admin access to Bob's mailbox: every field is there, the
    rule engine says no, and she stays IN_PROGRESS with an empty ledger. *)
Lemma policy_denial_witness :
  let result :=
    processStateUpdate sampleData [] ∅ (aliceMailbox Default)
      (levelUpdate Admin) "req-1" "2025-01-01T00:00:00.000Z" in
  rs_status result.1 = IN_PROGRESS
  ∧ rs_accessLevel result.1 = Some Admin
  ∧ missingFields result.1 = []
  ∧ result.2.1 = [].
Proof.
  destruct (policy_denial_keeps_in_progress sampleData [] ∅
              (aliceMailbox Default) (levelUpdate Admin) "req-1"
              "2025-01-01T00:00:00.000Z") as [H _].
  destruct H as (_ & Hresult & Hstatus).
  - reflexivity.
  - reflexivity.
  - intros system level Hs Hl. vm_compute in Hs, Hl.
    injection Hs as <-. injection Hl as <-. reflexivity.
  - simpl. rewrite Hresult. split_and!; reflexivity.
Defined.

#[local] Transparent updateRequestState.

(** ** Approval events: who is told what *)

Lemma append_assoc (a b c : string) : (a +:+ b) +:+ c = a +:+ b +:+ c.
Proof.
  induction a as [|x a IH]; [reflexivity|].
  change (String x ((a +:+ b) +:+ c) = String x (a +:+ b +:+ c)).
  by rewrite IH.
Qed.

Lemma approval_link_last d request approverId approverRole accessLink
    approvedAt :
  ∃ opening,
    internMessage
      (emitApprovalEvent d request approverId approverRole accessLink
         approvedAt)
    = opening +:+ "Access link: " +:+ accessLink.
Proof.
  unfold emitApprovalEvent. cbn [internMessage].
  destruct (isEmployeeOwned request).
  - exists (yourRequestPhrase request +:+ " to "
            +:+ targetEmployeeName (targetEmployeeOf d request)
            +:+ "'s account has been approved. ").
    rewrite !append_assoc. reflexivity.
  - exists (yourRequestPhrase request +:+ toProject request
            +:+ " has been approved. ").
    rewrite !append_assoc. reflexivity.
Qed.

Lemma approval_override d request approverId approverRole accessLink
    approvedAt :
  let event :=
    emitApprovalEvent d request approverId approverRole accessLink approvedAt in
  (is_Some (originalResourceOwnerMessage event)
   ↔ approverRole = ITAdministrator
     ∧ truthy (assignedApproverId request) = true
     ∧ assignedApproverId request ≠ Some approverId)
  ∧ (is_Some (originalResourceOwnerMessage event)
     → originalResourceOwnerId event = assignedApproverId request)
  ∧ (originalResourceOwnerMessage event = None
     → originalResourceOwnerId event = None).
Proof.
  unfold emitApprovalEvent. simpl.
  destruct (bool_decide (approverRole = ITAdministrator)) eqn:Hrole;
    [apply bool_decide_eq_true in Hrole|apply bool_decide_eq_false in Hrole];
    simpl.
  2: { split_and!; [|done|done]. split; [by intros [? ?]|tauto]. }
  destruct (truthy (assignedApproverId request)) eqn:Hassigned; simpl.
  2: { split_and!; [|done|done]. split; [by intros [? ?]|].
       by intros (_ & ? & _). }
  destruct (bool_decide (assignedApproverId request = Some approverId))
    eqn:Hsame;
    [apply bool_decide_eq_true in Hsame|apply bool_decide_eq_false in Hsame];
    simpl.
  { split_and!; [|done|done]. split; [by intros [? ?]|tauto]. }
  split_and!; [|done|].
  - split; [done|]. intros _.
    destruct (truthy (ar_project request)); [eauto|].
    destruct (targetEmployeeOf d request); eauto.
  - destruct (truthy (ar_project request)); [done|].
    destruct (targetEmployeeOf d request); done.
Qed.

(** C8, as amended.  Every event names the actor and the requester and
    carries a message for each; the requester's message on approval ends with
    the access link.  An approval event carries a message for the original
    approver exactly when the actor's role is IT Administrator and the
    assigned approver is present and is not the actor, and then names that
    approver as its recipient.  A rejection event never carries one. *)
Theorem notification_recipients d request approverId approverRole accessLink
    reason timestamp :
  let approvalEvent :=
    emitApprovalEvent d request approverId approverRole accessLink timestamp in
  let rejectionEvent :=
    emitRejectionEvent d request approverId approverRole reason timestamp in
  (ev_managerId approvalEvent = approverId
   ∧ ev_internId approvalEvent = ar_userId request
   ∧ managerMessage approvalEvent ≠ ""
   ∧ internMessage approvalEvent ≠ ""
   ∧ ev_accessLink approvalEvent = Some accessLink
   ∧ ∃ opening,
       internMessage approvalEvent
       = opening +:+ "Access link: " +:+ accessLink)
  ∧ ((is_Some (originalResourceOwnerMessage approvalEvent)
      ↔ approverRole = ITAdministrator
        ∧ truthy (assignedApproverId request) = true
        ∧ assignedApproverId request ≠ Some approverId)
     ∧ (is_Some (originalResourceOwnerMessage approvalEvent)
        → originalResourceOwnerId approvalEvent = assignedApproverId request)
     ∧ (originalResourceOwnerMessage approvalEvent = None
        → originalResourceOwnerId approvalEvent = None))
  ∧ (ev_managerId rejectionEvent = approverId
     ∧ ev_internId rejectionEvent = ar_userId request
     ∧ managerMessage rejectionEvent ≠ ""
     ∧ internMessage rejectionEvent ≠ ""
     ∧ ev_rejectionReason rejectionEvent = Some reason
     ∧ originalResourceOwnerId rejectionEvent = None
     ∧ originalResourceOwnerMessage rejectionEvent = None
     ∧ projectOwnerMessage rejectionEvent = None).
Proof.
  intros approvalEvent rejectionEvent. split_and!; try done.
  - unfold approvalEvent, emitApprovalEvent. simpl.
    by destruct (isEmployeeOwned request).
  - unfold approvalEvent, emitApprovalEvent. simpl.
    by destruct (isEmployeeOwned request).
  - apply approval_link_last.
  - apply approval_override.
  - apply approval_override.
  - apply approval_override.
  - unfold rejectionEvent, emitRejectionEvent. simpl.
    by destruct (isEmployeeOwned request).
  - unfold rejectionEvent, emitRejectionEvent. simpl.
    by destruct (isEmployeeOwned request).
Qed.

(** The IT Administrator approves, then (on a second ledger) rejects, a
    request assigned to Bob: only the approval tells Bob. *)
Lemma notification_recipients_witness :
  originalResourceOwnerId
    (emitApprovalEvent sampleData (mailboxRequest pending true) "admin-001"
       ITAdministrator "mailto:manager-001@company.com"
       "2025-01-01T00:00:00.000Z")
  = Some "manager-001".
Proof.
  destruct (notification_recipients sampleData (mailboxRequest pending true)
              "admin-001" ITAdministrator "mailto:manager-001@company.com"
              "" "2025-01-01T00:00:00.000Z") as (_ & (Hiff & Hid & _) & _).
  rewrite Hid; [reflexivity|].
  apply Hiff. split_and!; [reflexivity|reflexivity|discriminate].
Defined.

(** The IT Administrator rejects a pending request assigned to Bob: the
    decision goes through and its event has no message for Bob, although the
    same actor approving the same request produces one. *)
Lemma rejection_override_not_notified :
  let ledger := [("req-1", mailboxRequest pending true)] in
  ∃ request event ledger',
    rejectRequest sampleData ledger "req-1" ITAdministrator "Not needed"
      (Some "admin-001") "2025-01-01T00:00:00.000Z"
    = (Returned (Some (request, event)), ledger')
    ∧ ev_approverRole event = ITAdministrator
    ∧ truthy (assignedApproverId request) = true
    ∧ assignedApproverId request ≠ Some (ev_managerId event)
    ∧ originalResourceOwnerId event = None
    ∧ originalResourceOwnerMessage event = None.
Proof.
  simpl. do 3 eexists. split; [reflexivity|].
  split_and!; try reflexivity. discriminate.
Qed.

(** ** Write-back of ledger decisions into the conversation state *)

(** C10.  Without a stored state for the user both write-back operations
    return null and leave the store as it is; with a stored state whose
    status is not AWAITING_APPROVAL both return that state and leave the
    store, and so every field of the state, as it is. *)
Theorem stray_decision_changes_nothing (requestStates : StateStore) userId
    accessLink reason approverId approverRole timestamp :
  (requestStates !! userId = None →
   updateRequestStateFromApproval requestStates userId accessLink approverId
     approverRole timestamp
   = (None, requestStates)
   ∧ updateRequestStateFromRejection requestStates userId reason approverId
       approverRole timestamp
     = (None, requestStates))
  ∧ (∀ state,
       requestStates !! userId = Some state →
       rs_status state ≠ AWAITING_APPROVAL →
       updateRequestStateFromApproval requestStates userId accessLink
         approverId approverRole timestamp
       = (Some state, requestStates)
       ∧ updateRequestStateFromRejection requestStates userId reason
           approverId approverRole timestamp
         = (Some state, requestStates)).
Proof.
  unfold updateRequestStateFromApproval, updateRequestStateFromRejection.
  split.
  - by intros ->.
  - intros state -> Hst. by rewrite bool_decide_eq_false_2.
Qed.

(** A decision arriving while Alice is still IN_PROGRESS changes nothing. *)
Lemma stray_decision_witness :
  let requestStates : StateStore :=
    {["intern-001" := aliceMailbox Default]} in
  updateRequestStateFromApproval requestStates "intern-001"
    "mailto:manager-001@company.com" (Some "manager-001") (Some Manager)
    (Some "2025-01-01T00:00:00.000Z")
  = (Some (aliceMailbox Default), requestStates)
  ∧ updateRequestStateFromRejection requestStates "intern-001" "Not needed"
      (Some "manager-001") (Some Manager) (Some "2025-01-01T00:00:00.000Z")
    = (Some (aliceMailbox Default), requestStates).
Proof.
  intros requestStates.
  apply (stray_decision_changes_nothing requestStates "intern-001"
           "mailto:manager-001@company.com" "Not needed" (Some "manager-001")
           (Some Manager) (Some "2025-01-01T00:00:00.000Z")).
  - reflexivity.
  - discriminate.
Defined.

(** ** The escalation tracker *)

Lemma random_index (random : Q) :
  (0 <= random)%Q → (random < 1)%Q →
  (0 ≤ Qfloor (random * inject_Z 4) < 4)%Z.
Proof.
  intros Hge Hlt. split.
  - change 0%Z with (Qfloor (inject_Z 0)). apply Qfloor_resp_le.
    change (inject_Z 0) with (0 * inject_Z 4)%Q.
    by apply Qmult_le_compat_r.
  - rewrite Zlt_Qlt.
    apply Qle_lt_trans with (random * inject_Z 4)%Q; [apply Qfloor_le|].
    change (inject_Z 4) with (1 * inject_Z 4)%Q at 2.
    by apply Qmult_lt_compat_r.
Qed.

Lemma justification_bounded (is_approved : bool) (index : Z) :
  (0 ≤ index < 4)%Z →
  ∃ text,
    (if is_approved then justifications_approved else justifications_rejected)
      !! Z.to_nat index = Some text
    ∧ (String.length text ≤ 120)%nat.
Proof.
  intros Hindex.
  assert (index = 0 ∨ index = 1 ∨ index = 2 ∨ index = 3)%Z
    as [-> | [-> | [-> | ->]]] by lia;
    destruct is_approved; eexists; (split; [reflexivity|]);
    apply Nat.leb_le; reflexivity.
Qed.

(** C9, as amended.  The manual operation, given a justification of at most
    120 characters, stores the decision and the justification on the
    escalation whatever its status was, so also on one that is already
    resolved; a longer justification makes it throw, and an unknown id makes
    it return null, leaving the store as it is in both cases.  The timer's
    call does nothing unless the manager it names is the escalation target,
    and otherwise it too stores a decision whatever the status was, with one
    of eight fixed justifications, each of at most 120 characters. *)
Theorem escalation_resolution (escalationRequests : EscalationStore) requestId
    is_approved text managerId random1 random2 now :
  (∀ request,
     escalationRequests !! requestId = Some request →
     (String.length text ≤ 120)%nat →
     processManagerDecisionManually escalationRequests requestId is_approved
       text now
     = (Returned (Some (resolve request is_approved (Some text) now)),
        <[requestId := resolve request is_approved (Some text) now]>
          escalationRequests)
     ∧ er_status (resolve request is_approved (Some text) now)
       = (if is_approved then approved else rejected)
     ∧ justification (resolve request is_approved (Some text) now)
       = Some text)
  ∧ (∀ request,
       escalationRequests !! requestId = Some request →
       (120 < String.length text)%nat →
       ∃ message,
         processManagerDecisionManually escalationRequests requestId
           is_approved text now
         = (Thrown message, escalationRequests))
  ∧ (escalationRequests !! requestId = None →
     processManagerDecisionManually escalationRequests requestId is_approved
       text now
     = (Returned None, escalationRequests)
     ∧ processManagerDecision escalationRequests requestId managerId random1
         random2 now
       = (None, escalationRequests))
  ∧ (∀ request,
       escalationRequests !! requestId = Some request →
       er_escalationTo request ≠ managerId →
       processManagerDecision escalationRequests requestId managerId random1
         random2 now
       = (None, escalationRequests))
  ∧ (∀ request,
       escalationRequests !! requestId = Some request →
       er_escalationTo request = managerId →
       (0 <= random2)%Q → (random2 < 1)%Q →
       ∃ chosen,
         processManagerDecision escalationRequests requestId managerId random1
           random2 now
         = (Some (resolve request (negb (Qle_bool random1 (3 # 10)))
                    (Some chosen) now),
            <[requestId := resolve request (negb (Qle_bool random1 (3 # 10)))
                             (Some chosen) now]> escalationRequests)
         ∧ (String.length chosen ≤ 120)%nat).
Proof.
  split_and!.
  - intros request Hget Hlen. unfold processManagerDecisionManually.
    rewrite Hget.
    assert (Nat.ltb 120 (String.length text) = false) as ->
      by (apply Nat.ltb_ge; lia).
    done.
  - intros request Hget Hlen. unfold processManagerDecisionManually.
    rewrite Hget.
    assert (Nat.ltb 120 (String.length text) = true) as ->
      by (apply Nat.ltb_lt; lia).
    eauto.
  - intros Hget.
    unfold processManagerDecisionManually, processManagerDecision.
    by rewrite Hget.
  - intros request Hget Hto. unfold processManagerDecision. rewrite Hget.
    apply String.eqb_neq in Hto. by rewrite Hto.
  - intros request Hget Hto Hge Hlt. unfold processManagerDecision.
    rewrite Hget. apply String.eqb_eq in Hto. rewrite Hto.
    change (negb true) with false. cbv beta iota zeta.
    set (is_approved' := negb (Qle_bool random1 (3 # 10))).
    assert (length (if is_approved' then justifications_approved
                    else justifications_rejected) = 4%nat) as ->
      by by destruct is_approved'.
    pose proof (random_index random2 Hge Hlt) as Hindex.
    change (inject_Z (Z.of_nat 4)) with (inject_Z 4).
    destruct (justification_bounded is_approved' _ Hindex)
      as (chosen & Hchosen & Hlen).
    exists chosen. split; [|done].
    assert ((Qfloor (random2 * inject_Z 4) <? 0)%Z = false) as ->
      by (apply Z.ltb_ge; lia).
    by rewrite Hchosen.
Qed.

(** Bob approves an escalation by hand; a second manual decision on it goes
    through and replaces the first. *)
Lemma escalation_resolution_witness :
  let store : EscalationStore := {["escalation-1" := pendingEscalation]} in
  let decided :=
    resolve pendingEscalation true (Some "Needed for the sprint.")
      "2025-01-01T00:00:01.000Z" in
  processManagerDecisionManually
    (<["escalation-1" := decided]> store) "escalation-1" false
    "No longer needed." "2025-01-01T00:00:02.000Z"
  = (Returned (Some (resolve decided false (Some "No longer needed.")
                       "2025-01-01T00:00:02.000Z")),
     <["escalation-1" := resolve decided false (Some "No longer needed.")
                           "2025-01-01T00:00:02.000Z"]>
       (<["escalation-1" := decided]> store)).
Proof.
  intros store decided.
  destruct (escalation_resolution (<["escalation-1" := decided]> store)
              "escalation-1" false "No longer needed." "manager-001" 0 0
              "2025-01-01T00:00:02.000Z") as [H _].
  apply (H decided).
  - reflexivity.
  - apply Nat.leb_le. reflexivity.
Defined.

(** Deciding an escalation twice: the second manual decision is accepted and
    overwrites status and justification of the first, and so does the timer
    when it fires after a manual decision. *)
Lemma escalation_resolved_twice :
  let store0 : EscalationStore := {["escalation-1" := pendingEscalation]} in
  ∃ first store1 second store2 third store3,
    processManagerDecisionManually store0 "escalation-1" true
      "Needed for the sprint." "2025-01-01T00:00:01.000Z"
    = (Returned (Some first), store1)
    ∧ er_status first = approved
    ∧ processManagerDecisionManually store1 "escalation-1" false
        "No longer needed." "2025-01-01T00:00:02.000Z"
      = (Returned (Some second), store2)
    ∧ er_status <$> store2 !! "escalation-1" = Some rejected
    ∧ justification <$> store2 !! "escalation-1"
      = Some (Some "No longer needed.")
    ∧ processManagerDecision store1 "escalation-1" "manager-001" (1 # 10)
        (1 # 2) "2025-01-01T00:00:02.000Z"
      = (Some third, store3)
    ∧ er_status <$> store3 !! "escalation-1" = Some rejected
    ∧ justification <$> store3 !! "escalation-1"
      = Some (Some "Request does not align with project needs.").
Proof.
  simpl. do 6 eexists.
  split; [reflexivity|]. split; [reflexivity|].
  split; [reflexivity|]. split; [reflexivity|].
  split; [reflexivity|]. split; [reflexivity|].
  split; reflexivity.
Qed.

(** * Further properties of the services *)

(** ** The rule engine: shape of the answers *)

Lemma validateRoleAndLevel_cases d userRole system level :
  (∃ reason, validateRoleAndLevel d userRole system level = invalid reason)
  ∨ (∃ requiresApproval allowed downgrade,
       validateRoleAndLevel d userRole system level
       = valid requiresApproval allowed downgrade).
Proof.
  unfold validateRoleAndLevel.
  destruct (accessRules d userRole) as [roleRules|]; [|eauto].
  destruct (rr_system roleRules system) as [systemRules|]; [|eauto].
  destruct (bool_decide (level = Admin)).
  - destruct (bool_decide (userRole = ITAdministrator)); [eauto 6|].
    destruct (bool_decide (userRole = Manager) && bool_decide (system = Jira));
      [eauto 6|].
    destruct (bool_decide (userRole = Developer) && _); eauto 6.
  - destruct (negb (accessLevelMap level systemRules)); [|eauto 6].
    destruct (findDowngradedAccessLevel systemRules level system userRole);
      eauto 6.
Qed.

Lemma validateAccessRequest_cases d userId userRole system level projectId :
  (∃ target,
     truthy projectId = true
     ∧ validateAccessRequest d userId userRole system level projectId
       = escalate target)
  ∨ validateAccessRequest d userId userRole system level projectId
    = validateRoleAndLevel d userRole system level.
Proof.
  unfold validateAccessRequest. destruct projectId as [pid|]; [|by right].
  destruct (truthy (Some pid)) eqn:Hpid; simpl; [|by right].
  destruct (negb (isAssigned (validateProjectAccess d userId pid)));
    [left; eauto | by right].
Qed.

(** X1.  Every answer of the rule engine has one of three shapes.  A valid
    answer names an allowed level and carries neither a rejection reason nor
    an escalation.  An invalid answer never requires approval, always
    carries a rejection reason and names no level and no downgrade.  An
    escalation is only ever asked for on an invalid answer to a request that
    came with a project id, and a downgrade reason only ever comes with a
    valid answer. *)
Theorem validation_answer_shape d userId userRole system level projectId :
  let answer :=
    validateAccessRequest d userId userRole system level projectId in
  (isValid answer = true →
   is_Some (allowedAccessLevel answer)
   ∧ vr_rejectionReason answer = None
   ∧ vr_requiresEscalation answer = None
   ∧ vr_escalationTo answer = None)
  ∧ (isValid answer = false →
     vr_requiresApproval answer = false
     ∧ is_Some (vr_rejectionReason answer)
     ∧ allowedAccessLevel answer = None
     ∧ downgradeReason answer = None)
  ∧ (vr_requiresEscalation answer = Some true →
     isValid answer = false ∧ truthy projectId = true)
  ∧ (is_Some (downgradeReason answer) → isValid answer = true).
Proof.
  intros answer. subst answer.
  destruct (validateAccessRequest_cases d userId userRole system level
              projectId) as [(target & Hpid & ->) | ->].
  - split_and!; simpl; try done; try (intros [? ?]; done); eauto.
  - destruct (validateRoleAndLevel_cases d userRole system level)
      as [(reason & ->) | (requiresApproval & allowed & downgrade & ->)];
      split_and!; simpl; try done; eauto; try (intros [? ?]; done).
Qed.

(** ** The rule engine: admin requests *)

(** X2.  A valid answer to an admin request always allows admin itself,
    without a downgrade.  The requester's role is then IT Administrator, or
    Manager asking for Jira, or Developer under a rule table whose
    adminAccess entry requires approval; the answer requires approval
    exactly in the Developer case. *)
Theorem admin_is_granted_as_admin d userId userRole system projectId :
  isValid (validateAccessRequest d userId userRole system Admin projectId)
  = true →
  let answer :=
    validateAccessRequest d userId userRole system Admin projectId in
  allowedAccessLevel answer = Some Admin
  ∧ downgradeReason answer = None
  ∧ (userRole = ITAdministrator
     ∨ (userRole = Manager ∧ system = Jira)
     ∨ (userRole = Developer
        ∧ ∃ roleRules,
            accessRules d Developer = Some roleRules
            ∧ aa_requiresApproval <$> adminAccess roleRules = Some true))
  ∧ (vr_requiresApproval answer = true ↔ userRole = Developer).
Proof.
  intros Hvalid answer. subst answer. revert Hvalid.
  destruct (validateAccessRequest_cases d userId userRole system Admin
              projectId) as [(target & _ & ->) | ->]; [done|].
  unfold validateRoleAndLevel.
  destruct (accessRules d userRole) as [roleRules|] eqn:Hrules; [|done].
  destruct (rr_system roleRules system) as [systemRules|]; [|done].
  rewrite (bool_decide_eq_true_2 (Admin = Admin)) by done.
  destruct (bool_decide (userRole = ITAdministrator)) eqn:Hadmin.
  { apply bool_decide_eq_true in Hadmin as ->. simpl. intros _.
    split_and!; try done; try (split; done); by left. }
  destruct (bool_decide (userRole = Manager) && bool_decide (system = Jira))
    eqn:Hmanager.
  { apply andb_true_iff in Hmanager as [Hm Hj].
    apply bool_decide_eq_true in Hm as ->.
    apply bool_decide_eq_true in Hj as ->. simpl. intros _.
    split_and!; try done; try (split; done); right; by left. }
  destruct (bool_decide (userRole = Developer) && _) eqn:Hdeveloper; [|done].
  apply andb_true_iff in Hdeveloper as [Hd Hflag].
  apply bool_decide_eq_true in Hd as ->.
  apply bool_decide_eq_true in Hflag. simpl. intros _.
  split_and!; try done. right; right. eauto.
Qed.

(** Bob, a Manager, asks for admin access to Jira. *)
Lemma admin_is_granted_as_admin_witness :
  allowedAccessLevel
    (validateAccessRequest sampleData "manager-001" Manager Jira Admin None)
  = Some Admin.
Proof.
  apply (admin_is_granted_as_admin sampleData "manager-001" Manager Jira None).
  reflexivity.
Defined.

(** ** The rule engine: the downgrades that happen *)

(** X3.  The level a valid answer allows differs from the level asked for
    in two ways only.  With a downgrade reason: the requested level failed
    its own check, the allowed level passes its own check, and the step
    taken is one of two, an Intern's read-only or read-write request for
    Email answered with default, or a create-edit request answered with
    view; no downgrade with a reason turns read-write into read-only or
    create-edit into comment.  Without a downgrade reason: the request is
    not for admin, the requested level passed its own check, and the rule
    entry carries an accessLevel of its own, which is allowed in place of
    the requested level whatever the two levels are. *)
Theorem downgrades_made d userId userRole system level projectId allowed :
  let answer :=
    validateAccessRequest d userId userRole system level projectId in
  allowedAccessLevel answer = Some allowed →
  allowed ≠ level →
  ∃ roleRules systemRules,
    accessRules d userRole = Some roleRules
    ∧ rr_system roleRules system = Some systemRules
    ∧ isValid answer = true
    ∧ level ≠ Admin
    ∧ ((is_Some (downgradeReason answer)
        ∧ accessLevelMap level systemRules = false
        ∧ accessLevelMap allowed systemRules = true
        ∧ findDowngradedAccessLevel systemRules level system userRole
          = Some allowed
        ∧ ((system = Email ∧ userRole = Intern ∧ allowed = Default
            ∧ (level = ReadOnly ∨ level = ReadWrite))
           ∨ (level = CreateEdit ∧ allowed = View)))
       ∨ (downgradeReason answer = None
          ∧ accessLevelMap level systemRules = true
          ∧ sr_accessLevel systemRules = Some allowed)).
Proof.
  intros answer. subst answer.
  destruct (validateAccessRequest_cases d userId userRole system level
              projectId) as [(target & _ & ->) | ->]; [done|].
  unfold validateRoleAndLevel.
  destruct (accessRules d userRole) as [roleRules|] eqn:Hrules; [|done].
  destruct (rr_system roleRules system) as [systemRules|] eqn:Hsys; [|done].
  destruct (bool_decide (level = Admin)) eqn:Hadmin.
  { apply bool_decide_eq_true in Hadmin as ->.
    destruct (bool_decide (userRole = ITAdministrator));
      [by intros [= <-]|].
    destruct (bool_decide (userRole = Manager) && bool_decide (system = Jira));
      [by intros [= <-]|].
    destruct (bool_decide (userRole = Developer) && _);
      [by intros [= <-] | done]. }
  apply bool_decide_eq_false in Hadmin.
  destruct (accessLevelMap level systemRules) eqn:Hmap; simpl.
  - intros [= Hallowed] Hne. exists roleRules, systemRules.
    split_and!; try done. right. split_and!; try done.
    destruct (sr_accessLevel systemRules) as [own|]; simpl in Hallowed;
      congruence.
  - destruct (findDowngradedAccessLevel systemRules level system userRole)
      as [lower|] eqn:Hdown; simpl; [|done].
    intros [= ->] Hne. exists roleRules, systemRules.
    split_and!; try done. left.
    split_and!; try done; [eauto|..];
      revert Hmap Hdown; unfold findDowngradedAccessLevel, accessLevelMap;
      destruct level, system, userRole; simpl; try done;
      repeat match goal with
             | |- context [is_true_flag ?x] =>
               destruct (is_true_flag x) eqn:?; simpl
             end;
      try done; intros _ [= <-]; simpl; try done; auto 6.
Qed.

(** An Intern may view Jira tickets but not comment on or edit them; a
    create-edit request is answered with view, with a reason. *)
Lemma downgrades_made_witness :
  ∃ roleRules systemRules,
    accessRules sampleData Intern = Some roleRules
    ∧ rr_system roleRules Jira = Some systemRules
    ∧ allowedAccessLevel
        (validateAccessRequest sampleData "intern-001" Intern Jira CreateEdit
           None)
      = Some View
    ∧ accessLevelMap CreateEdit systemRules = false.
Proof.
  destruct (downgrades_made sampleData "intern-001" Intern Jira CreateEdit None
              View)
    as (roleRules & systemRules & Hr & Hs & _ & _
        & [(_ & Hmap & _) | (Hno & _)]);
    [reflexivity|discriminate| |vm_compute in Hno; discriminate Hno].
  exists roleRules, systemRules. split_and!; try done.
Defined.

(** The rule entry's own accessLevel replaces a level that passed its check,
    without a reason: under an entry with readOnly set and accessLevel
    read-only, a read-write request is answered with read-only. *)
Example level_replaced_without_reason :
  let rules (role : UserRole) :=
    Some {| rr_system := fun _ =>
              Some {| sr_default := Some true; readOnly := Some true;
                      readWrite := None; sr_admin := None; sr_view := None;
                      sr_comment := None; createEdit := None;
                      specificRepo := None; sr_requiresApproval := false;
                      sr_accessLevel := Some ReadOnly |};
            adminAccess := None; canApprove := None;
            finalApprovalAuthority := None |} in
  let answer :=
    validateAccessRequest (withRules sampleData rules) "intern-001" Developer
      GitHub ReadWrite None in
  isValid answer = true
  ∧ allowedAccessLevel answer = Some ReadOnly
  ∧ downgradeReason answer = None.
Proof. cbv zeta. split_and!; reflexivity. Qed.

(** ** The request state machine: what an update does *)

(** The fields [updateRequestState] only copies. *)
Lemma updateRequestState_copied requestStates s u :
  let r := (updateRequestState requestStates s u).1 in
  rs_user r = default (rs_user s) (upd_user u)
  ∧ rs_role r = default (rs_role s) (upd_role u)
  ∧ rs_system r = from_option Some (rs_system s) (upd_system u)
  ∧ rs_targetEmployeeId r
    = from_option Some (rs_targetEmployeeId s) (upd_targetEmployeeId u)
  ∧ rs_accessLink r = from_option Some (rs_accessLink s) (upd_accessLink u)
  ∧ rs_rejectionReason r
    = from_option Some (rs_rejectionReason s) (upd_rejectionReason u)
  ∧ rs_approverId r = from_option Some (rs_approverId s) (upd_approverId u)
  ∧ rs_approverRole r
    = from_option Some (rs_approverRole s) (upd_approverRole u)
  ∧ rs_approvedAt r = from_option Some (rs_approvedAt s) (upd_approvedAt u)
  ∧ rs_rejectedAt r = from_option Some (rs_rejectedAt s) (upd_rejectedAt u).
Proof.
  unfold updateRequestState. simpl.
  destruct (upd_system u) as [sys|] eqn:Hus; simpl.
  - destruct (negb (bool_decide (Some sys = rs_system s))); simpl;
      [destruct (negb (bool_decide (sys = GitHub))); simpl|];
      destruct (bool_decide (_ = DRAFT) && _); repeat split; simpl;
      rewrite ?Hus; reflexivity.
  - destruct (bool_decide (_ = DRAFT) && _); repeat split; simpl;
      rewrite ?Hus; reflexivity.
Qed.

(** The level and the project when the update leaves the system alone. *)
Lemma updateRequestState_same_system requestStates s u :
  upd_system u = None ∨ upd_system u = rs_system s →
  let r := (updateRequestState requestStates s u).1 in
  rs_accessLevel r = from_option Some (rs_accessLevel s) (upd_accessLevel u)
  ∧ rs_project r = from_option Some (rs_project s) (upd_project u).
Proof.
  intros Hsame. unfold updateRequestState. simpl.
  destruct (upd_system u) as [sys|] eqn:Hus; simpl.
  - destruct Hsame as [?|Hsame]; [done|].
    rewrite (bool_decide_eq_true_2 (Some sys = rs_system s)) by done. simpl.
    destruct (bool_decide (_ = DRAFT) && _); split; reflexivity.
  - destruct (bool_decide (_ = DRAFT) && _); split; reflexivity.
Qed.

Lemma updateRequestState_status_eq requestStates s u :
  let r := (updateRequestState requestStates s u).1 in
  let asked := default (rs_status s) (upd_status u) in
  rs_status r
  = if bool_decide (asked = DRAFT) && bool_decide (is_Some (rs_system r))
    then IN_PROGRESS else asked.
Proof.
  unfold updateRequestState. simpl.
  set (s1 := match upd_system u with Some _ => _ | None => _ end).
  assert (rs_status s1 = default (rs_status s) (upd_status u)) as Hs1.
  { subst s1. destruct (upd_system u) as [sys|]; simpl; [|done].
    destruct (negb (bool_decide (Some sys = rs_system s))); simpl;
      [destruct (negb (bool_decide (sys = GitHub))); simpl|]; done. }
  simpl. rewrite Hs1.
  destruct (bool_decide (default (rs_status s) (upd_status u) = DRAFT))
    eqn:Hd; simpl; [|by rewrite Hs1].
  destruct (bool_decide (is_Some (rs_system s1))) eqn:Hsys; simpl.
  - by rewrite Hsys.
  - by rewrite Hsys, Hs1.
Qed.

(** The level and the project when the update names another system. *)
Lemma updateRequestState_other_system requestStates s u system :
  upd_system u = Some system →
  rs_system s ≠ Some system →
  let r := (updateRequestState requestStates s u).1 in
  rs_accessLevel r = None
  ∧ rs_project r
    = if bool_decide (system = GitHub)
      then from_option Some (rs_project s) (upd_project u) else None.
Proof.
  intros Hu Hne. unfold updateRequestState. simpl. rewrite Hu.
  rewrite (bool_decide_eq_false_2 (Some system = rs_system s)) by done.
  simpl.
  destruct (bool_decide (system = GitHub)); simpl;
    destruct (bool_decide (_ = DRAFT) && _); split; reflexivity.
Qed.

(** X4.  An update that names a system other than the current one ends with
    that system chosen and no access level, even when the same update
    carries a level; the project is dropped unless the new system is GitHub,
    in which case it is the updated or previous one.  The target employee is
    not touched by the change.  The access level is then among the missing
    fields and the state is not a draft. *)
Theorem system_change_clears_level requestStates s u system :
  upd_system u = Some system →
  rs_system s ≠ Some system →
  let r := (updateRequestState requestStates s u).1 in
  rs_system r = Some system
  ∧ rs_accessLevel r = None
  ∧ (system ≠ GitHub → rs_project r = None)
  ∧ (system = GitHub
     → rs_project r = from_option Some (rs_project s) (upd_project u))
  ∧ rs_targetEmployeeId r
    = from_option Some (rs_targetEmployeeId s) (upd_targetEmployeeId u)
  ∧ "accessLevel" ∈ missingFields r
  ∧ rs_status r ≠ DRAFT.
Proof.
  intros Hu Hne r.
  destruct (updateRequestState_copied requestStates s u)
    as (_ & _ & Hsys & Htarget & _).
  destruct (updateRequestState_other_system requestStates s u system Hu Hne)
    as (Hlevel & Hproject).
  fold r in Hsys, Htarget, Hlevel, Hproject.
  rewrite Hu in Hsys. simpl in Hsys.
  split_and!; try done.
  - intros Hgit. by rewrite Hproject, bool_decide_eq_false_2.
  - intros Hgit. by rewrite Hproject, bool_decide_eq_true_2.
  - subst r. rewrite updateRequestState_missingFields.
    apply missing_membership. by apply needsAccessLevel_true.
  - pose proof (updateRequestState_status_eq requestStates s u) as Hst.
    cbv zeta in Hst. fold r in Hst. rewrite Hst, Hsys.
    rewrite (bool_decide_eq_true_2 (is_Some (Some system))) by eauto.
    rewrite andb_true_r.
    destruct (bool_decide (_ = DRAFT)) eqn:Hd; [done|].
    by apply bool_decide_eq_false in Hd.
Qed.

(** Alice had picked default access to Bob's mailbox; "read-only on GitHub"
    switches the system and loses the level given with it. *)
Lemma system_change_clears_level_witness :
  rs_accessLevel
    (updateRequestState ∅ (aliceMailbox Default)
       {| upd_user := None; upd_role := None; upd_system := Some GitHub;
          upd_accessLevel := Some ReadOnly; upd_project := None;
          upd_targetEmployeeId := None; upd_status := None;
          upd_agentConfidence := None; upd_missingFields := None;
          upd_accessLink := None; upd_rejectionReason := None;
          upd_approverId := None; upd_approverRole := None;
          upd_approvedAt := None; upd_rejectedAt := None |}).1
  = None.
Proof.
  eapply system_change_clears_level; [reflexivity|discriminate].
Defined.

(** X5.  The status after an update is the status the update asks for, or
    else the previous one, except that a draft with a system chosen becomes
    IN_PROGRESS.  So a state that comes out of an update as a draft has no
    system, and one that has a system is never a draft. *)
Theorem draft_leaves_with_system requestStates s u :
  let r := (updateRequestState requestStates s u).1 in
  let asked := default (rs_status s) (upd_status u) in
  (asked ≠ DRAFT → rs_status r = asked)
  ∧ (asked = DRAFT → rs_system r = None → rs_status r = DRAFT)
  ∧ (asked = DRAFT → is_Some (rs_system r) → rs_status r = IN_PROGRESS)
  ∧ (rs_status r = DRAFT → rs_system r = None ∧ "system" ∈ missingFields r).
Proof.
  intros r asked.
  pose proof (updateRequestState_status_eq requestStates s u) as Hst.
  cbv zeta in Hst. fold r asked in Hst.
  split_and!.
  - intros Hasked. rewrite Hst.
    by rewrite (bool_decide_eq_false_2 (asked = DRAFT)).
  - intros Hasked Hnone. rewrite Hst, Hnone.
    rewrite (bool_decide_eq_false_2 (is_Some None)) by (by intros [? ?]).
    by rewrite andb_false_r.
  - intros Hasked Hsome. rewrite Hst.
    by rewrite !bool_decide_eq_true_2.
  - intros Hdraft. rewrite Hdraft in Hst.
    assert (rs_system r = None) as Hnone.
    { destruct (rs_system r) as [sys|] eqn:Hsys; [|done].
      destruct (bool_decide (asked = DRAFT)) eqn:Hasked; simpl in Hst.
      - first [done | rewrite bool_decide_eq_true_2 in Hst by eauto; done].
      - apply bool_decide_eq_false in Hasked. congruence. }
    split; [done|]. subst r. rewrite updateRequestState_missingFields.
    apply missing_membership. by apply needsSystem_true.
Qed.

(** X6.  The confidence a state leaves an update with is recomputed from
    its role and level, whatever confidence the update carries: LOW exactly
    for an Intern asking for admin, HIGH exactly for a read-only request,
    MEDIUM otherwise. *)
Theorem confidence_is_recomputed requestStates s u :
  let r := (updateRequestState requestStates s u).1 in
  agentConfidence r = calculateConfidence r
  ∧ (agentConfidence r = LOW
     ↔ rs_role r = Intern ∧ rs_accessLevel r = Some Admin)
  ∧ (agentConfidence r = HIGH ↔ rs_accessLevel r = Some ReadOnly)
  ∧ (agentConfidence r = MEDIUM
     ↔ rs_accessLevel r ≠ Some ReadOnly
       ∧ ¬ (rs_role r = Intern ∧ rs_accessLevel r = Some Admin)).
Proof.
  intros r.
  assert (agentConfidence r = calculateConfidence r) as Hc.
  { subst r. unfold updateRequestState. simpl.
    set (s1 := match upd_system u with Some _ => _ | None => _ end).
    destruct (bool_decide (rs_status _ = DRAFT) && _); done. }
  split; [done|]. rewrite Hc. unfold calculateConfidence.
  destruct (rs_accessLevel r) as [[]|], (rs_role r); simpl;
    split_and!; split; try done; try (by intros [? ?]);
    try (by intros [= ?]); try (intros [? H]; exfalso; apply H; done);
    try (intros _; split; [done|by intros [? ?]]).
Qed.

(** ** The request state machine: reset, write-back, readiness *)

(** X7.  Whatever a user's stored state was, a reset stores and returns the
    state a first visit creates: a draft with no selection and no outcome
    field.  Other users' states are untouched, and after a clear the user
    has no state. *)
Theorem reset_gives_fresh_draft (requestStates : StateStore) userId role :
  let result := resetRequestState requestStates userId role in
  result.1 = (initializeRequestState ∅ userId role).1
  ∧ getRequestState result.2 userId = Some result.1
  ∧ (∀ other, other ≠ userId →
       getRequestState result.2 other = getRequestState requestStates other)
  ∧ rs_status result.1 = DRAFT
  ∧ rs_system result.1 = None ∧ rs_accessLevel result.1 = None
  ∧ rs_project result.1 = None ∧ rs_targetEmployeeId result.1 = None
  ∧ rs_accessLink result.1 = None ∧ rs_rejectionReason result.1 = None
  ∧ rs_approverId result.1 = None ∧ rs_approverRole result.1 = None
  ∧ rs_approvedAt result.1 = None ∧ rs_rejectedAt result.1 = None
  ∧ missingFields result.1 = calculateMissingFields result.1
  ∧ agentConfidence result.1 = calculateConfidence result.1
  ∧ getRequestState (clearRequestState result.2 userId) userId = None.
Proof.
  unfold resetRequestState, initializeRequestState, getRequestState,
    clearRequestState. simpl.
  split_and!; try done.
  - apply lookup_insert_eq.
  - intros other Hne. by apply lookup_insert_ne.
  - apply lookup_delete_eq.
Qed.

(** X8.  On a state that is AWAITING_APPROVAL the approval write-back stores
    an APPROVED state with the access link and without rejection reason or
    rejection time, and the rejection write-back stores a REJECTED state
    with the reason and without access link or approval time; neither
    changes the user, the role or a selection.  After either one, every
    further write-back for that user returns the stored state and changes
    nothing. *)
Theorem write_back_once (requestStates : StateStore) userId state accessLink
    reason approverId approverRole timestamp :
  requestStates !! userId = Some state →
  rs_status state = AWAITING_APPROVAL →
  let same (s : RequestState) :=
    rs_user s = rs_user state ∧ rs_role s = rs_role state
    ∧ rs_system s = rs_system state
    ∧ rs_accessLevel s = rs_accessLevel state
    ∧ rs_project s = rs_project state
    ∧ rs_targetEmployeeId s = rs_targetEmployeeId state
    ∧ missingFields s = missingFields state in
  let settled (s : RequestState) (store : StateStore) :=
    ∀ accessLink' reason' approverId' approverRole' timestamp',
      updateRequestStateFromApproval store userId accessLink' approverId'
        approverRole' timestamp'
      = (Some s, store)
      ∧ updateRequestStateFromRejection store userId reason' approverId'
          approverRole' timestamp'
        = (Some s, store) in
  (∃ s,
     updateRequestStateFromApproval requestStates userId accessLink approverId
       approverRole timestamp
     = (Some s, <[userId := s]> requestStates)
     ∧ rs_status s = APPROVED
     ∧ rs_accessLink s = Some accessLink
     ∧ rs_approverId s = approverId ∧ rs_approverRole s = approverRole
     ∧ rs_approvedAt s = timestamp
     ∧ rs_rejectionReason s = None ∧ rs_rejectedAt s = None
     ∧ same s
     ∧ settled s (<[userId := s]> requestStates))
  ∧ (∃ s,
       updateRequestStateFromRejection requestStates userId reason approverId
         approverRole timestamp
       = (Some s, <[userId := s]> requestStates)
       ∧ rs_status s = REJECTED
       ∧ rs_rejectionReason s = Some reason
       ∧ rs_approverId s = approverId ∧ rs_approverRole s = approverRole
       ∧ rs_rejectedAt s = timestamp
       ∧ rs_accessLink s = None ∧ rs_approvedAt s = None
       ∧ same s
       ∧ settled s (<[userId := s]> requestStates)).
Proof.
  intros Hget Hst same settled.
  assert (∀ s, rs_status s ≠ AWAITING_APPROVAL →
               settled s (<[userId := s]> requestStates)) as Hsettled.
  { intros s Hs accessLink' reason' approverId' approverRole' timestamp'.
    unfold updateRequestStateFromApproval, updateRequestStateFromRejection.
    rewrite lookup_insert_eq.
    by rewrite (bool_decide_eq_false_2 (rs_status s = AWAITING_APPROVAL)). }
  unfold updateRequestStateFromApproval, updateRequestStateFromRejection.
  rewrite Hget, Hst. simpl. split.
  - eexists. split; [reflexivity|]. simpl. split_and!; try done.
    by apply Hsettled.
  - eexists. split; [reflexivity|]. simpl. split_and!; try done.
    by apply Hsettled.
Qed.

(** Bob's approval reaches Alice's waiting conversation. *)
Lemma write_back_once_witness :
  let waiting := set_status (aliceMailbox Default) AWAITING_APPROVAL in
  ∃ s,
    updateRequestStateFromApproval {["intern-001" := waiting]} "intern-001"
      "mailto:manager-001@company.com" (Some "manager-001") (Some Manager)
      (Some "2025-01-02T00:00:00.000Z")
    = (Some s, <["intern-001" := s]> {["intern-001" := waiting]})
    ∧ rs_status s = APPROVED
    ∧ rs_rejectionReason s = None.
Proof.
  intros waiting.
  destruct (write_back_once {["intern-001" := waiting]} "intern-001" waiting
              "mailto:manager-001@company.com" "" (Some "manager-001")
              (Some Manager) (Some "2025-01-02T00:00:00.000Z"))
    as [(s & Heq & Hst & _ & _ & _ & _ & Hreason & _) _];
    [reflexivity|reflexivity|].
  exists s. done.
Defined.

(** X9.  [shouldAutoSubmit] says yes exactly when [validateRequestState]
    reports the state valid, that is when no field is missing; its further
    tests never decide anything.  The next action is then "Ready to submit"
    and otherwise names the first missing field. *)
Theorem ready_exactly_when_valid s :
  shouldAutoSubmit s = sv_isValid (validateRequestState s)
  ∧ (shouldAutoSubmit s = true ↔ calculateMissingFields s = [])
  ∧ (shouldAutoSubmit s = true
     → nextAction (validateRequestState s) = "Ready to submit")
  ∧ (∀ field rest,
       calculateMissingFields s = field :: rest
       → shouldAutoSubmit s = false
         ∧ nextAction (validateRequestState s) = "Need: " +:+ field).
Proof.
  pose proof (shouldAutoSubmit_missing s) as Hiff.
  assert (∀ l : list string, bool_decide (length l = 0) = true ↔ l = [])
    as Hlen.
  { intros l. rewrite bool_decide_eq_true. by destruct l. }
  assert (nextAction (validateRequestState s)
          = match calculateMissingFields s with
            | field :: _ => "Need: " +:+ field
            | [] => "Ready to submit"
            end) as Hnext by done.
  split_and!.
  - change (sv_isValid (validateRequestState s))
      with (bool_decide (length (calculateMissingFields s) = 0)).
    apply eq_true_iff_eq. by rewrite Hiff, Hlen.
  - done.
  - intros Hauto. apply Hiff in Hauto. by rewrite Hnext, Hauto.
  - intros field rest Hmissing. split.
    + apply not_true_iff_false. rewrite Hiff. congruence.
    + by rewrite Hnext, Hmissing.
Qed.

#[local] Opaque updateRequestState.

(** X10.  [handleRejection] returns a state only for one that is
    AWAITING_APPROVAL; the state returned and stored is then REJECTED, and
    the reason passed in is recorded nowhere: the rejection reason of the
    result is the one the state had before.  From every other status it
    throws and the store stays as it was. *)
Theorem rejection_only_while_awaiting (requestStates : StateStore) state
    reason :
  (rs_status state = AWAITING_APPROVAL →
   ∃ newState requestStates',
     handleRejection requestStates state reason
     = (Returned newState, requestStates')
     ∧ rs_status newState = REJECTED
     ∧ rs_rejectionReason newState = rs_rejectionReason state
     ∧ rs_rejectedAt newState = rs_rejectedAt state
     ∧ requestStates' !! rs_user state = Some newState)
  ∧ (rs_status state ≠ AWAITING_APPROVAL →
     ∃ thrown,
       handleRejection requestStates state reason
       = (Thrown thrown, requestStates)).
Proof.
  unfold handleRejection. split.
  - intros ->. simpl.
    destruct (updateRequestState requestStates state (statusUpdate REJECTED))
      as [newState requestStates'] eqn:Hupd.
    exists newState, requestStates'.
    pose proof (updateRequestState_copied requestStates state
                  (statusUpdate REJECTED)) as Hcopied.
    pose proof (updateRequestState_status requestStates state
                  (statusUpdate REJECTED) REJECTED eq_refl) as Hstatus.
    pose proof (updateRequestState_stored requestStates state
                  (statusUpdate REJECTED)) as Hstored.
    rewrite Hupd in Hcopied, Hstatus, Hstored. simpl in *.
    destruct Hcopied as (Huser & _ & _ & _ & _ & Hreason & _ & _ & _ & Hat).
    rewrite Huser in Hstored. split_and!; try done. by apply Hstatus.
  - intros Hst.
    assert (validateStateTransition (rs_status state) REJECTED = false) as ->
      by (by destruct (rs_status state)).
    simpl. eauto.
Qed.

(** ** Finalizing a request: what is filed and what is stored *)

Lemma accountOwned_unfold state system :
  rs_system state = Some system →
  accountOwned state
  = (bool_decide (system = Email) || bool_decide (system = Jira))
    && truthy (rs_targetEmployeeId state).
Proof.
  intros Hsys. unfold accountOwned. rewrite Hsys.
  assert (bool_decide (Some system = Some Email) = bool_decide (system = Email))
    as -> by (apply bool_decide_ext; naive_solver).
  assert (bool_decide (Some system = Some Jira) = bool_decide (system = Jira))
    as -> by (apply bool_decide_ext; naive_solver).
  done.
Qed.

Lemma employeeOwnerOf_is_Some state :
  bool_decide (is_Some (employeeOwnerOf state)) = accountOwned state.
Proof.
  unfold employeeOwnerOf, accountOwned.
  destruct (bool_decide (rs_system state = Some Email)
            || bool_decide (rs_system state = Some Jira)); simpl; [|done].
  destruct (rs_targetEmployeeId state) as [target|]; simpl; [|done].
  by destruct (String.eqb target "").
Qed.

(** The ledger entry and the state update a successful call makes. *)
Lemma transition_exact d accessRequests requestStates state id now newState
    stores :
  transitionToAwaitingApproval d accessRequests requestStates state id now
  = (Returned newState, stores) →
  ∃ system level,
    rs_system state = Some system
    ∧ rs_accessLevel state = Some level
    ∧ let final :=
        accountOwned state
        || vr_requiresApproval
             (validateAccessRequest d (rs_user state) (rs_role state) system
                level (projectIdOf state)) in
      let request :=
        (createAccessRequest accessRequests
           (snapshot state (userNameOf d state) system level
              (projectIdOf state) (projectOwnerOf d state)
              (employeeOwnerOf state) (primaryApproverOf d state)
              (if final then Some "admin-001" else None) final)
           id now).1 in
      let update :=
        if final then statusUpdate AWAITING_APPROVAL
        else selfApprovalUpdate state
               (generateAccessLink system level (rs_project state)
                  (Some (rs_user state)) (rs_targetEmployeeId state))
               now in
      stores = (Map_set accessRequests id request,
                (updateRequestState requestStates state update).2)
      ∧ newState = (updateRequestState requestStates state update).1.
Proof.
  unfold transitionToAwaitingApproval.
  destruct (bool_decide (rs_status state = IN_PROGRESS)); [|done].
  destruct (shouldAutoSubmit state); [|done]. simpl.
  destruct (rs_system state) as [system|] eqn:Hsys; [|done].
  destruct (rs_accessLevel state) as [level|] eqn:Hlevel; [|done].
  destruct (isValid _); [|done]. simpl.
  intros H. exists system, level. split; [done|]. split; [done|].
  revert H.
  replace (if (bool_decide (system = Email) || bool_decide (system = Jira))
              && truthy (rs_targetEmployeeId state)
           then rs_targetEmployeeId state else None)
    with (employeeOwnerOf state)
    by (unfold employeeOwnerOf; by rewrite (accountOwned_unfold state system)).
  rewrite employeeOwnerOf_is_Some.
  fold (projectOwnerOf d state). fold (primaryApproverOf d state).
  fold (userNameOf d state).
  destruct (accountOwned state); simpl.
  - destruct (updateRequestState _ _ _) as [updated requestStates'] eqn:Hupd.
    by intros [= <- <-].
  - destruct (vr_requiresApproval _); simpl;
      destruct (updateRequestState _ _ _) as [updated requestStates'] eqn:Hupd;
      by intros [= <- <-].
Qed.

(** Finalizing and [processStateUpdate] take a ledger the services build
    to one they build: the request finalizing files gets its status and its
    requiresApproval flag from the one [finalRequiresApproval]. *)
Lemma transition_reachable d accessRequests requestStates state id now result :
  reachable d accessRequests →
  transitionToAwaitingApproval d accessRequests requestStates state id now
  = result →
  reachable d result.2.1.
Proof.
  intros Hreach Hcall. destruct result as [[newState|thrown] stores].
  - apply transition_exact in Hcall as (system & level & _ & _ & -> & _).
    cbn [fst snd].
    eapply (reachable_filed d accessRequests _ _ id now Hreach);
      reflexivity.
  - by apply transition_throws_keeps_stores in Hcall as ->.
Qed.

Lemma processStateUpdate_reachable d accessRequests requestStates state
    updates id now :
  reachable d accessRequests →
  reachable d
    (processStateUpdate d accessRequests requestStates state updates id
       now).2.1.
Proof.
  intros Hreach.
  destruct (processStateUpdate_cases d accessRequests requestStates state
              updates id now)
    as [-> | (newState & stores & _ & Htrans & ->)]; [done|].
  by apply (transition_reachable _ _ _ _ _ _ _ Hreach Htrans).
Qed.

(** X11.  Finalizing returns a state exactly when the state is IN_PROGRESS,
    no field is missing and the rule engine answers valid for its
    selections.  In every other case it throws, and a throw leaves both
    stores as they were; in particular it throws from every status other
    than IN_PROGRESS. *)
Theorem finalize_exactly_when d accessRequests requestStates state id now :
  ((∃ newState stores,
      transitionToAwaitingApproval d accessRequests requestStates state id now
      = (Returned newState, stores))
   ↔ rs_status state = IN_PROGRESS
     ∧ calculateMissingFields state = []
     ∧ ∃ system level,
         rs_system state = Some system
         ∧ rs_accessLevel state = Some level
         ∧ isValid (validateAccessRequest d (rs_user state) (rs_role state)
                      system level (projectIdOf state)) = true)
  ∧ (∀ thrown stores,
       transitionToAwaitingApproval d accessRequests requestStates state id now
       = (Thrown thrown, stores)
       → stores = (accessRequests, requestStates))
  ∧ (rs_status state ≠ IN_PROGRESS →
     ∃ thrown,
       transitionToAwaitingApproval d accessRequests requestStates state id now
       = (Thrown thrown, (accessRequests, requestStates))).
Proof.
  split_and!.
  - split.
    + intros (newState & stores & H).
      apply transition_returns in H
        as (system & level & _ & Hst & Hmissing & Hsys & Hlevel & Hvalid & _).
      eauto 10.
    + intros (Hst & Hmissing & system & level & Hsys & Hlevel & Hvalid).
      apply shouldAutoSubmit_missing in Hmissing.
      unfold transitionToAwaitingApproval.
      rewrite Hst, Hmissing, Hsys, Hlevel, Hvalid. simpl.
      match goal with
      | |- context [if negb ?final then _ else _] => destruct final
      end; simpl;
        match goal with
        | |- context [updateRequestState ?a ?b ?c] =>
          destruct (updateRequestState a b c)
        end; eauto.
  - intros thrown stores H.
    by apply transition_throws_keeps_stores in H.
  - intros Hst. unfold transitionToAwaitingApproval.
    rewrite (bool_decide_eq_false_2 (rs_status state = IN_PROGRESS)) by done.
    simpl. eauto.
Qed.

(** X12.  When finalizing returns for a request that is not for somebody's
    account and for which the rule engine requires no approval, the ledger
    entry is filed as approved, without approval requirement and without
    fallback approver, and the state returned and stored is APPROVED with the
    generated access link, the requester as approver, the requester's role
    as approver role and the time of the call.  This step from IN_PROGRESS
    to APPROVED is one [validateStateTransition] does not list. *)
Theorem auto_approval d accessRequests requestStates state id now newState
    stores system level :
  transitionToAwaitingApproval d accessRequests requestStates state id now
  = (Returned newState, stores) →
  rs_system state = Some system →
  rs_accessLevel state = Some level →
  accountOwned state = false →
  vr_requiresApproval
    (validateAccessRequest d (rs_user state) (rs_role state) system level
       (projectIdOf state)) = false →
  (∃ request,
     Map_get stores.1 id = Some request
     ∧ ar_status request = approved
     ∧ ar_requiresApproval request = false
     ∧ fallbackApproverId request = None)
  ∧ rs_status newState = APPROVED
  ∧ rs_accessLink newState
    = Some (generateAccessLink system level (rs_project state)
              (Some (rs_user state)) (rs_targetEmployeeId state))
  ∧ rs_approverId newState = Some (rs_user state)
  ∧ rs_approverRole newState = Some (rs_role state)
  ∧ rs_approvedAt newState = Some now
  ∧ rs_rejectionReason newState = rs_rejectionReason state
  ∧ stores.2 !! rs_user state = Some newState
  ∧ rs_status state = IN_PROGRESS
  ∧ validateStateTransition IN_PROGRESS APPROVED = false.
Proof.
  intros Htrans Hsys Hlevel Howned Happroval.
  pose proof (transition_returns _ _ _ _ _ _ _ _ Htrans)
    as (_ & _ & _ & Hst & _ & _ & _ & _ & _ & _ & _ & _ & _ & _ & _ & Hstored).
  apply transition_exact in Htrans
    as (system' & level' & Hsys' & Hlevel' & Hstores & Hnew).
  assert (system' = system) as -> by congruence.
  assert (level' = level) as -> by congruence.
  rewrite Howned, Happroval in Hstores, Hnew. simpl in Hstores, Hnew.
  match type of Hnew with
  | _ = (updateRequestState _ _ ?u).1 =>
    pose proof (updateRequestState_copied requestStates state u)
      as (_ & _ & _ & _ & Hlink & Hreason & Hid & Hrole & Hat & _);
    pose proof (updateRequestState_status requestStates state u APPROVED
                  eq_refl) as Hstatus
  end.
  rewrite <- Hnew in Hlink, Hreason, Hid, Hrole, Hat, Hstatus.
  split_and!; try done.
  - eexists. split; [rewrite Hstores; apply Map_get_set_eq|]. done.
  - by apply Hstatus.
Qed.

(** Bob's request for Jira admin needs nobody's approval. *)
Lemma auto_approval_witness :
  ∃ newState stores,
    transitionToAwaitingApproval sampleData [] ∅ bobJiraAdmin "req-1"
      "2025-01-01T00:00:00.000Z"
    = (Returned newState, stores)
    ∧ rs_status newState = APPROVED
    ∧ rs_accessLink newState = Some "https://company.atlassian.net"
    ∧ rs_approverId newState = Some "manager-001".
Proof.
  destruct (transitionToAwaitingApproval sampleData [] ∅ bobJiraAdmin "req-1"
              "2025-01-01T00:00:00.000Z")
    as [[newState|thrown] stores] eqn:E.
  - destruct (auto_approval _ _ _ _ _ _ _ _ Jira Admin E)
      as (_ & Hst & Hlink & Hid & _); try reflexivity.
    exists newState, stores. done.
  - vm_compute in E. discriminate E.
Defined.

(** X13.  The primary approver of the filed request is the manager of the
    project when the state names Project Alpha or Project Beta and the
    project file lists it with a manager, also when a target employee is
    named as well; without such a project it is the target employee of an
    Email or Jira request; otherwise there is none. *)
Theorem approver_resolution d accessRequests requestStates state id now
    newState stores :
  transitionToAwaitingApproval d accessRequests requestStates state id now
  = (Returned newState, stores) →
  ∃ request,
    Map_get stores.1 id = Some request
    ∧ (∀ projectId project,
         projectIdOf state = Some projectId →
         find_project d projectId = Some project →
         p_managerId project ≠ "" →
         assignedApproverId request = Some (p_managerId project)
         ∧ ar_projectOwnerManagerId request = Some (p_managerId project))
    ∧ (projectOwnerOf d state = None →
       accountOwned state = true →
       assignedApproverId request = rs_targetEmployeeId state
       ∧ ar_employeeOwnerId request = rs_targetEmployeeId state)
    ∧ (projectOwnerOf d state = None →
       accountOwned state = false →
       assignedApproverId request = None)
    ∧ (projectIdOf state = None → projectOwnerOf d state = None)
    ∧ (∀ projectId,
         projectIdOf state = Some projectId →
         find_project d projectId = None → projectOwnerOf d state = None).
Proof.
  intros Htrans.
  apply transition_exact in Htrans
    as (system & level & Hsys & Hlevel & Hstores & _).
  eexists. split; [rewrite Hstores; apply Map_get_set_eq|]. simpl.
  split_and!.
  - intros projectId project Hpid Hfind Hne.
    assert (projectOwnerOf d state = Some (p_managerId project)) as Howner.
    { unfold projectOwnerOf. rewrite Hpid. simpl. rewrite Hfind.
      destruct (String.eqb projectId "") eqn:Hempty; simpl.
      - exfalso. apply String.eqb_eq in Hempty as ->. revert Hpid.
        unfold projectIdOf. by repeat case_bool_decide.
      - apply String.eqb_neq in Hne. by rewrite Hne. }
    unfold primaryApproverOf. rewrite Howner. simpl.
    apply String.eqb_neq in Hne. by rewrite Hne.
  - intros Hnone Howned. unfold primaryApproverOf, employeeOwnerOf.
    rewrite Hnone, Howned. simpl.
    unfold accountOwned in Howned. apply andb_true_iff in Howned as [_ Ht].
    by rewrite Ht.
  - intros Hnone Howned. unfold primaryApproverOf, employeeOwnerOf.
    by rewrite Hnone, Howned.
  - intros Hpid. unfold projectOwnerOf. by rewrite Hpid.
  - intros projectId Hpid Hfind. unfold projectOwnerOf. rewrite Hpid. simpl.
    rewrite Hfind. by destruct (negb _).
Qed.

(** Alice's request for Project Beta on GitHub goes to Sarah, who manages
    it. *)
Lemma approver_resolution_witness :
  ∃ newState stores request,
    transitionToAwaitingApproval sampleData [] ∅ (aliceGitHub "Project Beta")
      "req-1" "2025-01-01T00:00:00.000Z"
    = (Returned newState, stores)
    ∧ Map_get stores.1 "req-1" = Some request
    ∧ assignedApproverId request = Some "manager-002".
Proof.
  destruct (transitionToAwaitingApproval sampleData [] ∅
              (aliceGitHub "Project Beta") "req-1" "2025-01-01T00:00:00.000Z")
    as [[newState|thrown] stores] eqn:E.
  - destruct (approver_resolution _ _ _ _ _ _ _ _ E)
      as (request & Hget & Hproject & _).
    exists newState, stores, request. split_and!; try done.
    apply (Hproject "project-2"
             {| p_id := "project-2"; p_name := "Project Beta";
                p_managerId := "manager-002" |});
      [reflexivity|reflexivity|discriminate].
  - vm_compute in E. discriminate E.
Defined.

(** X14.  The filed request copies the requester and the selections of the
    state as they are: the level recorded is the level asked for, not the
    level the rule engine allows, so a downgrade decided by the rule engine
    does not reach the ledger. *)
Theorem filed_request_copies_state d accessRequests requestStates state id now
    newState stores :
  transitionToAwaitingApproval d accessRequests requestStates state id now
  = (Returned newState, stores) →
  ∃ request,
    Map_get stores.1 id = Some request
    ∧ ar_id request = id
    ∧ ar_userId request = rs_user state
    ∧ ar_userRole request = rs_role state
    ∧ Some (ar_system request) = rs_system state
    ∧ Some (ar_accessLevel request) = rs_accessLevel state
    ∧ ar_project request = rs_project state
    ∧ ar_targetEmployeeId request = rs_targetEmployeeId state
    ∧ createdAt request = now ∧ updatedAt request = now
    ∧ ar_approverId request = None ∧ ar_approvedAt request = None
    ∧ rs_accessLevel newState = rs_accessLevel state
    ∧ rs_system newState = rs_system state.
Proof.
  intros Htrans.
  apply transition_exact in Htrans
    as (system & level & Hsys & Hlevel & Hstores & Hnew).
  assert (rs_accessLevel newState = rs_accessLevel state
          ∧ rs_system newState = rs_system state) as [Hl Hs].
  { cbv zeta in Hnew.
    destruct (accountOwned state || vr_requiresApproval _) in Hnew;
      match type of Hnew with
      | _ = (updateRequestState _ _ ?u).1 =>
        pose proof (updateRequestState_same_system requestStates state u
                      (or_introl eq_refl)) as [H1 _];
        pose proof (updateRequestState_copied requestStates state u)
          as (_ & _ & H2 & _)
      end; rewrite <- Hnew in H1, H2; done. }
  eexists. split; [rewrite Hstores; apply Map_get_set_eq|]. simpl.
  split_and!; done.
Qed.

(** Alice asks to create and edit in Bob's Jira account; the sample rules
    allow an Intern no more than view, and the ledger still says
    create-edit. *)
Lemma filed_request_copies_state_witness :
  allowedAccessLevel
    (validateAccessRequest sampleData "intern-001" Intern Jira CreateEdit None)
  = Some View
  ∧ ∃ newState stores request,
      transitionToAwaitingApproval sampleData [] ∅ aliceJiraEdit "req-1"
        "2025-01-01T00:00:00.000Z"
      = (Returned newState, stores)
      ∧ Map_get stores.1 "req-1" = Some request
      ∧ ar_accessLevel request = CreateEdit.
Proof.
  split; [reflexivity|].
  destruct (transitionToAwaitingApproval sampleData [] ∅ aliceJiraEdit "req-1"
              "2025-01-01T00:00:00.000Z")
    as [[newState|thrown] stores] eqn:E.
  - destruct (filed_request_copies_state _ _ _ _ _ _ _ _ E)
      as (request & Hget & _ & _ & _ & _ & Hlevel & _).
    exists newState, stores, request. split_and!; try done.
    by injection Hlevel.
  - vm_compute in E. discriminate E.
Defined.

(** X15.  After [processStateUpdate] the state store holds the returned
    state under its user id, and the ledger is either as before or has
    received one entry under the generated id, for the user of the returned
    state. *)
Theorem processed_state_is_stored d accessRequests requestStates state updates
    id now :
  let result :=
    processStateUpdate d accessRequests requestStates state updates id now in
  result.2.2 !! rs_user result.1 = Some result.1
  ∧ (result.2.1 = accessRequests
     ∨ ∃ request,
         result.2.1 = Map_set accessRequests id request
         ∧ ar_id request = id
         ∧ ar_userId request = rs_user result.1).
Proof.
  intros result. subst result.
  destruct (processStateUpdate_cases d accessRequests requestStates state
              updates id now) as [-> | (newState & stores & _ & Htrans & ->)].
  - simpl. split; [apply updateRequestState_stored|by left].
  - pose proof (transition_exact _ _ _ _ _ _ _ _ Htrans)
      as (system' & level' & _ & _ & _ & Hnew).
    apply transition_returns in Htrans
      as (system & level & request & _ & _ & _ & _ & _ & Hstore & Hid & Huser
          & _ & _ & _ & _ & Hstored).
    assert (rs_user newState
            = rs_user (updateRequestState requestStates state updates).1)
      as Hsame.
    { rewrite Hnew. cbv zeta.
      destruct (accountOwned _ || vr_requiresApproval _);
        by apply updateRequestState_user. }
    simpl. rewrite Hsame. split; [done|]. right. exists request.
    by rewrite Huser.
Qed.

(** ** The approval ledger: entries and decisions *)

Lemma Map_set_keys {V} (m : list (string * V)) k v old :
  Map_get m k = Some old → map fst (Map_set m k v) = map fst m.
Proof.
  unfold Map_get. induction m as [|[k' v'] m IH]; simpl; [done|].
  destruct (String.eqb k' k) eqn:E; simpl.
  - apply String.eqb_eq in E as ->. done.
  - intros H. by rewrite IH.
Qed.

Lemma Map_set_new {V} (m : list (string * V)) k v :
  Map_get m k = None → Map_set m k v = m ++ [(k, v)].
Proof.
  unfold Map_get. induction m as [|[k' v'] m IH]; simpl; [done|].
  destruct (String.eqb k' k) eqn:E; simpl; [done|].
  intros H. by rewrite IH.
Qed.

Lemma Map_set_values {V} (m : list (string * V)) k v old :
  Map_get m k = Some old →
  ∃ before after,
    Map_values m = before ++ old :: after
    ∧ Map_values (Map_set m k v) = before ++ v :: after.
Proof.
  unfold Map_get, Map_values. induction m as [|[k' v'] m IH]; simpl; [done|].
  destruct (String.eqb k' k) eqn:E; simpl.
  - intros [= ->]. by exists [], (map snd m).
  - intros H. destruct (IH H) as (before & after & H1 & H2).
    exists (v' :: before), after. simpl. by rewrite H1, H2.
Qed.

(** X16.  A created request can be read back under its id: it carries the
    id and the time of the call as creation and update time and otherwise
    what was passed in.  Entries under other ids are not affected; a fresh
    id appends the request at the end of the ledger, an id already in use
    replaces the entry in place without changing the ledger's ids. *)
Theorem created_request_is_stored (accessRequests : AccessStore) request id
    now :
  let result := createAccessRequest accessRequests request id now in
  getAccessRequest result.2 id = Some result.1
  ∧ ar_id result.1 = id
  ∧ createdAt result.1 = now ∧ updatedAt result.1 = now
  ∧ ar_userId result.1 = ar_userId request
  ∧ ar_status result.1 = ar_status request
  ∧ ar_requiresApproval result.1 = ar_requiresApproval request
  ∧ assignedApproverId result.1 = assignedApproverId request
  ∧ (∀ other, other ≠ id →
       getAccessRequest result.2 other = getAccessRequest accessRequests other)
  ∧ (getAccessRequest accessRequests id = None →
     getAllAccessRequests result.2
     = getAllAccessRequests accessRequests ++ [result.1])
  ∧ (is_Some (getAccessRequest accessRequests id) →
     map fst result.2 = map fst accessRequests).
Proof.
  unfold createAccessRequest, getAccessRequest, getAllAccessRequests. simpl.
  split_and!; try done.
  - apply Map_get_set_eq.
  - intros other Hne. by apply Map_get_set_ne.
  - intros Hnone. rewrite Map_set_new by done.
    unfold Map_values. by rewrite map_app.
  - intros [old Hold]. by eapply Map_set_keys.
Qed.

Lemma isEmployeeOwnedRequest_true request approverId :
  isEmployeeOwnedRequest request approverId = true
  ↔ truthy (ar_employeeOwnerId request) = true
    ∧ ar_employeeOwnerId request = approverId.
Proof.
  unfold isEmployeeOwnedRequest.
  by rewrite andb_true_iff, bool_decide_eq_true.
Qed.

Lemma decision_goes_through_helper_approve d (accessRequests : AccessStore)
    requestId role approverId now :
  (∃ result accessRequests',
     approveRequest d accessRequests requestId role approverId now
     = (Returned (Some result), accessRequests'))
  ↔ ∃ request,
      Map_get accessRequests requestId = Some request
      ∧ ar_status request = pending
      ∧ (canApproveRequests d role = true
         ∨ (truthy (ar_employeeOwnerId request) = true
            ∧ ar_employeeOwnerId request = approverId)).
Proof.
  split.
  - intros (result & accessRequests' & H).
    apply approveRequest_returns in H as (request & ? & ? & Hperm & _).
    exists request. rewrite <- isEmployeeOwnedRequest_true. done.
  - intros (request & Hget & Hst & Hperm).
    rewrite <- isEmployeeOwnedRequest_true in Hperm.
    unfold approveRequest. rewrite Hget, Hst.
    assert (negb (canApproveRequests d role)
            && negb (isEmployeeOwnedRequest request approverId) = false) as ->
      by (destruct Hperm as [-> | ->]; by rewrite ?andb_false_r).
    simpl. eauto.
Qed.

Lemma decision_goes_through_helper_reject d (accessRequests : AccessStore)
    requestId role reason approverId now :
  (∃ result accessRequests',
     rejectRequest d accessRequests requestId role reason approverId now
     = (Returned (Some result), accessRequests'))
  ↔ ∃ request,
      Map_get accessRequests requestId = Some request
      ∧ ar_status request = pending
      ∧ (String.length reason ≤ 120)%nat
      ∧ (canApproveRequests d role = true
         ∨ (truthy (ar_employeeOwnerId request) = true
            ∧ ar_employeeOwnerId request = approverId)).
Proof.
  split.
  - intros (result & accessRequests' & H).
    apply rejectRequest_returns in H as (request & ? & ? & ? & Hperm & _).
    exists request. rewrite <- isEmployeeOwnedRequest_true. done.
  - intros (request & Hget & Hst & Hlen & Hperm).
    rewrite <- isEmployeeOwnedRequest_true in Hperm.
    unfold rejectRequest. rewrite Hget, Hst.
    assert (Nat.ltb 120 (String.length reason) = false) as ->
      by (apply Nat.ltb_ge; lia).
    assert (negb (canApproveRequests d role)
            && negb (isEmployeeOwnedRequest request approverId) = false) as ->
      by (destruct Hperm as [-> | ->]; by rewrite ?andb_false_r).
    simpl. eauto.
Qed.

(** X17.  Approving returns a result exactly when the ledger holds a pending
    request under the id and the actor either has a role with approval
    rights or is the owner of the account the request is for.  Rejecting
    returns a result under the same conditions when, in addition, the
    reason has at most 120 characters. *)
Theorem decision_goes_through_exactly_when d (accessRequests : AccessStore)
    requestId role reason approverId now :
  ((∃ result accessRequests',
      approveRequest d accessRequests requestId role approverId now
      = (Returned (Some result), accessRequests'))
   ↔ ∃ request,
       Map_get accessRequests requestId = Some request
       ∧ ar_status request = pending
       ∧ (canApproveRequests d role = true
          ∨ (truthy (ar_employeeOwnerId request) = true
             ∧ ar_employeeOwnerId request = approverId)))
  ∧ ((∃ result accessRequests',
        rejectRequest d accessRequests requestId role reason approverId now
        = (Returned (Some result), accessRequests'))
     ↔ ∃ request,
         Map_get accessRequests requestId = Some request
         ∧ ar_status request = pending
         ∧ (String.length reason ≤ 120)%nat
         ∧ (canApproveRequests d role = true
            ∨ (truthy (ar_employeeOwnerId request) = true
               ∧ ar_employeeOwnerId request = approverId))).
Proof.
  split.
  - apply decision_goes_through_helper_approve.
  - apply decision_goes_through_helper_reject.
Qed.

(** The snapshot fields of a request: everything but status and decision
    metadata. *)
Lemma markApproved_snapshot request role approverId now :
  let decided := markApproved request role approverId now in
  ar_id decided = ar_id request ∧ ar_userId decided = ar_userId request
  ∧ ar_userName decided = ar_userName request
  ∧ ar_userRole decided = ar_userRole request
  ∧ ar_system decided = ar_system request
  ∧ ar_accessLevel decided = ar_accessLevel request
  ∧ ar_project decided = ar_project request
  ∧ ar_targetEmployeeId decided = ar_targetEmployeeId request
  ∧ assignedApproverId decided = assignedApproverId request
  ∧ fallbackApproverId decided = fallbackApproverId request
  ∧ ar_requiresApproval decided = ar_requiresApproval request
  ∧ createdAt decided = createdAt request.
Proof. done. Qed.

Lemma markRejected_snapshot request role reason approverId now :
  let decided := markRejected request role reason approverId now in
  ar_id decided = ar_id request ∧ ar_userId decided = ar_userId request
  ∧ ar_userName decided = ar_userName request
  ∧ ar_userRole decided = ar_userRole request
  ∧ ar_system decided = ar_system request
  ∧ ar_accessLevel decided = ar_accessLevel request
  ∧ ar_project decided = ar_project request
  ∧ ar_targetEmployeeId decided = ar_targetEmployeeId request
  ∧ assignedApproverId decided = assignedApproverId request
  ∧ fallbackApproverId decided = fallbackApproverId request
  ∧ ar_requiresApproval decided = ar_requiresApproval request
  ∧ createdAt decided = createdAt request.
Proof. done. Qed.

(** X18.  A decision changes one entry and only its status and decision
    metadata: the stored request keeps its id, requester, system, level,
    project, target employee, approvers, approval requirement and creation
    time; an approval leaves the rejection fields and a rejection the
    approval time as they were.  The ledger keeps its ids in their order, so
    nothing is added or removed, and every other entry reads as before. *)
Theorem decision_keeps_the_snapshot d (accessRequests : AccessStore) requestId
    role reason approverId now :
  let kept (old new : AccessRequest) (accessRequests' : AccessStore) :=
    Map_get accessRequests requestId = Some old
    ∧ Map_get accessRequests' requestId = Some new
    ∧ ar_id new = ar_id old ∧ ar_userId new = ar_userId old
    ∧ ar_userName new = ar_userName old ∧ ar_userRole new = ar_userRole old
    ∧ ar_system new = ar_system old ∧ ar_accessLevel new = ar_accessLevel old
    ∧ ar_project new = ar_project old
    ∧ ar_targetEmployeeId new = ar_targetEmployeeId old
    ∧ assignedApproverId new = assignedApproverId old
    ∧ fallbackApproverId new = fallbackApproverId old
    ∧ ar_requiresApproval new = ar_requiresApproval old
    ∧ createdAt new = createdAt old
    ∧ ar_approverRole new = Some role ∧ updatedAt new = now
    ∧ map fst accessRequests' = map fst accessRequests
    ∧ ∀ other, other ≠ requestId →
        Map_get accessRequests' other = Map_get accessRequests other in
  (∀ result accessRequests',
     approveRequest d accessRequests requestId role approverId now
     = (Returned (Some result), accessRequests') →
     ∃ old,
       kept old result.1 accessRequests'
       ∧ ar_status result.1 = approved
       ∧ ar_approvedAt result.1 = Some now
       ∧ ar_rejectionReason result.1 = ar_rejectionReason old
       ∧ ar_rejectedAt result.1 = ar_rejectedAt old)
  ∧ (∀ result accessRequests',
       rejectRequest d accessRequests requestId role reason approverId now
       = (Returned (Some result), accessRequests') →
       ∃ old,
         kept old result.1 accessRequests'
         ∧ ar_status result.1 = rejected
         ∧ ar_rejectedAt result.1 = Some now
         ∧ ar_rejectionReason result.1 = Some reason
         ∧ ar_approvedAt result.1 = ar_approvedAt old).
Proof.
  intros kept. split.
  - intros result accessRequests' H.
    apply approveRequest_returns in H as (old & Hget & _ & _ & Hres & ->).
    exists old. rewrite Hres. unfold kept.
    split_and!; try done.
    + apply Map_get_set_eq.
    + by eapply Map_set_keys.
    + intros other Hne. by apply Map_get_set_ne.
  - intros result accessRequests' H.
    apply rejectRequest_returns in H as (old & Hget & _ & _ & _ & Hres & ->).
    exists old. rewrite Hres. unfold kept.
    split_and!; try done.
    + apply Map_get_set_eq.
    + by eapply Map_set_keys.
    + intros other Hne. by apply Map_get_set_ne.
Qed.

Lemma pending_after_decision d (accessRequests : AccessStore) requestId old
    decided viewerId viewerRole managedProjectIds :
  Map_get accessRequests requestId = Some old →
  ar_status decided ≠ pending →
  let before :=
    getPendingApprovalsForManager d accessRequests viewerId viewerRole
      managedProjectIds in
  let after :=
    getPendingApprovalsForManager d
      (Map_set accessRequests requestId decided) viewerId viewerRole
      managedProjectIds in
  (length after
   = length before
     - (if mayList d viewerRole && shownTo viewerId viewerRole old
        then 1 else 0))%nat
  ∧ (∀ request, In request after → In request before)
  ∧ (∀ request, In request after → ar_status request = pending).
Proof.
  intros Hget Hst before after. subst before after.
  rewrite !getPendingApprovalsForManager_filter.
  destruct (mayList d viewerRole); simpl; [|done].
  destruct (Map_set_values accessRequests requestId decided old Hget)
    as (l1 & l2 & -> & ->).
  rewrite !List.filter_app. simpl.
  assert (shownTo viewerId viewerRole decided = false) as ->.
  { unfold shownTo. by rewrite (bool_decide_eq_false_2 (_ = pending)). }
  split_and!.
  - destruct (shownTo viewerId viewerRole old); rewrite !length_app; simpl;
      lia.
  - intros request. rewrite !in_app_iff.
    destruct (shownTo viewerId viewerRole old); simpl; tauto.
  - intros request Hin.
    assert (In request (List.filter (shownTo viewerId viewerRole) (l1 ++ l2)))
      as Hin' by by rewrite List.filter_app.
    apply filter_In in Hin' as [_ Hshown]. unfold shownTo in Hshown.
    apply andb_true_iff in Hshown as [Hp _].
    apply andb_true_iff in Hp as [Hp _]. by apply bool_decide_eq_true in Hp.
Qed.

(** X19.  Once a request is approved or rejected it is gone from the
    pending lists: for every viewer the list after the decision holds only
    requests that were listed before, and it is shorter by one for the
    viewers who were shown the request and as long as before for the
    others. *)
Theorem decided_request_leaves_the_lists d (accessRequests : AccessStore)
    requestId role reason approverId now viewerId viewerRole
    managedProjectIds :
  let before :=
    getPendingApprovalsForManager d accessRequests viewerId viewerRole
      managedProjectIds in
  let shorter (accessRequests' : AccessStore) (old : AccessRequest) :=
    (getPendingApprovalsCount d accessRequests' viewerId viewerRole
       managedProjectIds
     = length before
       - (if mayList d viewerRole && shownTo viewerId viewerRole old
          then 1 else 0))%nat
    ∧ ∀ request,
        In request
          (getPendingApprovalsForManager d accessRequests' viewerId viewerRole
             managedProjectIds)
        → In request before ∧ ar_status request = pending in
  (∀ result accessRequests',
     approveRequest d accessRequests requestId role approverId now
     = (Returned (Some result), accessRequests') →
     ∃ old, Map_get accessRequests requestId = Some old
            ∧ shorter accessRequests' old)
  ∧ (∀ result accessRequests',
       rejectRequest d accessRequests requestId role reason approverId now
       = (Returned (Some result), accessRequests') →
       ∃ old, Map_get accessRequests requestId = Some old
              ∧ shorter accessRequests' old).
Proof.
  intros before shorter. split.
  - intros result accessRequests' H.
    apply approveRequest_returns in H as (old & Hget & _ & _ & Hres & ->).
    exists old. split; [done|].
    destruct (pending_after_decision d accessRequests requestId old result.1
                viewerId viewerRole managedProjectIds Hget)
      as (Hlen & Hin & Hpending); [by rewrite Hres|].
    split; [done|]. intros request Hr. split; [by apply Hin|by apply Hpending].
  - intros result accessRequests' H.
    apply rejectRequest_returns in H as (old & Hget & _ & _ & _ & Hres & ->).
    exists old. split; [done|].
    destruct (pending_after_decision d accessRequests requestId old result.1
                viewerId viewerRole managedProjectIds Hget)
      as (Hlen & Hin & Hpending); [by rewrite Hres|].
    split; [done|]. intros request Hr. split; [by apply Hin|by apply Hpending].
Qed.

(** ** The approval endpoints *)

Lemma approveRequest_event d (accessRequests : AccessStore) requestId role
    approverId now result accessRequests' :
  approveRequest d accessRequests requestId role approverId now
  = (Returned (Some result), accessRequests') →
  ∃ old,
    Map_get accessRequests requestId = Some old
    ∧ result.2
      = emitApprovalEvent d result.1
          (if truthy approverId then default "" approverId else "unknown")
          role
          (generateAccessLink (ar_system old) (ar_accessLevel old)
             (ar_project old) (Some (ar_userId old))
             (ar_targetEmployeeId old))
          now.
Proof.
  unfold approveRequest.
  destruct (Map_get accessRequests requestId) as [old|]; [|done].
  destruct (negb (canApproveRequests d role) && _); [done|].
  destruct (negb (bool_decide (ar_status old = pending))); [done|].
  intros [= <- <-]. by exists old.
Qed.

Lemma rejectRequest_event d (accessRequests : AccessStore) requestId role
    reason approverId now result accessRequests' :
  rejectRequest d accessRequests requestId role reason approverId now
  = (Returned (Some result), accessRequests') →
  result.2
  = emitRejectionEvent d result.1
      (if truthy approverId then default "" approverId else "unknown")
      role reason now.
Proof.
  unfold rejectRequest.
  destruct (Map_get accessRequests requestId) as [old|]; [|done].
  destruct (Nat.ltb 120 _); [done|].
  destruct (negb (canApproveRequests d role) && _); [done|].
  destruct (negb (bool_decide (ar_status old = pending))); [done|].
  by intros [= <- <-].
Qed.

Lemma approveRequest_no_result d (accessRequests : AccessStore) requestId role
    approverId now accessRequests' :
  (∃ thrown,
     approveRequest d accessRequests requestId role approverId now
     = (Thrown thrown, accessRequests'))
  ∨ approveRequest d accessRequests requestId role approverId now
    = (Returned None, accessRequests') →
  accessRequests' = accessRequests.
Proof.
  unfold approveRequest.
  destruct (Map_get accessRequests requestId) as [old|];
    [|intros [[? [=]]|[=]]; done].
  destruct (negb (canApproveRequests d role) && _);
    [intros [[? [=]]|[=]]; done|].
  destruct (negb (bool_decide (ar_status old = pending)));
    intros [[? [=]]|[=]]; done.
Qed.

Lemma rejectRequest_no_result d (accessRequests : AccessStore) requestId role
    reason approverId now accessRequests' :
  (∃ thrown,
     rejectRequest d accessRequests requestId role reason approverId now
     = (Thrown thrown, accessRequests'))
  ∨ rejectRequest d accessRequests requestId role reason approverId now
    = (Returned None, accessRequests') →
  accessRequests' = accessRequests.
Proof.
  unfold rejectRequest.
  destruct (Map_get accessRequests requestId) as [old|];
    [|intros [[? [=]]|[=]]; done].
  destruct (Nat.ltb 120 _); [intros [[? [=]]|[=]]; done|].
  destruct (negb (canApproveRequests d role) && _);
    [intros [[? [=]]|[=]]; done|].
  destruct (negb (bool_decide (ar_status old = pending)));
    intros [[? [=]]|[=]]; done.
Qed.

(** What the approval endpoint does on each of its paths. *)
Lemma approveAccessRequest_paths d (accessRequests : AccessStore)
    (requestStates : StateStore) requestId approverId now now' :
  let result :=
    approveAccessRequest d accessRequests requestStates requestId approverId
      now now' in
  ((statusCode result.1 = 400 ∨ statusCode result.1 = 404)
   ∧ result.2 = (accessRequests, requestStates)
   ∧ ¬ ∃ rid aid approver decision accessRequests',
         requestId = Some rid ∧ rid ≠ "" ∧ approverId = Some aid ∧ aid ≠ ""
         ∧ find_user d aid = Some approver
         ∧ approveRequest d accessRequests rid (u_role approver) (Some aid)
             now
           = (Returned (Some decision), accessRequests'))
  ∨ ∃ rid aid approver request event accessRequests',
      requestId = Some rid ∧ rid ≠ "" ∧ approverId = Some aid ∧ aid ≠ ""
      ∧ find_user d aid = Some approver
      ∧ approveRequest d accessRequests rid (u_role approver) (Some aid) now
        = (Returned (Some (request, event)), accessRequests')
      ∧ result
        = ({| statusCode := 200;
              body :=
                DecisionDone request event "Request approved successfully" |},
           (accessRequests',
            (updateRequestStateFromApproval requestStates (ar_userId request)
               (default "" (or_else (ev_accessLink event) (Some "")))
               (Some aid) (Some (u_role approver))
               (or_else (ev_approvedAt event) (Some now'))).2)).
Proof.
  unfold approveAccessRequest.
  destruct requestId as [rid|]; simpl;
    [|left; split_and!; [by left|done|by intros (? & ? & ? & ? & ? & ? & _)]].
  destruct (String.eqb rid "") eqn:Hrid; simpl.
  { apply String.eqb_eq in Hrid as ->.
    left; split_and!; [by left|done|].
    by intros (? & ? & ? & ? & ? & [= <-] & ? & _). }
  apply String.eqb_neq in Hrid.
  destruct approverId as [aid|]; simpl;
    [|left; split_and!; [by left|done|
        by intros (? & ? & ? & ? & ? & _ & _ & ? & _)]].
  destruct (String.eqb aid "") eqn:Haid; simpl.
  { apply String.eqb_eq in Haid as ->.
    left; split_and!; [by left|done|].
    by intros (? & ? & ? & ? & ? & _ & _ & [= <-] & ? & _). }
  apply String.eqb_neq in Haid.
  destruct (find_user d aid) as [approver|] eqn:Hfind.
  2: { left; split_and!; [by right|done|].
       intros (? & ? & ? & ? & ? & _ & _ & [= <-] & _ & ? & _). congruence. }
  destruct (approveRequest d accessRequests rid (u_role approver) (Some aid)
              now) as [[[[request event]|]|thrown] accessRequests'] eqn:Happ.
  - right. exists rid, aid, approver, request, event, accessRequests'.
    split_and!; try done.
    by destruct (updateRequestStateFromApproval _ _ _ _ _ _).
  - assert (accessRequests' = accessRequests) as ->
      by (eapply approveRequest_no_result; eauto).
    left; split_and!; [by right|done|].
    intros (? & ? & ? & ? & ? & [= <-] & _ & [= <-] & _ & ? & ?). congruence.
  - assert (accessRequests' = accessRequests) as ->
      by (eapply approveRequest_no_result; eauto).
    left; split_and!; [by left|done|].
    intros (? & ? & ? & ? & ? & [= <-] & _ & [= <-] & _ & ? & ?). congruence.
Qed.

Lemma rejectAccessRequest_paths d (accessRequests : AccessStore)
    (requestStates : StateStore) requestId approverId reason now now' :
  let result :=
    rejectAccessRequest d accessRequests requestStates requestId approverId
      reason now now' in
  ((statusCode result.1 = 400 ∨ statusCode result.1 = 404)
   ∧ result.2 = (accessRequests, requestStates)
   ∧ ¬ ∃ rid aid why approver decision accessRequests',
         requestId = Some rid ∧ rid ≠ "" ∧ approverId = Some aid ∧ aid ≠ ""
         ∧ reason = Some why ∧ why ≠ ""
         ∧ find_user d aid = Some approver
         ∧ rejectRequest d accessRequests rid (u_role approver) why (Some aid)
             now
           = (Returned (Some decision), accessRequests'))
  ∨ ∃ rid aid why approver request event accessRequests',
      requestId = Some rid ∧ rid ≠ "" ∧ approverId = Some aid ∧ aid ≠ ""
      ∧ reason = Some why ∧ why ≠ "" ∧ (String.length why ≤ 120)%nat
      ∧ find_user d aid = Some approver
      ∧ rejectRequest d accessRequests rid (u_role approver) why (Some aid)
          now
        = (Returned (Some (request, event)), accessRequests')
      ∧ result
        = ({| statusCode := 200;
              body :=
                DecisionDone request event "Request rejected successfully" |},
           (accessRequests',
            (updateRequestStateFromRejection requestStates (ar_userId request)
               why (Some aid) (Some (u_role approver))
               (or_else (ev_rejectedAt event) (Some now'))).2)).
Proof.
  unfold rejectAccessRequest.
  destruct requestId as [rid|]; simpl;
    [|left; split_and!; [by left|done|
        by intros (? & ? & ? & ? & ? & ? & ? & _)]].
  destruct (String.eqb rid "") eqn:Hrid; simpl.
  { apply String.eqb_eq in Hrid as ->.
    left; split_and!; [by left|done|].
    by intros (? & ? & ? & ? & ? & ? & [= <-] & ? & _). }
  apply String.eqb_neq in Hrid.
  destruct approverId as [aid|]; simpl;
    [|left; split_and!; [by left|done|
        by intros (? & ? & ? & ? & ? & ? & _ & _ & ? & _)]].
  destruct (String.eqb aid "") eqn:Haid; simpl.
  { apply String.eqb_eq in Haid as ->.
    left; split_and!; [by left|done|].
    by intros (? & ? & ? & ? & ? & ? & _ & _ & [= <-] & ? & _). }
  apply String.eqb_neq in Haid.
  destruct reason as [why|]; simpl;
    [|left; split_and!; [by left|done|
        by intros (? & ? & ? & ? & ? & ? & _ & _ & _ & _ & ? & _)]].
  destruct (String.eqb why "") eqn:Hwhy; simpl.
  { apply String.eqb_eq in Hwhy as ->.
    left; split_and!; [by left|done|].
    by intros (? & ? & ? & ? & ? & ? & _ & _ & _ & _ & [= <-] & ? & _). }
  apply String.eqb_neq in Hwhy.
  destruct (find_user d aid) as [approver|] eqn:Hfind.
  2: { left; split_and!; [by right|done|].
       intros (? & ? & ? & ? & ? & ? & _ & _ & [= <-] & _ & _ & _ & ? & _).
       congruence. }
  destruct (Nat.ltb 120 (String.length why)) eqn:Hlen.
  { left; split_and!; [by left|done|].
    intros (? & ? & ? & approver' & ? & ? & [= <-] & _ & [= <-] & _ & [= <-]
            & _ & Hf & H).
    assert (approver = approver') as <- by congruence.
    apply rejectRequest_returns in H as (? & _ & _ & Hle & _).
    apply Nat.ltb_lt in Hlen. lia. }
  apply Nat.ltb_ge in Hlen.
  destruct (rejectRequest d accessRequests rid (u_role approver) why
              (Some aid) now)
    as [[[[request event]|]|thrown] accessRequests'] eqn:Hrej.
  - right. exists rid, aid, why, approver, request, event, accessRequests'.
    split_and!; try done.
    by destruct (updateRequestStateFromRejection _ _ _ _ _ _).
  - assert (accessRequests' = accessRequests) as ->
      by (eapply rejectRequest_no_result; eauto).
    left; split_and!; [by right|done|].
    intros (? & ? & ? & ? & ? & ? & [= <-] & _ & [= <-] & _ & [= <-] & _ & ?
            & ?). congruence.
  - assert (accessRequests' = accessRequests) as ->
      by (eapply rejectRequest_no_result; eauto).
    left; split_and!; [by left|done|].
    intros (? & ? & ? & ? & ? & ? & [= <-] & _ & [= <-] & _ & [= <-] & _ & ?
            & ?). congruence.
Qed.

(** X20.  Each of the two decision endpoints answers 200, 400 or 404.  With
    any answer other than 200 the body is an error text and neither the
    ledger nor the state store has changed. *)
Theorem refused_decision_changes_nothing d (accessRequests : AccessStore)
    (requestStates : StateStore) requestId approverId reason now now' :
  let approve :=
    approveAccessRequest d accessRequests requestStates requestId approverId
      now now' in
  let reject :=
    rejectAccessRequest d accessRequests requestStates requestId approverId
      reason now now' in
  (statusCode approve.1 = 200 ∨ statusCode approve.1 = 400
   ∨ statusCode approve.1 = 404)
  ∧ (statusCode approve.1 ≠ 200 →
     approve.2 = (accessRequests, requestStates)
     ∧ ∃ error, body approve.1 = ErrorBody error)
  ∧ (statusCode reject.1 = 200 ∨ statusCode reject.1 = 400
     ∨ statusCode reject.1 = 404)
  ∧ (statusCode reject.1 ≠ 200 →
     reject.2 = (accessRequests, requestStates)
     ∧ ∃ error, body reject.1 = ErrorBody error).
Proof.
  intros approve reject.
  split_and!.
  - destruct (approveAccessRequest_paths d accessRequests requestStates
                requestId approverId now now')
      as [([H|H] & _) | (? & ? & ? & ? & ? & ? & _ & _ & _ & _ & _ & _ & H)];
      fold approve in H; [tauto|tauto|]. rewrite H. by left.
  - intros Hcode. split.
    + destruct (approveAccessRequest_paths d accessRequests requestStates
                  requestId approverId now now')
        as [(_ & H & _) | (? & ? & ? & ? & ? & ? & _ & _ & _ & _ & _ & _ & H)];
        fold approve in H; [done|]. by rewrite H in Hcode.
    + revert Hcode. subst approve. unfold approveAccessRequest.
      destruct (negb (truthy requestId) || negb (truthy approverId));
        [eauto|].
      destruct (find_user d _); [|eauto].
      destruct (approveRequest _ _ _ _ _ _) as [[[[? ?]|]|?] ?]; simpl;
        eauto.
      by destruct (updateRequestStateFromApproval _ _ _ _ _ _).
  - destruct (rejectAccessRequest_paths d accessRequests requestStates
                requestId approverId reason now now')
      as [([H|H] & _)
         | (? & ? & ? & ? & ? & ? & ? & _ & _ & _ & _ & _ & _ & _ & _ & _ & H)];
      fold reject in H; [tauto|tauto|]. rewrite H. by left.
  - intros Hcode. split.
    + destruct (rejectAccessRequest_paths d accessRequests requestStates
                  requestId approverId reason now now')
        as [(_ & H & _)
           | (? & ? & ? & ? & ? & ? & ? & _ & _ & _ & _ & _ & _ & _ & _ & _
              & H)];
        fold reject in H; [done|]. by rewrite H in Hcode.
    + revert Hcode. subst reject. unfold rejectAccessRequest.
      destruct (negb (truthy requestId) || negb (truthy approverId)
                || negb (truthy reason)); [eauto|].
      destruct (find_user d _); [|eauto].
      destruct (Nat.ltb 120 _); [eauto|].
      destruct (rejectRequest _ _ _ _ _ _ _) as [[[[? ?]|]|?] ?]; simpl;
        eauto.
      by destruct (updateRequestStateFromRejection _ _ _ _ _ _).
Qed.

(** X21.  The approval endpoint answers 200 exactly when request id and
    approver id are given and not empty, the user file lists the approver,
    the ledger holds a pending request under the id, and either the role
    the user file gives the approver has approval rights or the approver is
    the owner of the account asked for.  The rejection endpoint answers 200
    under the same conditions when in addition a reason of 1 to 120
    characters is given.  The role used is always the one of the user file;
    the caller cannot supply one. *)
Theorem decision_endpoint_accepts_exactly_when d (accessRequests : AccessStore)
    (requestStates : StateStore) requestId approverId reason now now' :
  let allowed (rid aid : string) :=
    ∃ approver old,
      requestId = Some rid ∧ rid ≠ "" ∧ approverId = Some aid ∧ aid ≠ ""
      ∧ find_user d aid = Some approver
      ∧ Map_get accessRequests rid = Some old
      ∧ ar_status old = pending
      ∧ (canApproveRequests d (u_role approver) = true
         ∨ ar_employeeOwnerId old = Some aid) in
  (statusCode
     (approveAccessRequest d accessRequests requestStates requestId
        approverId now now').1 = 200
   ↔ ∃ rid aid, allowed rid aid)
  ∧ (statusCode
       (rejectAccessRequest d accessRequests requestStates requestId
          approverId reason now now').1 = 200
     ↔ ∃ rid aid why,
         allowed rid aid
         ∧ reason = Some why ∧ why ≠ "" ∧ (String.length why ≤ 120)%nat).
Proof.
  intros allowed.
  assert (∀ (old : AccessRequest) (aid : string),
            aid ≠ "" →
            (truthy (ar_employeeOwnerId old) = true
             ∧ ar_employeeOwnerId old = Some aid)
            ↔ ar_employeeOwnerId old = Some aid) as Howner.
  { intros old aid Haid. split; [tauto|]. intros H. split; [|done].
    rewrite H. by apply truthy_Some. }
  split; split.
  - intros Hcode.
    destruct (approveAccessRequest_paths d accessRequests requestStates
                requestId approverId now now')
      as [([H|H] & _)
         | (rid & aid & approver & request & event & accessRequests' & Hrid
            & Hrid' & Haid & Haid' & Hfind & Happ & _)];
      [congruence|congruence|].
    exists rid, aid.
    assert (∃ result accessRequests',
              approveRequest d accessRequests rid (u_role approver) (Some aid)
                now = (Returned (Some result), accessRequests')) as Hex
      by eauto.
    apply (proj1 (decision_goes_through_helper_approve d accessRequests rid
                    (u_role approver) (Some aid) now)) in Hex
      as (old & Hget & Hst & Hperm).
    exists approver, old. rewrite Howner in Hperm by done. done.
  - intros (rid & aid & approver & old & Hrid & Hrid' & Haid & Haid' & Hfind
            & Hget & Hst & Hperm).
    destruct (approveAccessRequest_paths d accessRequests requestStates
                requestId approverId now now')
      as [(_ & _ & Hnot)
         | (? & ? & ? & ? & ? & ? & _ & _ & _ & _ & _ & _ & H)];
      [|by rewrite H].
    exfalso. apply Hnot.
    rewrite <- (Howner old aid) in Hperm by done.
    destruct (proj2 (decision_goes_through_helper_approve d accessRequests rid
                       (u_role approver) (Some aid) now))
      as (result & accessRequests' & Happ); [eauto|].
    exists rid, aid, approver, result, accessRequests'. done.
  - intros Hcode.
    destruct (rejectAccessRequest_paths d accessRequests requestStates
                requestId approverId reason now now')
      as [([H|H] & _)
         | (rid & aid & why & approver & request & event & accessRequests'
            & Hrid & Hrid' & Haid & Haid' & Hwhy & Hwhy' & Hlen & Hfind
            & Hrej & _)];
      [congruence|congruence|].
    exists rid, aid, why.
    assert (∃ result accessRequests',
              rejectRequest d accessRequests rid (u_role approver) why
                (Some aid) now = (Returned (Some result), accessRequests'))
      as Hex by eauto.
    apply (proj1 (decision_goes_through_helper_reject d accessRequests rid
                    (u_role approver) why (Some aid) now)) in Hex
      as (old & Hget & Hst & _ & Hperm).
    split_and!; try done.
    exists approver, old. rewrite Howner in Hperm by done. done.
  - intros (rid & aid & why & (approver & old & Hrid & Hrid' & Haid & Haid'
            & Hfind & Hget & Hst & Hperm) & Hwhy & Hwhy' & Hlen).
    destruct (rejectAccessRequest_paths d accessRequests requestStates
                requestId approverId reason now now')
      as [(_ & _ & Hnot)
         | (? & ? & ? & ? & ? & ? & ? & _ & _ & _ & _ & _ & _ & _ & _ & _
            & H)];
      [|by rewrite H].
    exfalso. apply Hnot.
    rewrite <- (Howner old aid) in Hperm by done.
    destruct (proj2 (decision_goes_through_helper_reject d accessRequests rid
                       (u_role approver) why (Some aid) now))
      as (result & accessRequests' & Hrej); [eauto 10|].
    exists rid, aid, why, approver, result, accessRequests'. done.
Qed.

(** ** An accepted decision and the requester's conversation *)

Lemma generateAccessLink_truthy system level project userId target :
  truthy (Some (generateAccessLink system level project userId target)) = true.
Proof.
  unfold generateAccessLink.
  destruct system; repeat case_match; reflexivity.
Qed.

Lemma or_else_Some text other :
  text ≠ "" → or_else (Some text) other = Some text.
Proof.
  intros Hne. unfold or_else.
  by rewrite (proj2 (truthy_Some text) Hne).
Qed.

Lemma owner_may_decide d request role aid :
  aid ≠ "" →
  canApproveRequests d role = true ∨ ar_employeeOwnerId request = Some aid →
  negb (canApproveRequests d role)
  && negb (isEmployeeOwnedRequest request (Some aid)) = false.
Proof.
  intros Haid [-> | Howner]; [done|].
  unfold isEmployeeOwnedRequest. rewrite Howner.
  rewrite (proj2 (truthy_Some aid) Haid).
  rewrite bool_decide_eq_true_2 by done. apply andb_false_r.
Qed.

(** The answer and the stores after an accepted approval. *)
Lemma approveAccessRequest_accepted d (accessRequests : AccessStore)
    (requestStates : StateStore) rid aid approver old now now' :
  rid ≠ "" → aid ≠ "" → now ≠ "" →
  find_user d aid = Some approver →
  Map_get accessRequests rid = Some old →
  ar_status old = pending →
  canApproveRequests d (u_role approver) = true
  ∨ ar_employeeOwnerId old = Some aid →
  let request := markApproved old (u_role approver) (Some aid) now in
  let link :=
    generateAccessLink (ar_system old) (ar_accessLevel old) (ar_project old)
      (Some (ar_userId old)) (ar_targetEmployeeId old) in
  approveAccessRequest d accessRequests requestStates (Some rid) (Some aid)
    now now'
  = ({| statusCode := 200;
        body :=
          DecisionDone request
            (emitApprovalEvent d request aid (u_role approver) link now)
            "Request approved successfully" |},
     (Map_set accessRequests rid request,
      (updateRequestStateFromApproval requestStates (ar_userId old) link
         (Some aid) (Some (u_role approver)) (Some now)).2)).
Proof.
  intros Hrid Haid Hnow Hfind Hget Hst Hperm request link.
  unfold approveAccessRequest.
  rewrite (proj2 (truthy_Some rid) Hrid), (proj2 (truthy_Some aid) Haid).
  cbn [negb orb default from_option id]. rewrite Hfind.
  unfold approveRequest. rewrite Hget.
  rewrite (owner_may_decide d old (u_role approver) aid Haid Hperm).
  rewrite Hst. rewrite bool_decide_eq_true_2 by done.
  rewrite (proj2 (truthy_Some aid) Haid).
  cbn [negb default from_option id ev_accessLink ev_approvedAt
       emitApprovalEvent].
  fold request. fold link.
  assert (or_else (Some link) (Some "") = Some link) as ->
    by (unfold or_else; subst link; by rewrite generateAccessLink_truthy).
  rewrite (or_else_Some now _ Hnow).
  cbn [default from_option id ar_userId markApproved request].
  by destruct (updateRequestStateFromApproval _ _ _ _ _ _).
Qed.

(** The answer and the stores after an accepted rejection. *)
Lemma rejectAccessRequest_accepted d (accessRequests : AccessStore)
    (requestStates : StateStore) rid aid why approver old now now' :
  rid ≠ "" → aid ≠ "" → why ≠ "" → (String.length why ≤ 120)%nat →
  now ≠ "" →
  find_user d aid = Some approver →
  Map_get accessRequests rid = Some old →
  ar_status old = pending →
  canApproveRequests d (u_role approver) = true
  ∨ ar_employeeOwnerId old = Some aid →
  let request := markRejected old (u_role approver) why (Some aid) now in
  rejectAccessRequest d accessRequests requestStates (Some rid) (Some aid)
    (Some why) now now'
  = ({| statusCode := 200;
        body :=
          DecisionDone request
            (emitRejectionEvent d request aid (u_role approver) why now)
            "Request rejected successfully" |},
     (Map_set accessRequests rid request,
      (updateRequestStateFromRejection requestStates (ar_userId old) why
         (Some aid) (Some (u_role approver)) (Some now)).2)).
Proof.
  intros Hrid Haid Hwhy Hlen Hnow Hfind Hget Hst Hperm request.
  unfold rejectAccessRequest.
  rewrite (proj2 (truthy_Some rid) Hrid), (proj2 (truthy_Some aid) Haid),
    (proj2 (truthy_Some why) Hwhy).
  cbn [negb orb default from_option id]. rewrite Hfind.
  assert (Nat.ltb 120 (String.length why) = false) as Hlen'
    by (apply Nat.ltb_ge; lia).
  rewrite Hlen'.
  unfold rejectRequest. rewrite Hget, Hlen'.
  rewrite (owner_may_decide d old (u_role approver) aid Haid Hperm).
  rewrite Hst. rewrite bool_decide_eq_true_2 by done.
  rewrite (proj2 (truthy_Some aid) Haid).
  cbn [negb default from_option id ev_rejectedAt emitRejectionEvent].
  fold request.
  rewrite (or_else_Some now _ Hnow).
  cbn [default from_option id ar_userId markRejected request].
  by destruct (updateRequestStateFromRejection _ _ _ _ _ _).
Qed.

(** X22.  What an accepted decision does.  The ledger entry becomes the
    decided record, and the answer carries it together with the event.  The
    requester's conversation is touched only if it is stored and
    AWAITING_APPROVAL: it then becomes APPROVED with the access link built
    from the ledger record (not from the conversation's own selections),
    or REJECTED with the reason, and records the approver, the role the
    user file gives the approver and the time of the decision, which (for
    a timestamp that is not the empty string) is the time the ledger
    records, not the handler's own clock.  In every other case the state
    store stays as it was. *)
Theorem accepted_decision_reaches_requester d (accessRequests : AccessStore)
    (requestStates : StateStore) rid aid why approver old now now' :
  rid ≠ "" → aid ≠ "" → why ≠ "" → (String.length why ≤ 120)%nat →
  now ≠ "" →
  find_user d aid = Some approver →
  Map_get accessRequests rid = Some old →
  ar_status old = pending →
  canApproveRequests d (u_role approver) = true
  ∨ ar_employeeOwnerId old = Some aid →
  let role := u_role approver in
  let requester := ar_userId old in
  let link :=
    generateAccessLink (ar_system old) (ar_accessLevel old) (ar_project old)
      (Some requester) (ar_targetEmployeeId old) in
  let untouched (states : StateStore) :=
    (∀ state,
       requestStates !! requester = Some state →
       rs_status state ≠ AWAITING_APPROVAL) →
    states = requestStates in
  (∃ request event stores,
     approveAccessRequest d accessRequests requestStates (Some rid) (Some aid)
       now now'
     = ({| statusCode := 200;
           body := DecisionDone request event "Request approved successfully" |},
        stores)
     ∧ stores.1 = Map_set accessRequests rid request
     ∧ request = markApproved old role (Some aid) now
     ∧ ev_accessLink event = Some link
     ∧ ev_approvedAt event = Some now
     ∧ (∀ state,
          requestStates !! requester = Some state →
          rs_status state = AWAITING_APPROVAL →
          ∃ state',
            stores.2 = <[requester := state']> requestStates
            ∧ rs_status state' = APPROVED
            ∧ rs_accessLink state' = Some link
            ∧ rs_approverId state' = Some aid
            ∧ rs_approverRole state' = Some role
            ∧ rs_approvedAt state' = Some now
            ∧ rs_system state' = rs_system state
            ∧ rs_accessLevel state' = rs_accessLevel state)
     ∧ untouched stores.2)
  ∧ (∃ request event stores,
       rejectAccessRequest d accessRequests requestStates (Some rid)
         (Some aid) (Some why) now now'
       = ({| statusCode := 200;
             body :=
               DecisionDone request event "Request rejected successfully" |},
          stores)
       ∧ stores.1 = Map_set accessRequests rid request
       ∧ request = markRejected old role why (Some aid) now
       ∧ ev_rejectionReason event = Some why
       ∧ ev_rejectedAt event = Some now
       ∧ (∀ state,
            requestStates !! requester = Some state →
            rs_status state = AWAITING_APPROVAL →
            ∃ state',
              stores.2 = <[requester := state']> requestStates
              ∧ rs_status state' = REJECTED
              ∧ rs_rejectionReason state' = Some why
              ∧ rs_accessLink state' = None
              ∧ rs_approverId state' = Some aid
              ∧ rs_approverRole state' = Some role
              ∧ rs_rejectedAt state' = Some now
              ∧ rs_system state' = rs_system state
              ∧ rs_accessLevel state' = rs_accessLevel state)
       ∧ untouched stores.2).
Proof.
  intros Hrid Haid Hwhy Hlen Hnow Hfind Hget Hst Hperm role requester link
    untouched.
  split.
  - eexists _, _, _. split.
    { by apply approveAccessRequest_accepted. }
    cbn [fst snd]. fold role requester link.
    split_and!; try reflexivity.
    + intros state Hstate Hwaiting.
      unfold updateRequestStateFromApproval. rewrite Hstate, Hwaiting.
      rewrite bool_decide_eq_true_2 by done. cbn [negb snd].
      eexists. split; [reflexivity|]. done.
    + intros Hnot. unfold updateRequestStateFromApproval.
      destruct (requestStates !! requester) as [state|] eqn:Hstate; [|done].
      by rewrite (bool_decide_eq_false_2 _ (Hnot state eq_refl)).
  - eexists _, _, _. split.
    { by apply rejectAccessRequest_accepted. }
    cbn [fst snd]. fold role requester.
    split_and!; try reflexivity.
    + intros state Hstate Hwaiting.
      unfold updateRequestStateFromRejection. rewrite Hstate, Hwaiting.
      rewrite bool_decide_eq_true_2 by done. cbn [negb snd].
      eexists. split; [reflexivity|]. done.
    + intros Hnot. unfold updateRequestStateFromRejection.
      destruct (requestStates !! requester) as [state|] eqn:Hstate; [|done].
      by rewrite (bool_decide_eq_false_2 _ (Hnot state eq_refl)).
Qed.

(** Bob approves Alice's request for his mailbox while her conversation
    waits: the conversation gets the link to his mailbox. *)
Lemma accepted_decision_reaches_requester_witness :
  let waiting := set_status (aliceMailbox Default) AWAITING_APPROVAL in
  ∃ request event stores state',
    approveAccessRequest sampleData [("req-1", mailboxRequest pending true)]
      {["intern-001" := waiting]} (Some "req-1") (Some "manager-001")
      "2025-01-02T00:00:00.000Z" "2025-01-02T00:00:01.000Z"
    = ({| statusCode := 200;
          body := DecisionDone request event "Request approved successfully" |},
       stores)
    ∧ stores.2 = <["intern-001" := state']> {["intern-001" := waiting]}
    ∧ rs_status state' = APPROVED
    ∧ rs_accessLink state' = Some "mailto:manager-001@company.com"
    ∧ rs_approvedAt state' = Some "2025-01-02T00:00:00.000Z".
Proof.
  intros waiting.
  destruct (accepted_decision_reaches_requester sampleData
              [("req-1", mailboxRequest pending true)]
              {["intern-001" := waiting]} "req-1" "manager-001" "No"
              {| u_id := "manager-001"; u_name := "Bob";
                 u_email := "bob@company.com"; u_role := Manager |}
              (mailboxRequest pending true)
              "2025-01-02T00:00:00.000Z" "2025-01-02T00:00:01.000Z")
    as [(request & event & stores & Heq & _ & _ & _ & _ & Hstate & _) _];
    try discriminate; try reflexivity; [simpl; lia|by left|].
  destruct (Hstate waiting) as (state' & Hstore & Hst & Hlink & _ & _ & Hat & _);
    [reflexivity|reflexivity|].
  exists request, event, stores, state'. done.
Defined.

(** X23.  Filing and approving compose.  Once finalizing has left a
    conversation AWAITING_APPROVAL, an approval through the endpoint under
    the id of the filed request, by a listed user whose role has approval
    rights or who owns the account asked for, is accepted; the conversation
    stored for the requester is then APPROVED with the approver recorded,
    and its access link is the link the self-approval path would have
    written for the same selections. *)
Theorem filed_request_approved_later d accessRequests requestStates state id now
    newState stores aid approver now1 now2 :
  transitionToAwaitingApproval d accessRequests requestStates state id now
  = (Returned newState, stores) →
  rs_status newState = AWAITING_APPROVAL →
  id ≠ "" → aid ≠ "" → now1 ≠ "" →
  find_user d aid = Some approver →
  canApproveRequests d (u_role approver) = true
  ∨ employeeOwnerOf state = Some aid →
  ∃ request event stores' final system level,
    approveAccessRequest d stores.1 stores.2 (Some id) (Some aid) now1 now2
    = ({| statusCode := 200;
          body := DecisionDone request event "Request approved successfully" |},
       stores')
    ∧ Map_get stores'.1 id = Some request
    ∧ ar_status request = approved
    ∧ ar_approverId request = Some aid
    ∧ rs_system state = Some system
    ∧ rs_accessLevel state = Some level
    ∧ stores'.2 !! rs_user state = Some final
    ∧ rs_status final = APPROVED
    ∧ rs_accessLink final
      = Some (generateAccessLink system level (rs_project state)
                (Some (rs_user state)) (rs_targetEmployeeId state))
    ∧ rs_approverId final = Some aid
    ∧ rs_approverRole final = Some (u_role approver)
    ∧ rs_approvedAt final = Some now1.
Proof.
  intros Htrans Hwaiting Hid Haid Hnow Hfind Hperm.
  pose proof (transition_returns _ _ _ _ _ _ _ _ Htrans)
    as (_ & _ & _ & _ & _ & _ & _ & _ & _ & _ & _ & _ & _ & _ & _ & Hstored).
  apply transition_exact in Htrans
    as (system & level & Hsys & Hlevel & Hstores & Hnew).
  cbv zeta in Hstores, Hnew.
  destruct (accountOwned state
            || vr_requiresApproval
                 (validateAccessRequest d (rs_user state) (rs_role state)
                    system level (projectIdOf state))) eqn:Hfinal.
  2: { rewrite Hnew in Hwaiting.
       rewrite (updateRequestState_status _ _ _ APPROVED) in Hwaiting; done. }
  set (old := (createAccessRequest accessRequests
                 (snapshot state (userNameOf d state) system level
                    (projectIdOf state) (projectOwnerOf d state)
                    (employeeOwnerOf state) (primaryApproverOf d state)
                    (Some "admin-001") true) id now).1) in *.
  assert (Map_get stores.1 id = Some old) as Hget
    by (rewrite Hstores; apply Map_get_set_eq).
  pose proof (approveAccessRequest_accepted d stores.1 stores.2 id aid approver
                old now1 now2 Hid Haid Hnow Hfind Hget eq_refl Hperm) as Heq.
  cbv zeta in Heq.
  eexists _, _, _, _, system, level. split; [exact Heq|].
  cbn [fst snd]. split; [apply Map_get_set_eq|].
  unfold updateRequestStateFromApproval.
  change (ar_userId old) with (rs_user state).
  rewrite Hstored, Hwaiting. rewrite bool_decide_eq_true_2 by done.
  cbn [negb snd]. rewrite lookup_insert_eq.
  split_and!; try done.
  cbn [ar_approverId markApproved].
  by rewrite (proj2 (truthy_Some aid) Haid).
Qed.

(** Alice's request for Project Beta on GitHub is filed and then approved
    by Sarah, who manages the project. *)
Lemma filed_request_approved_later_witness :
  ∃ newState stores request event stores' final,
    transitionToAwaitingApproval sampleData [] ∅ (aliceGitHub "Project Beta")
      "req-1" "2025-01-01T00:00:00.000Z"
    = (Returned newState, stores)
    ∧ approveAccessRequest sampleData stores.1 stores.2 (Some "req-1")
        (Some "manager-002") "2025-01-02T00:00:00.000Z"
        "2025-01-02T00:00:01.000Z"
      = ({| statusCode := 200;
            body :=
              DecisionDone request event "Request approved successfully" |},
         stores')
    ∧ stores'.2 !! "intern-001" = Some final
    ∧ rs_status final = APPROVED
    ∧ rs_accessLink final = Some "https://github.com/company/project-beta".
Proof.
  destruct (transitionToAwaitingApproval sampleData [] ∅
              (aliceGitHub "Project Beta") "req-1" "2025-01-01T00:00:00.000Z")
    as [[newState|thrown] stores] eqn:E.
  - destruct (filed_request_approved_later _ _ _ _ _ _ _ _ "manager-002"
                {| u_id := "manager-002"; u_name := "Sarah";
                   u_email := "sarah@company.com"; u_role := Manager |}
                "2025-01-02T00:00:00.000Z" "2025-01-02T00:00:01.000Z" E)
      as (request & event & stores' & final & system & level & Heq & _ & _ & _
          & Hsys & Hlevel & Hfinal & Hst & Hlink & _);
      try discriminate; try reflexivity; [|by left|].
    + vm_compute in E. by injection E as <- _.
    + injection Hsys as <-. injection Hlevel as <-.
      exists newState, stores, request, event, stores', final. done.
  - vm_compute in E. discriminate E.
Defined.

(** ** The escalation endpoint and its timer *)

Local Ltac escalation_refused :=
  simpl; split_and!;
  [ tauto
  | split;
    [ done
    | intros (? & ? & ? & ? & ? & ? & ? & ? & ? & ? & ? & ?); congruence ]
  | intros _; split_and!; [done | done | eauto]
  | intros ? ? ? ? ? ? ? ? ? ? ? ?; congruence ].

(** X24.  The escalation endpoint answers 200, 400 or 404, and 200 exactly
    when user id and project id are given and not empty, system and level
    are given and the project file lists the project; whether the user
    exists, is assigned to the project or is an administrator plays no
    part.  With 200 a pending escalation without justification is stored
    under the new id, addressed to the manager of the project, the answer
    names that manager, and one timer is set for exactly that id and that
    manager; for a user the membership gate turns away, on a user id for
    which the gate returns, this is the manager the gate named.  With any
    other answer the store is unchanged and no timer is set. *)
Theorem escalation_endpoint d (escalationRequests : EscalationStore) userId
    projectId system accessLevel id now :
  let result :=
    handleEscalationRequest d escalationRequests userId projectId system
      accessLevel id now in
  let response := result.1.1 in
  let store := result.1.2 in
  let timer := result.2 in
  (esc_statusCode response = 200 ∨ esc_statusCode response = 400
   ∨ esc_statusCode response = 404)
  ∧ (esc_statusCode response = 200
     ↔ ∃ uid pid sys level project,
         userId = Some uid ∧ uid ≠ "" ∧ projectId = Some pid ∧ pid ≠ ""
         ∧ system = Some sys ∧ accessLevel = Some level
         ∧ find_project d pid = Some project)
  ∧ (esc_statusCode response ≠ 200 →
     store = escalationRequests ∧ timer = None
     ∧ ∃ error, esc_body response = EscalationError error)
  ∧ (∀ uid pid sys level project,
       userId = Some uid → uid ≠ "" → projectId = Some pid → pid ≠ "" →
       system = Some sys → accessLevel = Some level →
       find_project d pid = Some project →
       ∃ record,
         store = <[id := record]> escalationRequests
         ∧ er_id record = id
         ∧ er_userId record = uid ∧ er_projectId record = pid
         ∧ er_system record = sys ∧ er_accessLevel record = level
         ∧ er_status record = pending
         ∧ justification record = None
         ∧ er_escalationTo record = p_managerId project
         ∧ timer = Some (id, p_managerId project)
         ∧ esc_body response
           = EscalationSubmitted id pending
               "Escalation request submitted to project manager. You will be notified of the decision."
               (p_managerId project)
         ∧ (gateThrows d uid = false →
            u_role <$> find_user d uid ≠ Some ITAdministrator →
            includes (default [] (projectAssignments d !! uid)) pid = false →
            managerId (validateProjectAccess d uid pid)
            = Some (er_escalationTo record))).
Proof.
  cbv zeta. unfold handleEscalationRequest.
  destruct system as [sys|]; [|escalation_refused].
  destruct accessLevel as [level|]; [|escalation_refused].
  destruct userId as [uid|]; cbn [truthy negb orb]; [|escalation_refused].
  destruct (String.eqb uid "") eqn:Huid; cbn [negb orb].
  { apply String.eqb_eq in Huid as ->. escalation_refused. }
  apply String.eqb_neq in Huid.
  destruct projectId as [pid|]; cbn [truthy negb orb]; [|escalation_refused].
  destruct (String.eqb pid "") eqn:Hpid; cbn [negb orb].
  { apply String.eqb_eq in Hpid as ->. escalation_refused. }
  apply String.eqb_neq in Hpid.
  change (default "" (Some pid)) with pid.
  change (default "" (Some uid)) with uid.
  destruct (find_project d pid) as [project|] eqn:Hfind;
    [|escalation_refused].
  unfold createEscalationRequest. cbn.
  split_and!; [tauto| |done|].
  - split; [|done]. intros _. exists uid, pid, sys, level, project. done.
  - intros ? ? ? ? project' [= <-] _ [= <-] _ [= <-] [= <-] Hfind'.
    assert (project' = project) as -> by congruence.
    eexists. split; [reflexivity|]. cbn. split_and!; try done.
    intros _ Hrole Hincl.
    rewrite validateProjectAccess_not_assigned by done.
    cbn. by rewrite Hfind.
Qed.

(** X25.  Creating an escalation stores it as pending under its id and
    leaves every other id as it was.  The call the timer then makes, with
    the id and the manager recorded at creation, always finds the record
    and passes the manager test: it resolves the escalation as approved
    when the first random number is above 3/10 and as rejected otherwise,
    with one of the four fixed justifications of that outcome, of at most
    120 characters, and changes nothing else of the record but the time of
    update. *)
Theorem escalation_timer_resolves (escalationRequests : EscalationStore)
    userId projectId system level escalationTo id now random1 random2 now' :
  (0 <= random2)%Q → (random2 < 1)%Q →
  let created :=
    createEscalationRequest escalationRequests userId projectId system level
      escalationTo id now in
  let record := created.1.1 in
  let store := created.1.2 in
  let timer := created.2 in
  getEscalationRequest store id = Some record
  ∧ er_status record = pending
  ∧ (∀ other,
       other ≠ id →
       getEscalationRequest store other
       = getEscalationRequest escalationRequests other)
  ∧ ∃ resolved chosen,
      processManagerDecision store timer.1 timer.2 random1 random2 now'
      = (Some resolved, <[id := resolved]> store)
      ∧ ((3 # 10 < random1)%Q →
         er_status resolved = approved ∧ In chosen justifications_approved)
      ∧ ((random1 <= 3 # 10)%Q →
         er_status resolved = rejected ∧ In chosen justifications_rejected)
      ∧ justification resolved = Some chosen
      ∧ (String.length chosen ≤ 120)%nat
      ∧ er_id resolved = id
      ∧ er_userId resolved = userId ∧ er_projectId resolved = projectId
      ∧ er_system resolved = system ∧ er_accessLevel resolved = level
      ∧ er_escalationTo resolved = escalationTo
      ∧ er_createdAt resolved = now ∧ er_updatedAt resolved = now'.
Proof.
  intros Hge Hlt. cbv zeta. unfold createEscalationRequest.
  cbn [fst snd]. unfold getEscalationRequest.
  split; [apply lookup_insert_eq|]. split; [done|].
  split; [intros other Hne; by apply lookup_insert_ne|].
  unfold processManagerDecision. rewrite lookup_insert_eq.
  cbn [er_escalationTo]. rewrite String.eqb_refl.
  change (negb true) with false. cbv beta iota zeta.
  set (is_approved := negb (Qle_bool random1 (3 # 10))).
  assert (length (if is_approved then justifications_approved
                  else justifications_rejected) = 4%nat) as ->
    by by destruct is_approved.
  pose proof (random_index random2 Hge Hlt) as Hindex.
  change (inject_Z (Z.of_nat 4)) with (inject_Z 4).
  destruct (justification_bounded is_approved _ Hindex)
    as (chosen & Hchosen & Hlen).
  assert ((Qfloor (random2 * inject_Z 4) <? 0)%Z = false) as ->
    by (apply Z.ltb_ge; lia).
  rewrite Hchosen.
  eexists _, chosen. split; [reflexivity|].
  cbn [resolve er_status justification er_id er_userId er_projectId er_system
       er_accessLevel er_escalationTo er_createdAt er_updatedAt].
  assert (In chosen (if is_approved then justifications_approved
                     else justifications_rejected)) as Hin.
  { apply list_elem_of_In. by eapply list_elem_of_lookup_2. }
  split_and!; try done.
  - intros Habove.
    assert (is_approved = true) as Heq.
    { subst is_approved. apply negb_true_iff, not_true_iff_false.
      rewrite Qle_bool_iff. by apply Qlt_not_le. }
    by rewrite Heq in Hin |- *.
  - intros Hbelow.
    assert (is_approved = false) as Heq.
    { subst is_approved. apply negb_false_iff. by apply Qle_bool_iff. }
    by rewrite Heq in Hin |- *.
Qed.

(** An escalation of Alice's request for Project Alpha: with the random
    numbers 1/2 and 1/2 the timer approves it with the third justification. *)
Lemma escalation_timer_resolves_witness :
  let created :=
    createEscalationRequest ∅ "intern-001" "project-1" GitHub ReadOnly
      "manager-001" "escalation-1" "2025-01-01T00:00:00.000Z" in
  ∃ resolved,
    processManagerDecision created.1.2 created.2.1 created.2.2 (1 # 2) (1 # 2)
      "2025-01-01T00:00:02.000Z"
    = (Some resolved, <["escalation-1" := resolved]> created.1.2)
    ∧ er_status resolved = approved
    ∧ justification resolved
      = Some "Approved based on project requirements.".
Proof.
  intros created.
  destruct (escalation_timer_resolves ∅ "intern-001" "project-1" GitHub
              ReadOnly "manager-001" "escalation-1" "2025-01-01T00:00:00.000Z"
              (1 # 2) (1 # 2) "2025-01-01T00:00:02.000Z")
    as (_ & _ & _ & resolved & chosen & Heq & Happroved & _ & Hjust & _);
    [discriminate|reflexivity|].
  exists resolved. split; [exact Heq|].
  split; [by apply Happroved|].
  revert Heq. vm_compute. by intros [= <-].
Defined.

(** ** The response texts *)

Lemma length_append (a b : string) :
  String.length (a +:+ b) = (String.length a + String.length b)%nat.
Proof.
  induction a as [|x a IH]; [reflexivity|].
  change (S (String.length (a +:+ b))
          = S (String.length a + String.length b)).
  by rewrite IH.
Qed.

Lemma length_substring_0 (n : nat) (text : string) :
  (n ≤ String.length text)%nat →
  String.length (String.substring 0 n text) = n.
Proof.
  revert text. induction n as [|n IH]; intros text Hlen.
  - by destruct text.
  - destruct text as [|x text]; [cbn in Hlen; lia|].
    change (S (String.length (String.substring 0 n text)) = S n).
    rewrite IH; [done|]. cbn in Hlen. lia.
Qed.

Lemma substring_0_append (a b : string) (n : nat) :
  String.length a = n → String.substring 0 n (a +:+ b) = a.
Proof.
  revert n. induction a as [|x a IH]; intros n Hlen.
  - cbn in Hlen. subst n. by destruct b.
  - cbn in Hlen. subst n.
    change (String x (String.substring 0 (String.length a) (a +:+ b))
            = String x a).
    by rewrite IH.
Qed.

Lemma substring_after_append (a b : string) (n m : nat) :
  String.length a = n →
  String.substring n m (a +:+ b) = String.substring 0 m b.
Proof.
  revert n. induction a as [|x a IH]; intros n Hlen.
  - cbn in Hlen. by subst n.
  - cbn in Hlen. subst n.
    change (String.substring (String.length a) m (a +:+ b)
            = String.substring 0 m b).
    by apply IH.
Qed.

Lemma truncateMessage_short text :
  (String.length text ≤ 120)%nat → truncateMessage text = text.
Proof.
  intros Hlen. unfold truncateMessage.
  by rewrite (proj2 (Nat.leb_le _ _) Hlen).
Qed.

Lemma truncateMessage_long text :
  (120 < String.length text)%nat →
  truncateMessage text = String.substring 0 117 text +:+ "..."
  ∧ String.length (truncateMessage text) = 120%nat.
Proof.
  intros Hlen. unfold truncateMessage.
  rewrite (proj2 (Nat.leb_gt _ _) Hlen). split; [done|].
  rewrite length_append, length_substring_0 by lia. reflexivity.
Qed.

Lemma truncateMessage_length text :
  (String.length (truncateMessage text) ≤ 120)%nat.
Proof.
  destruct (Nat.le_gt_cases (String.length text) 120) as [Hle|Hgt].
  - by rewrite truncateMessage_short.
  - by rewrite (proj2 (truncateMessage_long text Hgt)).
Qed.

Lemma truncateInline_eq text : truncateInline text = truncateMessage text.
Proof.
  unfold truncateInline, truncateMessage.
  destruct (Nat.le_gt_cases (String.length text) 120) as [Hle|Hgt].
  - rewrite (proj2 (Nat.leb_le _ _) Hle).
    by rewrite (proj2 (Nat.ltb_ge _ _) Hle).
  - rewrite (proj2 (Nat.leb_gt _ _) Hgt).
    by rewrite (proj2 (Nat.ltb_lt _ _) Hgt).
Qed.

(** X26.  [truncateMessage] never returns more than 120 characters.  A text
    of at most 120 characters is returned as it is; a longer one becomes
    exactly 120 characters, its first 117 followed by three dots.
    Truncating twice is truncating once, and the truncation written out
    inline in two of the generators is the same function. *)
Theorem truncation_law text :
  (String.length (truncateMessage text) ≤ 120)%nat
  ∧ ((String.length text ≤ 120)%nat → truncateMessage text = text)
  ∧ ((120 < String.length text)%nat →
     String.length (truncateMessage text) = 120%nat
     ∧ String.substring 0 117 (truncateMessage text)
       = String.substring 0 117 text
     ∧ String.substring 117 3 (truncateMessage text) = "...")
  ∧ truncateMessage (truncateMessage text) = truncateMessage text
  ∧ truncateInline text = truncateMessage text.
Proof.
  split_and!.
  - apply truncateMessage_length.
  - apply truncateMessage_short.
  - intros Hlen. destruct (truncateMessage_long text Hlen) as [-> Hlen'].
    assert (String.length (String.substring 0 117 text) = 117%nat) as H117
      by (apply length_substring_0; lia).
    split_and!.
    + rewrite length_append, H117. reflexivity.
    + by apply substring_0_append.
    + by rewrite (substring_after_append _ _ 117 3 H117).
  - apply truncateMessage_short, truncateMessage_length.
  - apply truncateInline_eq.
Qed.

(** X27.  Every response the generators build has a message of at most 120
    characters, and it asks for clarification exactly when it carries a
    clarification question. *)
Theorem responses_within_limit d validationResult userRole system level
    projectName projectName' assignedApproverId targetEmployeeId managerId
    field state updates requiresApproval :
  let ok (response : AIResponse) :=
    (String.length (ai_message response) ≤ 120)%nat
    ∧ needsClarification response
      = bool_decide (is_Some (clarificationQuestion response)) in
  ok (explainDecision d validationResult userRole system level projectName
        assignedApproverId targetEmployeeId)
  ∧ ok (generateEscalationMessage d system level projectName' managerId)
  ∧ ok (generateQuestionForMissingField field state)
  ∧ ok (generateStateAwareResponse d state updates requiresApproval
          assignedApproverId)
  ∧ ok (generateValidationError field state)
  ∧ ok generateWelcomeMessage.
Proof.
  intros ok.
  assert (∀ text question why,
            ok {| ai_message := truncateMessage text;
                  needsClarification := true;
                  clarificationQuestion := Some question;
                  reasoning := why |}) as Hasks
    by (intros; split; [apply truncateMessage_length|reflexivity]).
  assert (∀ text why,
            ok {| ai_message := truncateMessage text;
                  needsClarification := false;
                  clarificationQuestion := None;
                  reasoning := why |}) as Htells
    by (intros; split; [apply truncateMessage_length|reflexivity]).
  assert (∀ field state, ok (generateQuestionForMissingField field state))
    as Hquestion.
  { intros. unfold generateQuestionForMissingField.
    rewrite truncateInline_eq. apply Hasks. }
  split_and!.
  - unfold explainDecision, generateEscalationMessage.
    repeat match goal with
           | |- ok (if ?c then _ else _) => destruct c
           end; by auto.
  - apply Hasks.
  - apply Hquestion.
  - unfold generateStateAwareResponse.
    repeat match goal with
           | |- ok (if ?c then _ else _) => destruct c
           end; rewrite ?truncateInline_eq; by auto.
  - apply Hasks.
  - apply Hasks.
Qed.

(** An update that names no role, system, level, project or target
    employee leaves the list of missing fields as it was. *)
Lemma updateRequestState_keeps_missing requestStates s u :
  upd_role u = None → upd_system u = None → upd_accessLevel u = None →
  upd_project u = None → upd_targetEmployeeId u = None →
  calculateMissingFields (updateRequestState requestStates s u).1
  = calculateMissingFields s.
Proof.
  intros Hrole Hsystem Hlevel Hproject Htarget.
  destruct (updateRequestState_copied requestStates s u)
    as (_ & Hr & Hs & Ht & _).
  destruct (updateRequestState_same_system requestStates s u
              (or_introl Hsystem)) as (Hl & Hp).
  rewrite Hrole in Hr. rewrite Hsystem in Hs. rewrite Htarget in Ht.
  rewrite Hlevel in Hl. rewrite Hproject in Hp.
  rewrite !calculateMissingFields_eq.
  unfold needsSystem, needsTargetEmployee, needsProject, needsAccessLevel.
  by rewrite Hr, Hs, Ht, Hl, Hp.
Qed.

(** A state that [processStateUpdate] returns with a field missing is the
    state [updateRequestState] returned: the auto-submission did not take
    place. *)
Lemma processStateUpdate_missing d accessRequests requestStates state updates
    id now :
  let result :=
    processStateUpdate d accessRequests requestStates state updates id now in
  calculateMissingFields result.1 ≠ [] →
  result
  = ((updateRequestState requestStates state updates).1,
     (accessRequests, (updateRequestState requestStates state updates).2)).
Proof.
  cbv zeta. intros Hmissing.
  destruct (processStateUpdate_cases d accessRequests requestStates state
              updates id now)
    as [Heq | (newState & stores & _ & Htrans & Heq)]; [done|].
  exfalso. apply Hmissing. rewrite Heq. cbn [fst].
  pose proof (transition_returns _ _ _ _ _ _ _ _ Htrans)
    as (system' & level' & request & _ & Hcomplete & _).
  apply transition_exact in Htrans as (system & level & _ & _ & _ & ->).
  cbv zeta.
  destruct (accountOwned _ || vr_requiresApproval _);
    by rewrite updateRequestState_keeps_missing.
Qed.

(** The texts of the two generators for a missing field. *)
Lemma question_texts field state :
  In (ai_message (generateQuestionForMissingField field state))
    [ "Which system? (Email, GitHub, or Jira)";
      "Whose email access do you need?";
      "Whose Jira account do you need access to?";
      "Which project or repository? (Alpha or Beta)";
      "Which Jira project? (Alpha or Beta)";
      "What access level? (read-only, read-write, or admin)";
      "What role? (viewer, contributor, or admin)";
      "Please provide more information." ].
Proof.
  unfold generateQuestionForMissingField. cbn [ai_message].
  repeat match goal with
         | |- In (truncateInline (if ?c then _ else _)) _ => destruct c
         end; vm_compute; tauto.
Qed.

Lemma validation_texts field state :
  In (ai_message (generateValidationError field state))
    [ "System selection required. Choose Email, GitHub, or Jira.";
      "Email owner required. Whose email access do you need?";
      "Account owner required. Whose Jira account do you need access to?";
      "GitHub requires a project. Which project or repository? (Alpha or Beta)";
      "Jira project required. Which project? (Alpha or Beta)";
      "Access level required. Choose read-only, read-write, or admin.";
      "Role required. Choose viewer, contributor, or admin.";
      "Missing required field. Please provide more information." ].
Proof.
  unfold generateValidationError. cbn [ai_message].
  repeat match goal with
         | |- In (truncateMessage (if ?c then _ else _)) _ => destruct c
         end; vm_compute; tauto.
Qed.

(** The validation text for the first missing field of a state. *)
Lemma first_missing_field_text state :
  calculateMissingFields state ≠ [] →
  ∃ field,
    head (calculateMissingFields state) = Some field
    ∧ nextAction (validateRequestState state) = "Need: " +:+ field
    ∧ default "" (head (sv_missingFields (validateRequestState state))) = field
    ∧ sv_isValid (validateRequestState state) = false
    ∧ reasoning (generateValidationError field state)
      = Some ("Validation failed: " +:+ field
              +:+ " is required but not provided.")
    ∧ let response := ai_message (generateValidationError field state) in
      (rs_system state = None →
       response = "System selection required. Choose Email, GitHub, or Jira.")
      ∧ (needsTargetEmployee state = true →
         (rs_system state = Some Email
          ∧ response = "Email owner required. Whose email access do you need?")
         ∨ (rs_system state = Some Jira
            ∧ response
              = "Account owner required. Whose Jira account do you need access to?"))
      ∧ (needsProject state = true →
         response
         = "GitHub requires a project. Which project or repository? (Alpha or Beta)")
      ∧ (needsSystem state = false → needsTargetEmployee state = false →
         needsProject state = false →
         (rs_system state = Some Jira
          ∧ response = "Role required. Choose viewer, contributor, or admin.")
         ∨ (rs_system state ≠ Some Jira
            ∧ response
              = "Access level required. Choose read-only, read-write, or admin."))
      ∧ response ≠ "Jira project required. Which project? (Alpha or Beta)"
      ∧ response ≠ "Missing required field. Please provide more information.".
Proof.
  intros Hmissing.
  assert (sv_missingFields (validateRequestState state)
          = calculateMissingFields state) as Hlist by done.
  assert (nextAction (validateRequestState state)
          = match calculateMissingFields state with
            | first :: _ => "Need: " +:+ first
            | [] => "Ready to submit"
            end) as Haction by done.
  assert (sv_isValid (validateRequestState state)
          = bool_decide (length (calculateMissingFields state) = 0%nat))
    as Hvalid by done.
  rewrite Hlist, Haction, Hvalid. clear Hlist Haction Hvalid.
  revert Hmissing. rewrite calculateMissingFields_eq.
  unfold needsSystem, needsTargetEmployee, needsProject, needsAccessLevel,
    generateValidationError.
  destruct (rs_system state) as [[]|], (rs_accessLevel state) as [level|],
    (rs_role state), (rs_project state) as [project|],
    (rs_targetEmployeeId state) as [target|];
    cbn; try destruct (String.eqb project "");
    try destruct (String.eqb target ""); cbn;
    intros Hmissing; try done;
    eexists; (split; [reflexivity|]); cbn;
    split_and!; try done; try discriminate; intros; try done;
    (by left) || (by right).
Qed.

(** The rest of the handler on a conversation that is not decided: a 200
    answer with a missing field carries the validation text for the first
    missing field, and its state is not decided either. *)
Lemma applyIntent_missing d accessRequests requestStates state parsed id now
    newState response action why stores :
  rs_status state ≠ APPROVED → rs_status state ≠ REJECTED →
  applyIntent d accessRequests requestStates state parsed id now
  = ({| us_statusCode := 200;
        us_body := UpdateDone newState response action why |}, stores) →
  calculateMissingFields newState ≠ [] →
  rs_status newState ≠ APPROVED ∧ rs_status newState ≠ REJECTED
  ∧ action = nextAction (validateRequestState newState)
  ∧ response
    = ai_message
        (generateValidationError
           (default "" (head (sv_missingFields (validateRequestState newState))))
           newState)
  ∧ why
    = reasoning
        (generateValidationError
           (default "" (head (sv_missingFields (validateRequestState newState))))
           newState).
Proof.
  intros Happroved Hrejected Hcall Hmissing. revert Hcall.
  unfold applyIntent. cbv zeta.
  pose proof (processStateUpdate_missing d accessRequests requestStates state
                (updatesOf (parseIntentFromMessage parsed)) id now) as Hproc.
  cbv zeta in Hproc.
  destruct (processStateUpdate d accessRequests requestStates state
              (updatesOf (parseIntentFromMessage parsed)) id now)
    as [updated [accessRequests' requestStates']].
  cbn [fst] in Hproc.
  destruct (first_missing_field_text newState Hmissing)
    as (field & _ & _ & _ & Hinvalid & _).
  destruct (sv_isValid (validateRequestState updated)) eqn:Hvalid;
    cbn [negb].
  - destruct (bool_decide (agentConfidence updated = LOW) && _ && _);
      [intros [= -> _ _ _ _]; congruence|].
    destruct (_ && gateThrows d (rs_user updated)); [done|].
    intros [= -> _ _ _ _]; congruence.
  - intros [= -> <- <- <- _]. split_and!; try done.
    + injection (Hproc Hmissing) as -> _ _.
      rewrite updateRequestState_status_eq. cbn [updatesOf upd_status default].
      destruct (bool_decide (rs_status state = DRAFT) && _); done.
    + injection (Hproc Hmissing) as -> _ _.
      rewrite updateRequestState_status_eq. cbn [updatesOf upd_status default].
      destruct (bool_decide (rs_status state = DRAFT) && _); done.
Qed.

(** X28.  What the state update endpoint answers while a field is missing,
    whatever [parseIntent] read from the message.  A 200 answer whose
    state has a missing field is one of two.  Either the message named no
    system and the state returned is decided (APPROVED or REJECTED): the
    next action is "Need: system" and the response is the one
    [generateStateAwareResponse] gives for that state.  Or the state
    returned is not decided, the next action names its first missing field
    and the response is the validation text for that field: the system
    when none is chosen, then the account owner (Email and Jira), then the
    project (GitHub), then the level.  In this second case the text for a
    Jira project and the catch-all text are never sent, and the response
    is none of the questions of [generateQuestionForMissingField]. *)
Theorem missing_field_is_answered_with_validation_text d accessRequests
    requestStates userId currentState message parsed id now newState response
    action why stores :
  handleRequestStateUpdate d accessRequests requestStates userId currentState
    message parsed id now
  = ({| us_statusCode := 200;
        us_body := UpdateDone newState response action why |}, stores) →
  calculateMissingFields newState ≠ [] →
  ((rs_status newState = APPROVED ∨ rs_status newState = REJECTED)
   ∧ pi_system parsed = None
   ∧ action = "Need: system"
   ∧ response
     = ai_message (generateStateAwareResponse d newState no_updates None None))
  ∨ (rs_status newState ≠ APPROVED ∧ rs_status newState ≠ REJECTED
     ∧ ∃ field,
         head (calculateMissingFields newState) = Some field
         ∧ action = "Need: " +:+ field
         ∧ response = ai_message (generateValidationError field newState)
         ∧ why
           = Some ("Validation failed: " +:+ field
                   +:+ " is required but not provided.")
         ∧ (rs_system newState = None →
            response
            = "System selection required. Choose Email, GitHub, or Jira.")
         ∧ (needsTargetEmployee newState = true →
            (rs_system newState = Some Email
             ∧ response
               = "Email owner required. Whose email access do you need?")
            ∨ (rs_system newState = Some Jira
               ∧ response
                 = "Account owner required. Whose Jira account do you need access to?"))
         ∧ (needsProject newState = true →
            response
            = "GitHub requires a project. Which project or repository? (Alpha or Beta)")
         ∧ (needsSystem newState = false →
            needsTargetEmployee newState = false →
            needsProject newState = false →
            (rs_system newState = Some Jira
             ∧ response
               = "Role required. Choose viewer, contributor, or admin.")
            ∨ (rs_system newState ≠ Some Jira
               ∧ response
                 = "Access level required. Choose read-only, read-write, or admin."))
         ∧ response ≠ "Jira project required. Which project? (Alpha or Beta)"
         ∧ response
           ≠ "Missing required field. Please provide more information."
         ∧ ∀ other,
             response
             ≠ ai_message (generateQuestionForMissingField other newState)).
Proof.
  intros Hcall Hmissing.
  assert (rs_status newState ≠ APPROVED → rs_status newState ≠ REJECTED →
          action = nextAction (validateRequestState newState) →
          response
          = ai_message
              (generateValidationError
                 (default ""
                    (head (sv_missingFields (validateRequestState newState))))
                 newState) →
          why
          = reasoning
              (generateValidationError
                 (default ""
                    (head (sv_missingFields (validateRequestState newState))))
                 newState) →
          rs_status newState ≠ APPROVED ∧ rs_status newState ≠ REJECTED
          ∧ ∃ field,
              head (calculateMissingFields newState) = Some field
              ∧ action = "Need: " +:+ field
              ∧ response = ai_message (generateValidationError field newState)
              ∧ why
                = Some ("Validation failed: " +:+ field
                        +:+ " is required but not provided.")
              ∧ (rs_system newState = None →
                 response
                 = "System selection required. Choose Email, GitHub, or Jira.")
              ∧ (needsTargetEmployee newState = true →
                 (rs_system newState = Some Email
                  ∧ response
                    = "Email owner required. Whose email access do you need?")
                 ∨ (rs_system newState = Some Jira
                    ∧ response
                      = "Account owner required. Whose Jira account do you need access to?"))
              ∧ (needsProject newState = true →
                 response
                 = "GitHub requires a project. Which project or repository? (Alpha or Beta)")
              ∧ (needsSystem newState = false →
                 needsTargetEmployee newState = false →
                 needsProject newState = false →
                 (rs_system newState = Some Jira
                  ∧ response
                    = "Role required. Choose viewer, contributor, or admin.")
                 ∨ (rs_system newState ≠ Some Jira
                    ∧ response
                      = "Access level required. Choose read-only, read-write, or admin."))
              ∧ response
                ≠ "Jira project required. Which project? (Alpha or Beta)"
              ∧ response
                ≠ "Missing required field. Please provide more information."
              ∧ ∀ other,
                  response
                  ≠ ai_message
                      (generateQuestionForMissingField other newState))
    as Hanswer.
  { intros Ha Hr Haction Hresponse Hwhy.
    destruct (first_missing_field_text newState Hmissing)
      as (field & Hhead & Hnext & Hfield & _ & Hreason & Htexts).
    cbv zeta in Htexts. rewrite Hfield in Hresponse, Hwhy.
    rewrite <- Hresponse in Htexts.
    destruct Htexts as (H1 & H2 & H3 & H4 & H5 & H6).
    split; [done|]. split; [done|]. exists field.
    split_and!; try done; try congruence.
    intros other Heq.
    pose proof (validation_texts field newState) as Hv.
    pose proof (question_texts other newState) as Hq.
    rewrite <- Hresponse in Hv. rewrite <- Heq in Hq.
    cbn [In] in Hv, Hq.
    repeat match goal with
           | H : _ ∨ _ |- _ => destruct H
           | H : False |- _ => destruct H
           end; congruence. }
  revert Hcall. unfold handleRequestStateUpdate.
  destruct (negb (truthy userId) || negb (truthy message)); [done|].
  cbv zeta.
  destruct (find_user d (default "" userId)) as [user|]; [|done].
  destruct (match
              match currentState with
              | Some sent => Some sent
              | None => getRequestState requestStates (default "" userId)
              end
            with
            | Some state => (state, requestStates)
            | None =>
              initializeRequestState requestStates (default "" userId)
                (u_role user)
            end) as [state0 requestStates0].
  destruct (bool_decide (rs_status state0 = APPROVED)
            || bool_decide (rs_status state0 = REJECTED)) eqn:Hdecided;
    cbn [andb].
  - destruct (bool_decide (is_Some (pi_system parsed))) eqn:Hnamed;
      cbn [negb].
    + unfold resetRequestState. intros Hcall. right.
      apply applyIntent_missing in Hcall as (Ha & Hr & H1 & H2 & H3);
        [by apply Hanswer|done..].
    + intros [= <- <- <- <- <-]. left.
      apply bool_decide_eq_false in Hnamed.
      assert (pi_system parsed = None) as Hnone
        by (destruct (pi_system parsed); [exfalso; eauto | done]).
      apply orb_true_iff in Hdecided as [H|H];
        apply bool_decide_eq_true in H; split_and!; auto.
  - intros Hcall. right.
    apply orb_false_iff in Hdecided as [Ha Hr].
    apply bool_decide_eq_false in Ha, Hr.
    apply applyIntent_missing in Hcall as (Ha' & Hr' & H1 & H2 & H3);
      [by apply Hanswer|done..].
Qed.

(** Alice, on her first visit, writes a message that names GitHub and
    nothing else: she is told that GitHub requires a project. *)
Lemma missing_field_is_answered_with_validation_text_witness :
  let parsed :=
    {| pi_system := Some GitHub; pi_accessLevel := None; pi_project := None;
       pi_projectId := None; pi_targetEmployeeId := None |} in
  ∃ newState action why stores,
    handleRequestStateUpdate sampleData [] ∅ (Some "intern-001") None
      (Some "I need GitHub") parsed "req-1" "2025-01-01T00:00:00.000Z"
    = ({| us_statusCode := 200;
          us_body :=
            UpdateDone newState
              "GitHub requires a project. Which project or repository? (Alpha or Beta)"
              action why |}, stores)
    ∧ action = "Need: project"
    ∧ rs_status newState = IN_PROGRESS.
Proof.
  intros parsed.
  destruct (handleRequestStateUpdate sampleData [] ∅ (Some "intern-001") None
              (Some "I need GitHub") parsed "req-1" "2025-01-01T00:00:00.000Z")
    as [[code [error|newState response action why]] stores] eqn:E;
    [vm_compute in E; discriminate E|].
  assert (code = 200%nat) as -> by (vm_compute in E; congruence).
  assert (newState
          = (updateRequestState ∅
               (createInitialRequestState "intern-001" Intern)
               (updatesOf (parseIntentFromMessage parsed))).1) as Hnew
    by (vm_compute in E |- *; congruence).
  destruct (missing_field_is_answered_with_validation_text _ _ _ _ _ _ _ _ _
              _ _ _ _ _ E)
    as [(Hdecided & _) | (_ & _ & field & Hhead & Haction & _ & _ & _ & _
                          & Hproject & _)].
  - rewrite Hnew. vm_compute. discriminate.
  - destruct Hdecided as [H|H]; rewrite Hnew in H; vm_compute in H;
      discriminate H.
  - exists newState, action, why, stores.
    rewrite <- Hproject by (rewrite Hnew; reflexivity).
    split; [reflexivity|]. split.
    + rewrite Haction. rewrite Hnew in Hhead. vm_compute in Hhead.
      by injection Hhead as <-.
    + rewrite Hnew. reflexivity.
Defined.

(** ** Recovery and the requester's history *)

(** X29.  Recovery always returns and stores an IN_PROGRESS state, from
    whatever status, also from AWAITING_APPROVAL, APPROVED and REJECTED, for
    which [canTransition] does not allow the step: the table is not
    consulted.  A system key that carries a system other than the current
    one takes effect and clears the level, so a level corrected in the same
    call is lost.  A system key present with undefined erases the system
    and leaves the state IN_PROGRESS without one.  Otherwise the system
    stays.  Where the system is not replaced by another one, the project
    stays and the level is the one the level key carries, none when that
    key is present with undefined, and the old one when the key is absent.
    The target employee and what an earlier decision recorded (link,
    rejection reason, approver) are kept. *)
Theorem recovery_reopens (requestStates : StateStore) state level system :
  let result := handleRecovery requestStates state level system in
  let level_as_corrected :=
    rs_accessLevel result.1
    = match level with
      | absent => rs_accessLevel state
      | given value => value
      end in
  rs_status result.1 = IN_PROGRESS
  ∧ rs_user result.1 = rs_user state
  ∧ result.2 !! rs_user state = Some result.1
  ∧ (canTransition (rs_status state) IN_PROGRESS = false
     ↔ rs_status state = AWAITING_APPROVAL ∨ rs_status state = APPROVED
       ∨ rs_status state = REJECTED)
  ∧ (∀ sys,
       system = given (Some sys) → rs_system state ≠ Some sys →
       rs_system result.1 = Some sys
       ∧ rs_accessLevel result.1 = None
       ∧ "accessLevel" ∈ missingFields result.1)
  ∧ (system = given None →
     rs_system result.1 = None
     ∧ "system" ∈ missingFields result.1
     ∧ level_as_corrected
     ∧ rs_project result.1 = rs_project state)
  ∧ (system = absent ∨ system = given (rs_system state) →
     rs_system result.1 = rs_system state
     ∧ level_as_corrected
     ∧ rs_project result.1 = rs_project state)
  ∧ rs_targetEmployeeId result.1 = rs_targetEmployeeId state
  ∧ rs_accessLink result.1 = rs_accessLink state
  ∧ rs_rejectionReason result.1 = rs_rejectionReason state
  ∧ rs_approverId result.1 = rs_approverId state.
Proof.
  cbv zeta. unfold handleRecovery.
  set (state' := undefinedKeys state level system).
  set (u := {| upd_user := None; upd_role := None;
               upd_system := definedKey system;
               upd_accessLevel := definedKey level; upd_project := None;
               upd_targetEmployeeId := None; upd_status := Some IN_PROGRESS;
               upd_agentConfidence := None; upd_missingFields := None;
               upd_accessLink := None; upd_rejectionReason := None;
               upd_approverId := None; upd_approverRole := None;
               upd_approvedAt := None; upd_rejectedAt := None |}).
  destruct (updateRequestState_copied requestStates state' u)
    as (Huser & _ & Hsys & Htarget & Hlink & Hreason & Happrover & _).
  cbn [u state' undefinedKeys rs_user rs_targetEmployeeId rs_accessLink
       rs_rejectionReason rs_approverId upd_user upd_targetEmployeeId
       upd_accessLink upd_rejectionReason upd_approverId default from_option]
    in Huser, Htarget, Hlink, Hreason, Happrover.
  assert (∀ value,
            level = given value ∨ (level = absent ∧ value = rs_accessLevel state) →
            from_option Some (rs_accessLevel state') (upd_accessLevel u)
            = value) as Hlevel_spread.
  { intros value [-> | [-> ->]]; [by destruct value | done]. }
  assert (from_option Some (rs_accessLevel state') (upd_accessLevel u)
          = match level with
            | absent => rs_accessLevel state
            | given value => value
            end) as Hspread
    by (destruct level as [|value]; [by apply Hlevel_spread; right
                                     | by apply Hlevel_spread; left]).
  clear Hlevel_spread.
  split_and!; try done.
  - by apply (updateRequestState_status _ _ u IN_PROGRESS).
  - rewrite <- Huser. apply updateRequestState_stored.
  - unfold canTransition, validateStateTransition.
    destruct (rs_status state); cbn; split; intros H; try done;
      try (destruct H as [H | [H | H]]; discriminate H); auto.
  - intros sys Hgiven Hne.
    assert (upd_system u = Some sys) as Hu by (subst u; by rewrite Hgiven).
    assert (rs_system state' ≠ Some sys) as Hne'
      by (subst state'; by rewrite Hgiven).
    destruct (updateRequestState_other_system requestStates state' u sys
                Hu Hne') as (Hlevel & _).
    split_and!; try done.
    + by rewrite Hsys, Hu.
    + rewrite updateRequestState_missingFields.
      apply missing_membership. by apply needsAccessLevel_true.
  - intros Hgiven.
    assert (upd_system u = None) as Hu by (subst u; by rewrite Hgiven).
    destruct (updateRequestState_same_system requestStates state' u
                (or_introl Hu)) as (Hlevel & Hproject).
    assert (rs_system (updateRequestState requestStates state' u).1 = None)
      as Hnone by (rewrite Hsys, Hu; subst state'; by rewrite Hgiven).
    split_and!; try done.
    + rewrite updateRequestState_missingFields.
      apply missing_membership. apply needsSystem_true. by rewrite Hnone.
    + by rewrite Hlevel.
  - intros Hsame.
    assert (upd_system u = None ∨ upd_system u = rs_system state') as Hu.
    { subst u state'. destruct Hsame as [-> | ->]; [by left|].
      destruct (rs_system state) eqn:Hcur; cbn; rewrite ?Hcur;
        [by right | by left]. }
    assert (rs_system state' = rs_system state) as Hkept.
    { subst state'. destruct Hsame as [-> | ->]; [done|].
      destruct (rs_system state) eqn:Hcur; cbn; by rewrite ?Hcur. }
    destruct (updateRequestState_same_system requestStates state' u Hu)
      as (Hlevel & Hproject).
    split_and!; try done.
    + rewrite Hsys, Hkept. destruct Hu as [-> | ->]; [done|].
      rewrite Hkept. by destruct (rs_system state).
    + by rewrite Hlevel.
Qed.

(** A correction [{ accessLevel: 'read-write', system: undefined }] on
    Alice's mailbox request erases the system and records the level. *)
Example recovery_with_undefined_system :
  let result :=
    handleRecovery ∅ (aliceMailbox Default) (given (Some ReadWrite))
      (given None) in
  rs_status result.1 = IN_PROGRESS
  ∧ rs_system result.1 = None
  ∧ rs_accessLevel result.1 = Some ReadWrite.
Proof. cbv zeta. split_and!; reflexivity. Qed.

Lemma getUserAccessRequests_app (m1 m2 : AccessStore) userId :
  getUserAccessRequests (m1 ++ m2) userId
  = getUserAccessRequests m1 userId ++ getUserAccessRequests m2 userId.
Proof.
  unfold getUserAccessRequests, Map_values.
  by rewrite map_app, List.filter_app.
Qed.

(** What replacing the record under a known id by a record of the same
    requester does to a requester's history. *)
Lemma history_after_replacement (accessRequests : AccessStore) requestId old
    new userId :
  Map_get accessRequests requestId = Some old →
  ar_userId new = ar_userId old →
  ∃ before after,
    Map_values accessRequests = before ++ old :: after
    ∧ getUserAccessRequests (Map_set accessRequests requestId new) userId
      = List.filter (fun req => String.eqb (ar_userId req) userId) before
        ++ (if String.eqb (ar_userId old) userId then [new] else [])
        ++ List.filter (fun req => String.eqb (ar_userId req) userId) after
    ∧ getUserAccessRequests accessRequests userId
      = List.filter (fun req => String.eqb (ar_userId req) userId) before
        ++ (if String.eqb (ar_userId old) userId then [old] else [])
        ++ List.filter (fun req => String.eqb (ar_userId req) userId) after.
Proof.
  intros Hget Huser.
  destruct (Map_set_values accessRequests requestId new old Hget)
    as (before & after & Hvalues & Hvalues').
  exists before, after. unfold getUserAccessRequests.
  rewrite Hvalues, Hvalues', !List.filter_app. cbn [List.filter].
  rewrite Huser. by destruct (String.eqb (ar_userId old) userId).
Qed.

(** X30.  A requester's history only grows.  Filing under a fresh id
    appends the request to the history of its requester and changes no
    other user's history.  An accepted approval or rejection keeps every
    history at its length: in the history of the requester the decided
    record takes the place of the pending one, and the history of every
    other user is the same list as before. *)
Theorem history_only_grows d (accessRequests : AccessStore) request id now
    requestId role reason approverId userId :
  let same_length (accessRequests' : AccessStore) (old new : AccessRequest) :=
    length (getUserAccessRequests accessRequests' userId)
    = length (getUserAccessRequests accessRequests userId)
    ∧ In new (getUserAccessRequests accessRequests' (ar_userId old))
    ∧ (userId ≠ ar_userId old →
       getUserAccessRequests accessRequests' userId
       = getUserAccessRequests accessRequests userId) in
  (getAccessRequest accessRequests id = None →
   let filed := createAccessRequest accessRequests request id now in
   getUserAccessRequests filed.2 (ar_userId request)
   = getUserAccessRequests accessRequests (ar_userId request) ++ [filed.1]
   ∧ (userId ≠ ar_userId request →
      getUserAccessRequests filed.2 userId
      = getUserAccessRequests accessRequests userId))
  ∧ (∀ result accessRequests',
       approveRequest d accessRequests requestId role approverId now
       = (Returned (Some result), accessRequests') →
       ∃ old, Map_get accessRequests requestId = Some old
              ∧ same_length accessRequests' old result.1)
  ∧ (∀ result accessRequests',
       rejectRequest d accessRequests requestId role reason approverId now
       = (Returned (Some result), accessRequests') →
       ∃ old, Map_get accessRequests requestId = Some old
              ∧ same_length accessRequests' old result.1).
Proof.
  intros same_length.
  assert (∀ old new,
            Map_get accessRequests requestId = Some old →
            ar_userId new = ar_userId old →
            same_length (Map_set accessRequests requestId new) old new)
    as Hreplace.
  { intros old new Hget Huser. subst same_length. cbv beta. split_and!.
    - destruct (history_after_replacement accessRequests requestId old new
                  userId Hget Huser) as (before & after & _ & -> & ->).
      rewrite !length_app. by destruct (String.eqb (ar_userId old) userId).
    - destruct (history_after_replacement accessRequests requestId old new
                  (ar_userId old) Hget Huser) as (before & after & _ & -> & _).
      rewrite String.eqb_refl, !in_app_iff. right. left. by left.
    - intros Hne.
      destruct (history_after_replacement accessRequests requestId old new
                  userId Hget Huser) as (before & after & _ & -> & ->).
      assert (String.eqb (ar_userId old) userId = false) as ->; [|done].
      apply String.eqb_neq. congruence. }
  split_and!.
  - intros Hfresh filed. subst filed. unfold createAccessRequest.
    cbn [fst snd]. unfold getAccessRequest in Hfresh.
    rewrite (Map_set_new _ _ _ Hfresh). rewrite !getUserAccessRequests_app.
    unfold getUserAccessRequests at 2 4. cbn.
    rewrite String.eqb_refl. split; [done|].
    intros Hne. apply not_eq_sym, String.eqb_neq in Hne. rewrite Hne.
    apply app_nil_r.
  - intros result accessRequests' H.
    apply approveRequest_returns in H as (old & Hget & _ & _ & Hres & ->).
    exists old. split; [done|]. apply Hreplace; [done|]. by rewrite Hres.
  - intros result accessRequests' H.
    apply rejectRequest_returns in H as (old & Hget & _ & _ & _ & Hres & ->).
    exists old. split; [done|]. apply Hreplace; [done|]. by rewrite Hres.
Qed.

#[local] Transparent updateRequestState.
